(** * Employee Management System: a shallow embedding of [app.py]

    The application is a Streamlit script over a PostgreSQL database.  Every
    user interaction re-runs [main]; [main] bootstraps the schema, updates the
    login session and renders the dashboard of the logged-in role, whose forms
    issue SQL statements through a psycopg2 cursor.

    The embedding keeps that shape:
    - the three tables are lists of rows (in heap order) together with the
      counters of their SERIAL keys;
    - a cursor is a small state-and-exception monad [Tx] that threads the
      database and a log of the statements executed; leaving a connection
      without [commit] (an exception, or no commit in the code) rolls the rows
      back but not the sequences;
    - the constraints declared in [init_db] that the program can trip are
      modelled: the UNIQUE user name, its width VARCHAR(50) and the two
      foreign keys;
    - a string is the sequence of its characters; psycopg2 refuses a string
      parameter that holds the character NUL before the statement is sent;
    - [datetime.date] is the record of year, month and day, with the range
      check of [date + timedelta];
    - SHA-256 is a parameter of the development ([hash_password]).

    Not modelled: connection failures, concurrent sessions racing on the same
    rows, the range of the SERIAL keys. *)

From Stdlib Require Import ZArith NArith List Ascii String Bool Lia.
From Stdlib Require Import Permutation Sorted.
Import ListNotations.
Local Open Scope Z_scope.

(** ** Exceptions and results *)

Inductive exn : Type :=
| OverflowError          (* date value out of range *)
| StopIteration          (* next() over an exhausted generator *)
| KeyError               (* dict lookup of a missing key *)
| ValueError             (* a string parameter holds a NUL character *)
| UniqueViolation        (* psycopg2.errors.UniqueViolation *)
| ForeignKeyViolation    (* psycopg2.errors.ForeignKeyViolation *)
| StringDataRightTruncation.  (* value too long for type character varying *)

Inductive result (A : Type) : Type :=
| Ok (a : A)
| Raise (e : exn).
Arguments Ok {A} a.
Arguments Raise {A} e.

Definition result_bind {A B} (r : result A) (k : A -> result B) : result B :=
  match r with
  | Ok a => k a
  | Raise e => Raise e
  end.

(** Python truthiness of a string: the empty string is falsy. *)
Definition truthy (s : string) : bool :=
  match s with
  | EmptyString => false
  | String _ _ => true
  end.

(** Whether the character NUL occurs in a string. *)
Fixpoint has_nul (s : string) : bool :=
  match s with
  | EmptyString => false
  | String c rest => Ascii.eqb c "000" || has_nul rest
  end.

Fixpoint all_spaces (s : string) : bool :=
  match s with
  | EmptyString => true
  | String c rest => Ascii.eqb c " " && all_spaces rest
  end.

(** The value a VARCHAR(n) column stores for a string: a longer string is an
    error, unless the characters beyond the first [n] are all spaces, which
    are cut off. *)
Definition varchar (n : nat) (s : string) : result string :=
  if (String.length s <=? n)%nat then Ok s
  else if all_spaces (substring n (String.length s - n) s)
       then Ok (substring 0 n s)
       else Raise StringDataRightTruncation.

(** ** Calendar dates ([datetime.date] and the SQL type DATE) *)

Record date : Type := mkDate { year : Z; month : Z; day : Z }.

Definition MINYEAR : Z := 1.
Definition MAXYEAR : Z := 9999.

Definition is_leap (y : Z) : bool :=
  (y mod 4 =? 0) && (negb (y mod 100 =? 0) || (y mod 400 =? 0)).

Definition days_in_month (y m : Z) : Z :=
  if m =? 2 then (if is_leap y then 29 else 28)
  else if (m =? 4) || (m =? 6) || (m =? 9) || (m =? 11) then 30
  else 31.

(** Number of days before January 1st of year [y]. *)
Definition days_before_year (y : Z) : Z :=
  let y1 := y - 1 in y1 * 365 + y1 / 4 - y1 / 100 + y1 / 400.

(** Number of days in year [y] preceding the first day of month [m]. *)
Definition days_before_month (y m : Z) : Z :=
  (match m with
   | 1 => 0 | 2 => 31 | 3 => 59 | 4 => 90 | 5 => 120 | 6 => 151
   | 7 => 181 | 8 => 212 | 9 => 243 | 10 => 273 | 11 => 304 | _ => 334
   end) + (if (2 <? m) && is_leap y then 1 else 0).

(** [date.toordinal()]: 0001-01-01 is day 1. *)
Definition toordinal (d : date) : Z :=
  days_before_year (year d) + days_before_month (year d) (month d) + day d.

(** [date.max.toordinal()], the ordinal of 9999-12-31. *)
Definition MAXORDINAL : Z := 3652059.

(** [date.weekday()]: Monday is 0, Sunday is 6. *)
Definition weekday (d : date) : Z := (toordinal d + 6) mod 7.

(** The values a [datetime.date] can hold. *)
Definition valid_date (d : date) : bool :=
  (MINYEAR <=? year d) && (year d <=? MAXYEAR) &&
  (1 <=? month d) && (month d <=? 12) &&
  (1 <=? day d) && (day d <=? days_in_month (year d) (month d)).

(** Month and day fit the calendar, whatever the year. *)
Definition month_day_ok (d : date) : Prop :=
  1 <= month d <= 12 /\ 1 <= day d <= days_in_month (year d) (month d).

Definition date_eqb (a b : date) : bool :=
  (year a =? year b) && (month a =? month b) && (day a =? day b).

(** Chronological order, as SQL compares two DATE values. *)
Definition date_leb (a b : date) : bool :=
  (year a <? year b) ||
  ((year a =? year b) &&
   ((month a <? month b) || ((month a =? month b) && (day a <=? day b)))).

Definition date_ltb (a b : date) : bool := negb (date_leb b a).

Definition next_day (d : date) : date :=
  if day d <? days_in_month (year d) (month d)
  then mkDate (year d) (month d) (day d + 1)
  else if month d <? 12 then mkDate (year d) (month d + 1) 1
  else mkDate (year d + 1) 1 1.

Definition prev_day (d : date) : date :=
  if 1 <? day d then mkDate (year d) (month d) (day d - 1)
  else if 1 <? month d
  then mkDate (year d) (month d - 1) (days_in_month (year d) (month d - 1))
  else mkDate (year d - 1) 12 31.

Fixpoint days_after (n : nat) (d : date) : date :=
  match n with
  | O => d
  | S k => days_after k (next_day d)
  end.

Fixpoint days_before (n : nat) (d : date) : date :=
  match n with
  | O => d
  | S k => days_before k (prev_day d)
  end.

Arguments days_after : simpl never.
Arguments days_before : simpl never.

(** [d + timedelta(days=n)] for a non-negative [n]: the date [n] days after
    [d], or OverflowError when that day lies beyond [date.max]. *)
Definition date_add (d : date) (n : nat) : result date :=
  if toordinal d + Z.of_nat n <=? MAXORDINAL
  then Ok (days_after n d)
  else Raise OverflowError.

(** [d - timedelta(days=n)] for a non-negative [n]. *)
Definition date_sub (d : date) (n : nat) : result date :=
  if 0 <? toordinal d - Z.of_nat n
  then Ok (days_before n d)
  else Raise OverflowError.

(** [d.replace(day=1)] and [d.replace(month=1, day=1)]; both are always dates. *)
Definition replace_day1 (d : date) : date := mkDate (year d) (month d) 1.
Definition replace_month1_day1 (d : date) : date := mkDate (year d) 1 1.

(** ** Stable sort, the model of ORDER BY

    SQL leaves the order of rows with equal keys open; the model keeps them
    in their incoming order. *)

Section Sorting.
Context {A : Type} (leb : A -> A -> bool).

Fixpoint insert_sorted (x : A) (l : list A) : list A :=
  match l with
  | [] => [x]
  | y :: l' => if leb x y then x :: y :: l' else y :: insert_sorted x l'
  end.

Definition order_by (l : list A) : list A := fold_right insert_sorted [] l.
End Sorting.

(** ** The schema *)

Inductive Role : Type := admin | employee.

Definition role_eqb (a b : Role) : bool :=
  match a, b with
  | admin, admin | employee, employee => true
  | _, _ => false
  end.

Inductive Status : Type := pending | completed.

Definition status_eqb (a b : Status) : bool :=
  match a, b with
  | pending, pending | completed, completed => true
  | _, _ => false
  end.

Module User.
Record t : Type := mk
  { id : Z; username : string; password : string; role : Role }.
End User.

Module WorkReport.
Record t : Type := mk
  { id : Z; user_id : Z; report_date : date; report_content : string;
    created_at : Z }.

Definition set_content (c : string) (r : t) : t :=
  mk (id r) (user_id r) (report_date r) c (created_at r).
End WorkReport.

Module Task.
Record t : Type := mk
  { id : Z; user_id : Z; task_description : string; due_date : date;
    status : Status; created_at : Z }.

Definition set_status (s : Status) (r : t) : t :=
  mk (id r) (user_id r) (task_description r) (due_date r) s (created_at r).
End Task.

(** The database: the rows of the three tables and the next value of each
    SERIAL sequence. *)
Record DB : Type := mkDB
  { users : list User.t;
    work_reports : list WorkReport.t;
    tasks : list Task.t;
    users_id_seq : Z;
    work_reports_id_seq : Z;
    tasks_id_seq : Z }.

(** A database right after the CREATE TABLE statements. *)
Definition empty_db : DB := mkDB [] [] [] 1 1 1.

(** ** Cursors: statements, the transaction monad *)

Inductive stmt : Type :=
| SelectUserByName (username : string)
| InsertUser (username password : string) (r : Role)
| SelectEmployees
| DeleteReportsOfUser (uid : Z)
| DeleteTasksOfUser (uid : Z)
| DeleteUser (uid : Z)
| InsertTask (uid : Z) (description : string) (due : date)
| SelectTasksJoinUsers
| SelectTasksOfUser (uid : Z)
| SelectReportId (uid : Z) (d : date)
| UpdateReportContent (content : string) (rid : Z)
| InsertReport (uid : Z) (d : date) (content : string)
| UpdateTaskCompleted (tid : Z).

Definition is_mutating (s : stmt) : bool :=
  match s with
  | SelectUserByName _ | SelectEmployees | SelectTasksJoinUsers
  | SelectTasksOfUser _ | SelectReportId _ _ => false
  | _ => true
  end.

Record conn : Type := mkConn { c_db : DB; c_log : list stmt }.

Definition Tx (A : Type) : Type := conn -> conn * result A.

Definition ret {A} (a : A) : Tx A := fun c => (c, Ok a).

Definition raise {A} (e : exn) : Tx A := fun c => (c, Raise e).

Definition bind {A B} (m : Tx A) (k : A -> Tx B) : Tx B :=
  fun c =>
    match m c with
    | (c', Ok a) => k a c'
    | (c', Raise e) => (c', Raise e)
    end.

Notation "x <- m ;; k" := (bind m (fun x => k))
  (at level 61, m at next level, right associativity).
Notation "m ;;; k" := (bind m (fun _ => k))
  (at level 61, right associativity).

(** [cur.execute(s)] for a statement that reads: log it, return the rows. *)
Definition query {A} (s : stmt) (f : DB -> A) : Tx A :=
  fun c => (mkConn (c_db c) (c_log c ++ [s]), Ok (f (c_db c))).

(** [cur.execute(s)] for a statement that writes. *)
Definition execute (s : stmt) (f : DB -> DB * result unit) : Tx unit :=
  fun c => let (db', r) := f (c_db c) in (mkConn db' (c_log c ++ [s]), r).

(** The first step of [cur.execute(s, params)]: each string among the
    parameters becomes a quoted literal, and one that holds a NUL character
    raises ValueError; the statement is then not sent. *)
Definition adapt (params : list string) : Tx unit :=
  fun c => (c, if existsb has_nul params then Raise ValueError else Ok tt).

(** What a closed connection leaves behind. *)
Record outcome (A : Type) : Type := mkOutcome
  { out_db : DB; out_log : list stmt; out_res : result A }.
Arguments mkOutcome {A}.
Arguments out_db {A}.
Arguments out_log {A}.
Arguments out_res {A}.

(** Rows are restored on rollback, sequence values are not. *)
Definition rollback (before after : DB) : DB :=
  mkDB (users before) (work_reports before) (tasks before)
       (users_id_seq after) (work_reports_id_seq after) (tasks_id_seq after).

(** Open a connection on [db], run [tx], [conn.commit()] and close.  An
    exception leaves before the commit. *)
Definition transact {A} (tx : Tx A) (db : DB) : outcome A :=
  match tx (mkConn db []) with
  | (c, Ok a) => mkOutcome (c_db c) (c_log c) (Ok a)
  | (c, Raise e) => mkOutcome (rollback db (c_db c)) (c_log c) (Raise e)
  end.

(** ** The SQL statements of the program, on the tables *)

Definition name_is (name : string) (u : User.t) : bool :=
  String.eqb (User.username u) name.

Definition is_employee (u : User.t) : bool := role_eqb (User.role u) employee.
Definition is_admin (u : User.t) : bool := role_eqb (User.role u) admin.

Definition user_exists (uid : Z) (db : DB) : bool :=
  existsb (fun u => User.id u =? uid) (users db).

(** SELECT * FROM users WHERE username = %s, then [fetchone]. *)
Definition select_user_by_name (name : string) (db : DB) : option User.t :=
  find (name_is name) (users db).

(** INSERT INTO users (username, password, role): the literal of the name is
    brought to VARCHAR(50) when the statement is planned; on execution the
    key is drawn from the sequence, then UNIQUE (username) is checked on the
    value to store. *)
Definition insert_user (name pw : string) (r : Role) (db : DB)
  : DB * result unit :=
  match varchar 50 name with
  | Raise e => (db, Raise e)
  | Ok stored =>
      let uid := users_id_seq db in
      if existsb (name_is stored) (users db)
      then (mkDB (users db) (work_reports db) (tasks db)
                 (uid + 1) (work_reports_id_seq db) (tasks_id_seq db),
            Raise UniqueViolation)
      else (mkDB (users db ++ [User.mk uid stored pw r])
                 (work_reports db) (tasks db)
                 (uid + 1) (work_reports_id_seq db) (tasks_id_seq db),
            Ok tt)
  end.

(** SELECT id, username, role FROM users WHERE role = 'employee'. *)
Definition select_employees (db : DB) : list User.t :=
  filter is_employee (users db).

(** DELETE FROM work_reports WHERE user_id = %s. *)
Definition delete_reports_of_user (uid : Z) (db : DB) : DB * result unit :=
  (mkDB (users db)
        (filter (fun r => negb (WorkReport.user_id r =? uid)) (work_reports db))
        (tasks db)
        (users_id_seq db) (work_reports_id_seq db) (tasks_id_seq db),
   Ok tt).

(** DELETE FROM tasks WHERE user_id = %s. *)
Definition delete_tasks_of_user (uid : Z) (db : DB) : DB * result unit :=
  (mkDB (users db) (work_reports db)
        (filter (fun t => negb (Task.user_id t =? uid)) (tasks db))
        (users_id_seq db) (work_reports_id_seq db) (tasks_id_seq db),
   Ok tt).

(** DELETE FROM users WHERE id = %s: refused while a report or a task still
    references a row to delete. *)
Definition delete_user (uid : Z) (db : DB) : DB * result unit :=
  if user_exists uid db &&
     (existsb (fun r => WorkReport.user_id r =? uid) (work_reports db) ||
      existsb (fun t => Task.user_id t =? uid) (tasks db))
  then (db, Raise ForeignKeyViolation)
  else (mkDB (filter (fun u => negb (User.id u =? uid)) (users db))
             (work_reports db) (tasks db)
             (users_id_seq db) (work_reports_id_seq db) (tasks_id_seq db),
        Ok tt).

(** INSERT INTO tasks (user_id, task_description, due_date): status takes its
    default 'pending', created_at the current time. *)
Definition insert_task (uid : Z) (description : string) (due : date) (now : Z)
  (db : DB) : DB * result unit :=
  let tid := tasks_id_seq db in
  if user_exists uid db
  then (mkDB (users db) (work_reports db)
             (tasks db ++ [Task.mk tid uid description due pending now])
             (users_id_seq db) (work_reports_id_seq db) (tid + 1),
        Ok tt)
  else (mkDB (users db) (work_reports db) (tasks db)
             (users_id_seq db) (work_reports_id_seq db) (tid + 1),
        Raise ForeignKeyViolation).

(** SELECT id FROM work_reports WHERE user_id = %s AND report_date = %s, then
    [fetchone]. *)
Definition report_of (uid : Z) (d : date) (r : WorkReport.t) : bool :=
  (WorkReport.user_id r =? uid) && date_eqb (WorkReport.report_date r) d.

Definition select_report_id (uid : Z) (d : date) (db : DB) : option Z :=
  option_map WorkReport.id (find (report_of uid d) (work_reports db)).

(** UPDATE work_reports SET report_content = %s WHERE id = %s. *)
Definition update_report_content (content : string) (rid : Z) (db : DB)
  : DB * result unit :=
  (mkDB (users db)
        (map (fun r => if WorkReport.id r =? rid
                       then WorkReport.set_content content r else r)
             (work_reports db))
        (tasks db)
        (users_id_seq db) (work_reports_id_seq db) (tasks_id_seq db),
   Ok tt).

(** INSERT INTO work_reports (user_id, report_date, report_content). *)
Definition insert_report (uid : Z) (d : date) (content : string) (now : Z)
  (db : DB) : DB * result unit :=
  let rid := work_reports_id_seq db in
  if user_exists uid db
  then (mkDB (users db)
             (work_reports db ++ [WorkReport.mk rid uid d content now])
             (tasks db)
             (users_id_seq db) (rid + 1) (tasks_id_seq db),
        Ok tt)
  else (mkDB (users db) (work_reports db) (tasks db)
             (users_id_seq db) (rid + 1) (tasks_id_seq db),
        Raise ForeignKeyViolation).

(** UPDATE tasks SET status = 'completed' WHERE id = %s. *)
Definition update_task_completed (tid : Z) (db : DB) : DB * result unit :=
  (mkDB (users db) (work_reports db)
        (map (fun t => if Task.id t =? tid
                       then Task.set_status completed t else t)
             (tasks db))
        (users_id_seq db) (work_reports_id_seq db) (tasks_id_seq db),
   Ok tt).

(** [a JOIN users u ON a.user_id = u.id]: every pair of a row and a user it
    references. *)
Definition join_users {A} (user_id : A -> Z) (rows : list A) (us : list User.t)
  : list (User.t * A) :=
  flat_map (fun a =>
              map (fun u => (u, a))
                  (filter (fun u => User.id u =? user_id a) us))
           rows.

(** ** Integrity of the tables

    What the schema promises (primary keys drawn from the sequences, the
    UNIQUE user name, the two foreign keys) and what the report form
    maintains by reading before it writes (one report per user and day). *)

Definition report_key (r : WorkReport.t) : Z * date :=
  (WorkReport.user_id r, WorkReport.report_date r).

Record consistent (db : DB) : Prop := mkConsistent
  { user_ids_fresh :
      Forall (fun u => User.id u < users_id_seq db) (users db);
    user_ids_unique : NoDup (map User.id (users db));
    usernames_unique : NoDup (map User.username (users db));
    report_ids_fresh :
      Forall (fun r => WorkReport.id r < work_reports_id_seq db)
             (work_reports db);
    report_ids_unique : NoDup (map WorkReport.id (work_reports db));
    report_keys_unique : NoDup (map report_key (work_reports db));
    task_ids_fresh :
      Forall (fun t => Task.id t < tasks_id_seq db) (tasks db);
    task_ids_unique : NoDup (map Task.id (tasks db));
    reports_fk :
      Forall (fun r => user_exists (WorkReport.user_id r) db = true)
             (work_reports db);
    tasks_fk :
      Forall (fun t => user_exists (Task.user_id t) db = true) (tasks db) }.

(** The sequences only move forward. *)
Definition seq_le (db db' : DB) : Prop :=
  users_id_seq db <= users_id_seq db' /\
  work_reports_id_seq db <= work_reports_id_seq db' /\
  tasks_id_seq db <= tasks_id_seq db'.

(** The ways one page action can change the database. *)
Inductive change (db : DB) : DB -> Prop :=
| change_sequences db' :
    users db' = users db -> work_reports db' = work_reports db ->
    tasks db' = tasks db -> seq_le db db' ->
    change db db'
| change_new_employee name pw :
    truthy name = true ->
    has_nul name = false ->
    (String.length name <= 50)%nat ->
    existsb (name_is name) (users db) = false ->
    change db
      (mkDB (users db ++ [User.mk (users_id_seq db) name pw employee])
            (work_reports db) (tasks db)
            (users_id_seq db + 1) (work_reports_id_seq db) (tasks_id_seq db))
| change_remove_employee e :
    In e (users db) -> is_employee e = true ->
    change db
      (mkDB (filter (fun u => negb (User.id u =? User.id e)) (users db))
            (filter (fun r => negb (WorkReport.user_id r =? User.id e))
                    (work_reports db))
            (filter (fun t => negb (Task.user_id t =? User.id e)) (tasks db))
            (users_id_seq db) (work_reports_id_seq db) (tasks_id_seq db))
| change_new_task uid description due now :
    user_exists uid db = true ->
    change db
      (mkDB (users db) (work_reports db)
            (tasks db ++
               [Task.mk (tasks_id_seq db) uid description due pending now])
            (users_id_seq db) (work_reports_id_seq db) (tasks_id_seq db + 1))
| change_new_report uid d content now :
    user_exists uid db = true ->
    find (report_of uid d) (work_reports db) = None ->
    change db
      (mkDB (users db)
            (work_reports db ++
               [WorkReport.mk (work_reports_id_seq db) uid d content now])
            (tasks db)
            (users_id_seq db) (work_reports_id_seq db + 1) (tasks_id_seq db))
| change_report_content uid d content r :
    find (report_of uid d) (work_reports db) = Some r ->
    change db
      (mkDB (users db)
            (map (fun r' => if WorkReport.id r' =? WorkReport.id r
                            then WorkReport.set_content content r' else r')
                 (work_reports db))
            (tasks db)
            (users_id_seq db) (work_reports_id_seq db) (tasks_id_seq db))
| change_task_completed uid tid :
    In tid (map Task.id
              (filter (fun t => status_eqb (Task.status t) pending)
                      (filter (fun t => Task.user_id t =? uid) (tasks db)))) ->
    change db
      (mkDB (users db) (work_reports db)
            (map (fun t => if Task.id t =? tid
                           then Task.set_status completed t else t)
                 (tasks db))
            (users_id_seq db) (work_reports_id_seq db) (tasks_id_seq db)).

(** ** Reporting periods *)

Inductive period : Type := Daily | Weekly | Monthly | Yearly.

(** The WHERE clause a period and the selected date add to a report query.
    The week end is computed in Python before the query is sent. *)
Definition period_condition (report_period : period) (selected_date : date)
  : result (date -> bool) :=
  match report_period with
  | Daily => Ok (fun d => date_eqb d selected_date)
  | Weekly =>
      result_bind (date_add selected_date 6) (fun week_end =>
      Ok (fun d => date_leb selected_date d && date_leb d week_end))
  | Monthly =>
      Ok (fun d => (year d =? year selected_date) &&
                   (month d =? month selected_date))
  | Yearly => Ok (fun d => year d =? year selected_date)
  end.

(** The predicate the specification gives for each period kind, written on
    day numbers; [period_condition], from the code, is compared with it in
    [period_condition_spec]. *)
Definition spec_period_predicate (p : period) (anchor d : date) : bool :=
  match p with
  | Daily => date_eqb d anchor
  | Weekly => (toordinal anchor <=? toordinal d) &&
              (toordinal d <=? toordinal anchor + 6)
  | Monthly => (year d =? year anchor) && (month d =? month anchor)
  | Yearly => year d =? year anchor
  end.

(** The value the date picker starts from, given today's date. *)
Definition default_selected_date (report_period : period) (today : date)
  : result date :=
  match report_period with
  | Daily => Ok today
  | Weekly => date_sub today (Z.to_nat (weekday today))
  | Monthly => Ok (replace_day1 today)
  | Yearly => Ok (replace_month1_day1 today)
  end.

(** ORDER BY report_date DESC. *)
Definition date_desc {A} (key : A -> date) (a b : A) : bool :=
  date_leb (key b) (key a).

(** ORDER BY due_date ASC. *)
Definition due_asc {A} (key : A -> Task.t) (a b : A) : bool :=
  date_leb (Task.due_date (key a)) (Task.due_date (key b)).

(** CASE WHEN status = 'pending' THEN 0 ELSE 1 END. *)
Definition status_rank (t : Task.t) : Z :=
  if status_eqb (Task.status t) pending then 0 else 1.

(** ORDER BY CASE ... END, due_date ASC. *)
Definition status_then_due (a b : Task.t) : bool :=
  (status_rank a <? status_rank b) ||
  ((status_rank a =? status_rank b) &&
   date_leb (Task.due_date a) (Task.due_date b)).

(** ** What the pages show *)

Inductive message : Type :=
| Success (text : string)
| Info (text : string)
| Warning (text : string)
| Error (text : string).

Inductive display (A : Type) : Type :=
| ShowInfo (text : string)
| ShowTable (rows : list A) (csv_name : string).
Arguments ShowInfo {A} text.
Arguments ShowTable {A} rows csv_name.

Definition period_lower (p : period) : string :=
  match p with
  | Daily => "daily" | Weekly => "weekly"
  | Monthly => "monthly" | Yearly => "yearly"
  end.

(** Which branch of the report upsert ran. *)
Inductive branch : Type := Updated | Created.

Definition success_message (b : branch) : string :=
  match b with
  | Updated => "Report updated successfully!"
  | Created => "Report submitted successfully!"
  end.

(** ** The download link

    [get_csv_download_link] turns the CSV text of a table into a link whose
    target is a data URL with the text in base64.  The text itself comes out
    of pandas ([df.to_csv(index=False)]) and is an argument here, as the
    bytes of its encoding; [base64.b64encode] is the standard alphabet with
    '=' padding. *)

Definition b64_alphabet : string :=
  "ABCDEFGHIJKLMNOPQRSTUVWXYZabcdefghijklmnopqrstuvwxyz0123456789+/".

Definition b64_pad : ascii := "="%char.

(** The character of a 6-bit value. *)
Definition b64_char (i : N) : ascii :=
  match String.get (N.to_nat i) b64_alphabet with
  | Some c => c
  | None => b64_pad
  end.

Fixpoint b64encode (bytes : string) : string :=
  match bytes with
  | EmptyString => EmptyString
  | String a EmptyString =>
      let x := N_of_ascii a in
      String (b64_char (x / 4))
        (String (b64_char ((x mod 4) * 16))
           (String b64_pad (String b64_pad EmptyString)))
  | String a (String b EmptyString) =>
      let x := N_of_ascii a in
      let y := N_of_ascii b in
      String (b64_char (x / 4))
        (String (b64_char ((x mod 4) * 16 + y / 16))
           (String (b64_char ((y mod 16) * 4))
              (String b64_pad EmptyString)))
  | String a (String b (String c rest)) =>
      let x := N_of_ascii a in
      let y := N_of_ascii b in
      let z := N_of_ascii c in
      String (b64_char (x / 4))
        (String (b64_char ((x mod 4) * 16 + y / 16))
           (String (b64_char ((y mod 16) * 4 + z / 64))
              (String (b64_char (z mod 64)) (b64encode rest))))
  end.

(** The double quote, as a one-character string. *)
Definition dquote : string := String "034"%char EmptyString.

(** f'<a href=[dq]data:file/csv;base64,{b64}[dq] download=[dq]{filename}[dq]>
    Download CSV</a>', with [dq] for the double quote. *)
Definition get_csv_download_link (csv filename : string) : string :=
  let b64 := b64encode csv in
  ("<a href=" ++ dquote ++ "data:file/csv;base64," ++ b64 ++ dquote
   ++ " download=" ++ dquote ++ filename ++ dquote ++ ">Download CSV</a>")%string.

(** The position of a character in the alphabet (64 when it is not there),
    and the reading of a base64 text back into bytes.  The program never
    decodes; these two serve to show that the encoding loses nothing. *)
Fixpoint b64_position (c : ascii) (alphabet : string) : N :=
  match alphabet with
  | EmptyString => 0
  | String c' rest =>
      if Ascii.eqb c c' then 0 else 1 + b64_position c rest
  end.

Definition b64_index (c : ascii) : N := b64_position c b64_alphabet.

Fixpoint b64_unpack (text : string) : string :=
  match text with
  | String c1 (String c2 (String c3 (String c4 rest))) =>
      let i1 := b64_index c1 in
      let i2 := b64_index c2 in
      let i3 := b64_index c3 in
      let i4 := b64_index c4 in
      if Ascii.eqb c3 b64_pad then
        String (ascii_of_N (i1 * 4 + i2 / 16)) EmptyString
      else if Ascii.eqb c4 b64_pad then
        String (ascii_of_N (i1 * 4 + i2 / 16))
          (String (ascii_of_N ((i2 mod 16) * 16 + i3 / 4)) EmptyString)
      else
        String (ascii_of_N (i1 * 4 + i2 / 16))
          (String (ascii_of_N ((i2 mod 16) * 16 + i3 / 4))
             (String (ascii_of_N ((i3 mod 4) * 64 + i4))
                (b64_unpack rest)))
  | _ => EmptyString
  end.

(** ** Sample data

    A stand-in for the digest and a small database, used to run the
    definitions on concrete inputs. *)

Definition toy_digest (s : string) : string := "sha256:" ++ s.

Definition sample_admin : User.t :=
  User.mk 1 "admin" (toy_digest "admin123") admin.

Definition sample_alice : User.t :=
  User.mk 2 "alice" (toy_digest "wonderland") employee.

Definition sample_report : WorkReport.t :=
  WorkReport.mk 1 2 (mkDate 2024 3 11) "Wrote the weekly summary" 1005.

(** Three tasks of one user: completed, pending, pending, the second due
    after the third. *)
Definition sample_tasks : list Task.t :=
  [Task.mk 1 2 "File the expenses" (mkDate 2024 3 1) completed 1001;
   Task.mk 2 2 "Prepare the demo" (mkDate 2024 3 20) pending 1002;
   Task.mk 3 2 "Review the budget" (mkDate 2024 3 10) pending 1003].

Definition sample_db : DB :=
  mkDB [sample_admin; sample_alice] [sample_report] sample_tasks 3 2 4.

(** The sample database once alice is removed. *)
Definition sample_db_without_alice : DB := mkDB [sample_admin] [] [] 3 2 4.

(** A text that holds a NUL character. *)
Definition text_with_nul : string := String "000" "draft".

(** A name of 51 characters, and one of 50 characters followed by spaces. *)
Definition name_of_51 : string :=
  "a-user-name-that-is-one-character-over-the-limit-51".

Definition name_of_50_and_spaces : string :=
  "a-user-name-that-is-exactly-fifty-characters-long-   ".

(** ** The application *)

Section App.

(** [hashlib.sha256(password.encode()).hexdigest()].  The digest is a
    string of 64 hexadecimal digits: as a parameter of a statement it passes
    the NUL check of psycopg2, and it fits the column VARCHAR(100). *)
Variable hash_password : string -> string.

(** *** Bootstrap *)

(** [init_db]: the CREATE TABLE IF NOT EXISTS statements leave existing
    tables alone; the administrator is inserted when no user is called
    'admin'.  The parameters of the INSERT are literals of the program and
    the digest. *)
Definition init_db_tx : Tx unit :=
  existing <- query (SelectUserByName "admin") (select_user_by_name "admin") ;;
  match existing with
  | None =>
      let hashed_password := hash_password "admin123" in
      execute (InsertUser "admin" hashed_password admin)
              (insert_user "admin" hashed_password admin)
  | Some _ => ret tt
  end.

Definition init_db (db : DB) : outcome unit := transact init_db_tx db.

(** *** Authentication *)

(** SELECT * FROM users WHERE username = %s AND password = %s, then
    [fetchone]: the user row, or None.  The user name is adapted before the
    query is sent. *)
Definition authenticate (db : DB) (username password : string)
  : result (option User.t) :=
  let hashed_password := hash_password password in
  if has_nul username then Raise ValueError
  else Ok (find (fun u => String.eqb (User.username u) username &&
                          String.eqb (User.password u) hashed_password)
                (users db)).

(** *** Administrator pages *)

Definition admin_create_employee (username password : string)
  (submit_button : bool) (db : DB) : outcome (option message) :=
  if submit_button then
    if truthy username && truthy password then
      let hashed_password := hash_password password in
      match transact (adapt [username] ;;;
                      execute (InsertUser username hashed_password employee)
                              (insert_user username hashed_password employee))
                     db with
      | mkOutcome db' log (Ok _) =>
          mkOutcome db' log
            (Ok (Some (Success ("Employee " ++ username
                                ++ " created successfully!"))))
      | mkOutcome db' log (Raise UniqueViolation) =>
          mkOutcome db' log
            (Ok (Some (Error ("Username " ++ username ++ " already exists!"))))
      | mkOutcome db' log (Raise e) => mkOutcome db' log (Raise e)
      end
    else mkOutcome db [] (Ok (Some (Warning "Please fill all fields!")))
  else mkOutcome db [] (Ok None).

(** [next(e['id'] for e in employees if e['username'] == selected)]. *)
Definition next_employee_id (employees : list User.t) (selected : string)
  : Tx Z :=
  match find (name_is selected) employees with
  | Some e => ret (User.id e)
  | None => raise StopIteration
  end.

(** The three DELETE statements of the removal, in program order. *)
Definition remove_employee_tx (employee_id : Z) : Tx unit :=
  execute (DeleteReportsOfUser employee_id)
          (delete_reports_of_user employee_id) ;;;
  execute (DeleteTasksOfUser employee_id)
          (delete_tasks_of_user employee_id) ;;;
  execute (DeleteUser employee_id) (delete_user employee_id).

(** The select box offers the user names of [employees], or no selection. *)
Definition admin_manage_employees_tx (selected_employee : option string)
  (remove_button : bool) : Tx (option message) :=
  employees <- query SelectEmployees select_employees ;;
  match employees with
  | [] => ret (Some (Info "No employees found."))
  | _ :: _ =>
      match selected_employee with
      | Some selected =>
          if truthy selected && remove_button then
            employee_id <- next_employee_id employees selected ;;
            remove_employee_tx employee_id ;;;
            ret (Some (Success ("Employee " ++ selected
                                ++ " removed successfully!")))
          else ret None
      | None => ret None
      end
  end.

Definition admin_manage_employees (selected_employee : option string)
  (remove_button : bool) (db : DB) : outcome (option message) :=
  transact (admin_manage_employees_tx selected_employee remove_button) db.

(** The rows the administrator's report query fetches:
    SELECT u.username, wr.report_date, wr.report_content
    FROM work_reports wr JOIN users u ON wr.user_id = u.id
    WHERE 1=1 [AND u.username = %s] AND <period> ORDER BY wr.report_date DESC.
    The user name is a condition unless the select box is on its first
    entry, 'All Employees'; the box returns one of its entries, which are
    stored names. *)
Definition admin_report_rows (selected_employee : string)
  (report_period : period) (selected_date : date) (db : DB)
  : result (list (string * date * string)) :=
  result_bind (period_condition report_period selected_date) (fun in_period =>
  Ok (order_by (date_desc (fun row => snd (fst row)))
        (map (fun ur => (User.username (fst ur),
                         WorkReport.report_date (snd ur),
                         WorkReport.report_content (snd ur)))
             (filter (fun ur =>
                        (if String.eqb selected_employee "All Employees"
                         then true
                         else name_is selected_employee (fst ur)) &&
                        in_period (WorkReport.report_date (snd ur)))
                     (join_users WorkReport.user_id
                                 (work_reports db) (users db)))))).

Definition show_reports {A} (csv_name : string) (reports : list A)
  : display A :=
  match reports with
  | [] => ShowInfo "No reports found for the selected criteria."
  | _ :: _ => ShowTable reports csv_name
  end.

Definition admin_view_reports (selected_employee : string)
  (report_period : period) (selected_date : date) (db : DB)
  : result (display (string * date * string)) :=
  match select_employees db with
  | [] => Ok (ShowInfo "No employees found.")
  | _ :: _ =>
      result_bind
        (admin_report_rows selected_employee report_period selected_date db)
        (fun reports =>
           Ok (show_reports ("reports_" ++ period_lower report_period ++ ".csv")
                            reports))
  end.

(** The rows under "Existing Tasks":
    SELECT t.id, u.username, t.task_description, t.due_date, t.status
    FROM tasks t JOIN users u ON t.user_id = u.id ORDER BY t.due_date ASC. *)
Definition admin_task_rows (db : DB) : list (string * Task.t) :=
  order_by (due_asc snd)
    (map (fun ut => (User.username (fst ut), snd ut))
         (join_users Task.user_id (tasks db) (users db))).

(** The form's message and the task rows fetched after it; no rows are
    fetched when there is no employee. *)
Definition admin_assign_task_tx (selected_employee task_description : string)
  (due_date : date) (submit_button : bool) (now : Z)
  : Tx (option message * option (list (string * Task.t))) :=
  employees <- query SelectEmployees select_employees ;;
  match employees with
  | [] => ret (Some (Info "No employees found."), None)
  | _ :: _ =>
      shown <-
        (if submit_button then
           if truthy selected_employee && truthy task_description then
             employee_id <- next_employee_id employees selected_employee ;;
             adapt [task_description] ;;;
             execute (InsertTask employee_id task_description due_date)
                     (insert_task employee_id task_description due_date now) ;;;
             ret (Some (Success ("Task assigned to " ++ selected_employee
                                 ++ " successfully!")))
           else ret (Some (Warning "Please fill all fields!"))
         else ret None) ;;
      existing <- query SelectTasksJoinUsers admin_task_rows ;;
      ret (shown, Some existing)
  end.

Definition admin_assign_task (selected_employee task_description : string)
  (due_date : date) (submit_button : bool) (now : Z) (db : DB)
  : outcome (option message * option (list (string * Task.t))) :=
  transact (admin_assign_task_tx selected_employee task_description due_date
                                 submit_button now) db.

(** *** Employee pages *)

(** The storage part of the report form: look the report of that user and
    day up, update it if there is one, insert it otherwise. *)
Definition upsert (user_id : Z) (report_date : date) (report_content : string)
  (now : Z) : Tx branch :=
  existing_report <- query (SelectReportId user_id report_date)
                           (select_report_id user_id report_date) ;;
  match existing_report with
  | Some rid =>
      adapt [report_content] ;;;
      execute (UpdateReportContent report_content rid)
              (update_report_content report_content rid) ;;;
      ret Updated
  | None =>
      adapt [report_content] ;;;
      execute (InsertReport user_id report_date report_content)
              (insert_report user_id report_date report_content now) ;;;
      ret Created
  end.

Definition employee_submit_report (user_id : Z) (report_date : date)
  (report_content : string) (submit_button : bool) (now : Z) (db : DB)
  : outcome (option message) :=
  if submit_button then
    if truthy report_content then
      match transact (upsert user_id report_date report_content now) db with
      | mkOutcome db' log (Ok b) =>
          mkOutcome db' log (Ok (Some (Success (success_message b))))
      | mkOutcome db' log (Raise e) => mkOutcome db' log (Raise e)
      end
    else mkOutcome db [] (Ok (Some (Warning "Please enter your work report!")))
  else mkOutcome db [] (Ok None).

(** The rows the employee's report query fetches:
    SELECT report_date, report_content FROM work_reports
    WHERE user_id = %s AND <period> ORDER BY report_date DESC. *)
Definition employee_report_rows (user_id : Z) (report_period : period)
  (selected_date : date) (db : DB) : result (list (date * string)) :=
  result_bind (period_condition report_period selected_date) (fun in_period =>
  Ok (order_by (date_desc fst)
        (map (fun r => (WorkReport.report_date r, WorkReport.report_content r))
             (filter (fun r => (WorkReport.user_id r =? user_id) &&
                               in_period (WorkReport.report_date r))
                     (work_reports db))))).

Definition employee_view_reports (user_id : Z) (report_period : period)
  (selected_date : date) (db : DB) : result (display (date * string)) :=
  result_bind (employee_report_rows user_id report_period selected_date db)
    (fun reports =>
       Ok (show_reports ("my_reports_" ++ period_lower report_period ++ ".csv")
                        reports)).

(** The rows of "My Tasks":
    SELECT id, task_description, due_date, status, created_at FROM tasks
    WHERE user_id = %s
    ORDER BY CASE WHEN status = 'pending' THEN 0 ELSE 1 END, due_date ASC. *)
Definition employee_task_rows (user_id : Z) (db : DB) : list Task.t :=
  order_by status_then_due
    (filter (fun t => Task.user_id t =? user_id) (tasks db)).

(** [task_options[selected_task_display]]: the select box lists the pending
    tasks, each under a label that starts with its id. *)
Definition task_option (pending_tasks : list Task.t) (selected : Z) : Tx Z :=
  if existsb (fun t => Task.id t =? selected) pending_tasks
  then ret selected
  else raise KeyError.

(** [complete]: the UPDATE behind "Mark as Complete". *)
Definition complete (task_id : Z) : Tx unit :=
  execute (UpdateTaskCompleted task_id) (update_task_completed task_id).

Definition employee_view_tasks_tx (user_id : Z) (selected_task : option Z)
  (complete_button : bool) : Tx (list Task.t * option message) :=
  tasks <- query (SelectTasksOfUser user_id) (employee_task_rows user_id) ;;
  match tasks with
  | [] => ret (tasks, Some (Info "No tasks assigned to you."))
  | _ :: _ =>
      let pending_tasks :=
        filter (fun t => status_eqb (Task.status t) pending) tasks in
      match pending_tasks with
      | [] => ret (tasks, Some (Info "No pending tasks found."))
      | _ :: _ =>
          match selected_task with
          | Some selected =>
              if complete_button then
                selected_task_id <- task_option pending_tasks selected ;;
                complete selected_task_id ;;;
                ret (tasks, Some (Success "Task marked as complete!"))
              else ret (tasks, None)
          | None => ret (tasks, None)
          end
      end
  end.

Definition employee_view_tasks (user_id : Z) (selected_task : option Z)
  (complete_button : bool) (db : DB)
  : outcome (list Task.t * option message) :=
  transact (employee_view_tasks_tx user_id selected_task complete_button) db.

(** *** The script *)

(** [st.session_state.user]: None, or the user row fetched at login. *)
Record State : Type := mkState { st_db : DB; session_user : option User.t }.

(** A new browser connection: no 'user' key yet, so [main] stores None. *)
Definition new_session (db : DB) : State := mkState db None.

(** What the user did on the page that triggered this run of the script. *)
Inductive event : Type :=
| Refresh
| Login (username password : string)
| Logout
| CreateEmployee (username password : string)
| RemoveEmployee (selected : string)
| AssignTask (selected description : string) (due : date) (now : Z)
| SubmitReport (report_date : date) (content : string) (now : Z)
| CompleteTask (selected : Z).

(** Whether the page called [st.rerun()]: the removal of an employee and
    the completion of a task do after their commit. *)
Definition succeeded {A} (o : outcome A) (shown : A -> option message) : bool :=
  match out_res o with
  | Ok a => match shown a with
            | Some (Success _) => true
            | _ => false
            end
  | Raise _ => false
  end.

(** The dashboard of an administrator: each tab runs, only the widget the
    user touched submits.  The result is the database left behind and
    whether the script asked for a rerun. *)
Definition admin_dashboard (ev : event) (db : DB) : DB * bool :=
  match ev with
  | CreateEmployee username password =>
      (out_db (admin_create_employee username password true db), false)
  | RemoveEmployee selected =>
      let o := admin_manage_employees (Some selected) true db in
      (out_db o, succeeded o (fun m => m))
  | AssignTask selected description due now =>
      (out_db (admin_assign_task selected description due true now db), false)
  | _ => (db, false)
  end.

(** The dashboard of any other role. *)
Definition employee_dashboard (user_id : Z) (ev : event) (db : DB)
  : DB * bool :=
  match ev with
  | SubmitReport report_date content now =>
      (out_db (employee_submit_report user_id report_date content true now db),
       false)
  | CompleteTask selected =>
      let o := employee_view_tasks user_id (Some selected) true db in
      (out_db o, succeeded o snd)
  | _ => (db, false)
  end.

(** What one run of the script leaves: the database and the session, the
    message of the sidebar, and whether [st.rerun()] was called.  An
    exception ends the run where it is raised: what was committed stays, and
    neither a message nor a rerun follows. *)
Record page : Type := mkPage
  { page_state : State; page_message : option message; page_rerun : bool }.

(** One run of [main].  The sidebar shows the logout button to a logged-in
    user and the login form to anybody else; the dashboards are reached only
    when the sidebar did not ask for a rerun. *)
Definition main (ev : event) (s : State) : page :=
  let db := out_db (init_db (st_db s)) in
  match session_user s with
  | Some user =>
      match ev with
      | Logout => mkPage (mkState db None) None true
      | _ =>
          match User.role user with
          | admin =>
              let (db', rerun) := admin_dashboard ev db in
              mkPage (mkState db' (Some user)) None rerun
          | employee =>
              let (db', rerun) := employee_dashboard (User.id user) ev db in
              mkPage (mkState db' (Some user)) None rerun
          end
      end
  | None =>
      match ev with
      | Login username password =>
          match authenticate db username password with
          | Ok (Some user) => mkPage (mkState db (Some user)) None true
          | Ok None =>
              mkPage (mkState db None)
                     (Some (Error "Invalid username or password")) false
          | Raise _ => mkPage (mkState db None) None false
          end
      | _ => mkPage (mkState db None) None false
      end
  end.

(** One interaction: the run it triggers and, after [st.rerun()], one more
    run with nothing submitted. *)
Definition interact (ev : event) (s : State) : State :=
  let p := main ev s in
  if page_rerun p then page_state (main Refresh (page_state p))
  else page_state p.

(** *** The states the database can be in *)

(** A mutating action of some session, with the inputs it submits. *)
Inductive action : Type :=
| ACreateEmployee (username password : string)
| ARemoveEmployee (selected : string)
| AAssignTask (selected description : string) (due : date) (now : Z)
| ASubmitReport (user_id : Z) (report_date : date) (content : string) (now : Z)
| ACompleteTask (user_id : Z) (selected : Z).

Definition perform (a : action) (db : DB) : DB :=
  match a with
  | ACreateEmployee username password =>
      out_db (admin_create_employee username password true db)
  | ARemoveEmployee selected =>
      out_db (admin_manage_employees (Some selected) true db)
  | AAssignTask selected description due now =>
      out_db (admin_assign_task selected description due true now db)
  | ASubmitReport user_id report_date content now =>
      out_db (employee_submit_report user_id report_date content true now db)
  | ACompleteTask user_id selected =>
      out_db (employee_view_tasks user_id (Some selected) true db)
  end.

(** Every run of the script bootstraps first, then performs at most one
    action; the runs of all sessions follow one another. *)
Inductive reachable : DB -> Prop :=
| reach_boot : reachable (out_db (init_db empty_db))
| reach_run db : reachable db -> reachable (out_db (init_db db))
| reach_action db a :
    reachable db -> reachable (perform a (out_db (init_db db))).

(** The administrator row that [init_db] seeds into an empty database. *)
Definition seeded_admin : User.t :=
  User.mk 1 "admin" (hash_password "admin123") admin.

(** The seeded administrator is the only user whose role is admin. *)
Definition single_admin (db : DB) : Prop :=
  filter is_admin (users db) = [seeded_admin].

(** The form refuses an empty user name. *)
Definition named (db : DB) : Prop :=
  Forall (fun u => truthy (User.username u) = true) (users db).

(** A stored user name holds no NUL character and at most 50 characters. *)
Definition storable (name : string) : Prop :=
  has_nul name = false /\ (String.length name <= 50)%nat.

Definition names_stored (db : DB) : Prop :=
  Forall (fun u => storable (User.username u)) (users db).

Definition wf (db : DB) : Prop :=
  consistent db /\ single_admin db /\ named db /\ names_stored db.

(** * Properties *)

(** ** The calendar *)

Lemma valid_date_spec d :
  valid_date d = true <->
  (MINYEAR <= year d <= MAXYEAR /\ month_day_ok d).
Proof.
  unfold valid_date, month_day_ok.
  rewrite !andb_true_iff, !Z.leb_le. tauto.
Qed.

Lemma date_eqb_eq a b : date_eqb a b = true <-> a = b.
Proof.
  unfold date_eqb. rewrite !andb_true_iff, !Z.eqb_eq.
  destruct a, b; simpl. split.
  - intros [[-> ->] ->]. reflexivity.
  - intros [= -> -> ->]. auto.
Qed.

Lemma date_eqb_refl a : date_eqb a a = true.
Proof. apply date_eqb_eq. reflexivity. Qed.

Lemma date_leb_spec a b :
  date_leb a b = true <->
  (year a < year b \/
   (year a = year b /\
    (month a < month b \/ (month a = month b /\ day a <= day b)))).
Proof.
  unfold date_leb.
  rewrite !orb_true_iff, !andb_true_iff, !orb_true_iff, !andb_true_iff,
    !Z.ltb_lt, !Z.eqb_eq, Z.leb_le. tauto.
Qed.

Lemma date_leb_total a b : date_leb a b = true \/ date_leb b a = true.
Proof. rewrite !date_leb_spec. lia. Qed.

Lemma date_leb_trans a b c :
  date_leb a b = true -> date_leb b c = true -> date_leb a c = true.
Proof. rewrite !date_leb_spec. lia. Qed.

Lemma date_leb_refl a : date_leb a a = true.
Proof. rewrite date_leb_spec. lia. Qed.

Lemma date_leb_antisym a b :
  date_leb a b = true -> date_leb b a = true -> a = b.
Proof.
  rewrite !date_leb_spec. destruct a, b; simpl. intros H1 H2.
  assert (year0 = year1 /\ month0 = month1 /\ day0 = day1) as (-> & -> & ->)
    by lia.
  reflexivity.
Qed.

Lemma is_leap_spec y :
  is_leap y = true <-> (y mod 4 = 0 /\ (y mod 100 <> 0 \/ y mod 400 = 0)).
Proof.
  unfold is_leap.
  rewrite andb_true_iff, orb_true_iff, negb_true_iff, !Z.eqb_eq, Z.eqb_neq.
  tauto.
Qed.

Lemma days_before_year_succ y :
  days_before_year (y + 1) =
  days_before_year y + (if is_leap y then 366 else 365).
Proof.
  unfold days_before_year. cbv zeta.
  replace (y + 1 - 1) with y by lia.
  destruct (is_leap y) eqn:L.
  - apply is_leap_spec in L. Z.div_mod_to_equations. lia.
  - assert (~ (y mod 4 = 0 /\ (y mod 100 <> 0 \/ y mod 400 = 0))) as N.
    { rewrite <- is_leap_spec, L. discriminate. }
    Z.div_mod_to_equations. lia.
Qed.

Lemma days_before_year_le y1 y2 :
  y1 <= y2 -> days_before_year y1 <= days_before_year y2.
Proof.
  unfold days_before_year. cbv zeta. intros H.
  Z.div_mod_to_equations. lia.
Qed.

(** Case analysis on a month number known to lie in 1..12. *)
Ltac each_month m :=
  let H := fresh "Hm" in
  assert (m = 1 \/ m = 2 \/ m = 3 \/ m = 4 \/ m = 5 \/ m = 6 \/
          m = 7 \/ m = 8 \/ m = 9 \/ m = 10 \/ m = 11 \/ m = 12) as H by lia;
  repeat (destruct H as [H | H]); subst m.

Lemma days_before_month_succ y m :
  1 <= m <= 11 ->
  days_before_month y (m + 1) = days_before_month y m + days_in_month y m.
Proof.
  intros H. each_month m; try lia;
    unfold days_before_month, days_in_month; simpl;
    destruct (is_leap y); reflexivity.
Qed.

Lemma days_before_month_december y :
  days_before_month y 12 + days_in_month y 12 =
  if is_leap y then 366 else 365.
Proof.
  unfold days_before_month, days_in_month; simpl.
  destruct (is_leap y); reflexivity.
Qed.

Lemma days_in_month_pos y m : 28 <= days_in_month y m <= 31.
Proof.
  unfold days_in_month.
  destruct (m =? 2); [destruct (is_leap y); lia |].
  destruct ((m =? 4) || (m =? 6) || (m =? 9) || (m =? 11)); lia.
Qed.

Lemma days_before_month_lt y m1 m2 :
  1 <= m1 -> m1 < m2 -> m2 <= 12 ->
  days_before_month y m1 + days_in_month y m1 <= days_before_month y m2.
Proof.
  intros H1 H2 H3.
  each_month m1; each_month m2; try lia;
    unfold days_before_month, days_in_month; simpl;
    destruct (is_leap y); lia.
Qed.

Lemma days_before_month_bounds y m :
  1 <= m <= 12 ->
  0 <= days_before_month y m /\
  days_before_month y m + days_in_month y m <=
  (if is_leap y then 366 else 365).
Proof.
  intros H. each_month m; unfold days_before_month, days_in_month; simpl;
    destruct (is_leap y); lia.
Qed.

Lemma next_day_ok d : month_day_ok d -> month_day_ok (next_day d).
Proof.
  unfold month_day_ok, next_day. intros [Hm Hd].
  destruct (Z.ltb_spec (day d) (days_in_month (year d) (month d))); simpl.
  - lia.
  - destruct (Z.ltb_spec (month d) 12); simpl.
    + pose proof (days_in_month_pos (year d) (month d + 1)). lia.
    + pose proof (days_in_month_pos (year d + 1) 1). lia.
Qed.

Lemma toordinal_next_day d :
  month_day_ok d -> toordinal (next_day d) = toordinal d + 1.
Proof.
  unfold month_day_ok, next_day, toordinal. intros [Hm Hd].
  destruct (Z.ltb_spec (day d) (days_in_month (year d) (month d))); simpl.
  - lia.
  - destruct (Z.ltb_spec (month d) 12); simpl.
    + rewrite days_before_month_succ by lia. lia.
    + assert (month d = 12) as E by lia.
      rewrite days_before_year_succ.
      pose proof (days_before_month_december (year d)) as D.
      rewrite E in *.
      change (days_before_month (year d + 1) 1) with 0.
      destruct (is_leap (year d)); lia.
Qed.

Lemma days_after_S n d : days_after (S n) d = days_after n (next_day d).
Proof. reflexivity. Qed.

Lemma days_after_ok n d : month_day_ok d -> month_day_ok (days_after n d).
Proof.
  revert d. induction n as [|n IH]; intros d H.
  - exact H.
  - rewrite days_after_S. apply IH, next_day_ok, H.
Qed.

Lemma toordinal_days_after n d :
  month_day_ok d -> toordinal (days_after n d) = toordinal d + Z.of_nat n.
Proof.
  revert d. induction n as [|n IH]; intros d H.
  - change (days_after 0 d) with d. lia.
  - rewrite days_after_S, IH by auto using next_day_ok.
    rewrite toordinal_next_day by assumption. lia.
Qed.

(** Within the calendar, the order of dates is the order of their ordinals. *)
Lemma toordinal_lt a b :
  month_day_ok a -> month_day_ok b ->
  date_leb a b = true -> a <> b -> toordinal a < toordinal b.
Proof.
  intros [Ham Had] [Hbm Hbd] L N. apply date_leb_spec in L.
  unfold toordinal.
  destruct L as [Hy | [Hy [Hmth | [Hmth Hday]]]].
  - pose proof (days_before_year_le (year a + 1) (year b) ltac:(lia)) as Y.
    rewrite days_before_year_succ in Y.
    pose proof (days_before_month_bounds (year a) (month a) Ham).
    pose proof (days_before_month_bounds (year b) (month b) Hbm).
    destruct (is_leap (year a)); lia.
  - rewrite Hy in *.
    pose proof (days_before_month_lt (year b) (month a) (month b)
                  ltac:(lia) Hmth ltac:(lia)).
    lia.
  - assert (day a <> day b).
    { intros E. apply N. destruct a, b; simpl in *. congruence. }
    rewrite Hy, Hmth. lia.
Qed.

Lemma date_leb_toordinal a b :
  month_day_ok a -> month_day_ok b ->
  (date_leb a b = true <-> toordinal a <= toordinal b).
Proof.
  intros Ha Hb. split.
  - intros L. destruct (date_eqb a b) eqn:E.
    + apply date_eqb_eq in E. subst. lia.
    + assert (a <> b) as N
        by (intros ->; rewrite date_eqb_refl in E; discriminate).
      pose proof (toordinal_lt a b Ha Hb L N). lia.
  - intros L. destruct (date_leb_total a b) as [|R]; [assumption|].
    destruct (date_eqb a b) eqn:E.
    + apply date_eqb_eq in E. subst. apply date_leb_refl.
    + assert (b <> a) as N
        by (intros ->; rewrite date_eqb_refl in E; discriminate).
      pose proof (toordinal_lt b a Hb Ha R N). lia.
Qed.

Lemma valid_month_day_ok d : valid_date d = true -> month_day_ok d.
Proof. intros H. apply valid_date_spec in H. tauto. Qed.

(** The calendar bound of [date_add] in terms of the fields: the largest
    date is 9999-12-31. *)
Lemma MAXORDINAL_is_max : toordinal (mkDate 9999 12 31) = MAXORDINAL.
Proof. reflexivity. Qed.

Lemma valid_date_toordinal d :
  valid_date d = true -> 1 <= toordinal d <= MAXORDINAL.
Proof.
  intros H. pose proof (valid_month_day_ok d H) as Hok.
  apply valid_date_spec in H. destruct H as [[Hy1 Hy2] _].
  unfold MINYEAR, MAXYEAR in *.
  assert (month_day_ok (mkDate 1 1 1)) as O1 by (cbv; intuition congruence).
  assert (month_day_ok (mkDate 9999 12 31)) as O2 by (cbv; intuition congruence).
  split.
  - change 1 with (toordinal (mkDate 1 1 1)).
    apply date_leb_toordinal; auto.
    apply date_leb_spec; simpl. destruct Hok. lia.
  - rewrite <- MAXORDINAL_is_max.
    apply date_leb_toordinal; auto.
    apply date_leb_spec; simpl. destruct Hok as [? ?].
    pose proof (days_in_month_pos (year d) (month d)). lia.
Qed.

(** ** ORDER BY *)

Section SortingFacts.
Context {A : Type} (leb : A -> A -> bool).

Lemma insert_sorted_perm x l : Permutation (insert_sorted leb x l) (x :: l).
Proof.
  induction l as [|y l IH]; simpl.
  - reflexivity.
  - destruct (leb x y).
    + reflexivity.
    + rewrite IH. apply perm_swap.
Qed.

Lemma order_by_perm l : Permutation (order_by leb l) l.
Proof.
  induction l as [|x l IH]; simpl.
  - constructor.
  - rewrite insert_sorted_perm. now constructor.
Qed.

Lemma order_by_In x l : In x (order_by leb l) <-> In x l.
Proof.
  split; apply Permutation_in;
    [apply order_by_perm | symmetry; apply order_by_perm].
Qed.

Lemma order_by_length l : List.length (order_by leb l) = List.length l.
Proof. apply Permutation_length, order_by_perm. Qed.

Lemma order_by_nil_inv l : order_by leb l = [] -> l = [].
Proof.
  intros H. apply Permutation_nil. rewrite <- H. apply order_by_perm.
Qed.

Hypothesis leb_total : forall a b, leb a b = true \/ leb b a = true.
Hypothesis leb_trans :
  forall a b c, leb a b = true -> leb b c = true -> leb a c = true.

Lemma insert_sorted_sorted x l :
  StronglySorted (fun a b => leb a b = true) l ->
  StronglySorted (fun a b => leb a b = true) (insert_sorted leb x l).
Proof.
  induction 1 as [|y l Hs IH Hall]; simpl.
  - repeat constructor.
  - destruct (leb x y) eqn:E.
    + constructor.
      * now constructor.
      * constructor; [exact E|].
        eapply Forall_impl; [|exact Hall].
        intros z Hz. exact (leb_trans _ _ _ E Hz).
    + constructor; [exact IH|].
      assert (leb y x = true) as Hyx by (destruct (leb_total x y); congruence).
      rewrite Forall_forall in *. intros z Hz.
      apply (Permutation_in _ (insert_sorted_perm x l)) in Hz.
      destruct Hz as [<- | Hz]; auto.
Qed.

Lemma order_by_sorted l :
  StronglySorted (fun a b => leb a b = true) (order_by leb l).
Proof.
  induction l as [|x l IH]; simpl.
  - constructor.
  - now apply insert_sorted_sorted.
Qed.

End SortingFacts.

(** ** Report periods and the report queries *)

Lemma in_join_users {A} (key : A -> Z) rows us u a :
  In (u, a) (join_users key rows us) <->
  In a rows /\ In u us /\ User.id u = key a.
Proof.
  unfold join_users. rewrite in_flat_map. split.
  - intros (a' & Ha & Hin). apply in_map_iff in Hin.
    destruct Hin as (u' & [= <- <-] & Hu).
    apply filter_In in Hu. destruct Hu as [Hu E].
    apply Z.eqb_eq in E. auto.
  - intros (Ha & Hu & E). exists a. split; [assumption|].
    apply in_map_iff. exists u. split; [reflexivity|].
    apply filter_In. split; [assumption|]. now apply Z.eqb_eq.
Qed.

(** The condition built by the code is the specified predicate, on every
    anchor whose week end is a date. *)
Lemma date_add_ok d n :
  toordinal d + Z.of_nat n <= MAXORDINAL -> date_add d n = Ok (days_after n d).
Proof.
  intros H. unfold date_add.
  destruct (Z.leb_spec (toordinal d + Z.of_nat n) MAXORDINAL);
    [reflexivity | lia].
Qed.

Lemma date_add_overflow d n :
  MAXORDINAL < toordinal d + Z.of_nat n -> date_add d n = Raise OverflowError.
Proof.
  intros H. unfold date_add.
  destruct (Z.leb_spec (toordinal d + Z.of_nat n) MAXORDINAL);
    [lia | reflexivity].
Qed.

Lemma period_condition_spec p anchor :
  valid_date anchor = true ->
  (p = Weekly -> toordinal anchor + 6 <= MAXORDINAL) ->
  exists f,
    period_condition p anchor = Ok f /\
    forall d, valid_date d = true -> f d = spec_period_predicate p anchor d.
Proof.
  intros Va Hw. destruct p; unfold period_condition, spec_period_predicate.
  - eexists. split; reflexivity.
  - rewrite (date_add_ok anchor 6) by (apply Hw; reflexivity).
    unfold result_bind. eexists. split; [reflexivity|]. intros d Vd.
    pose proof (valid_month_day_ok _ Va) as Oa.
    pose proof (valid_month_day_ok _ Vd) as Od.
    pose proof (days_after_ok 6 anchor Oa) as Oe.
    pose proof (toordinal_days_after 6 anchor Oa) as Te.
    apply eq_iff_eq_true.
    rewrite !andb_true_iff, !Z.leb_le.
    rewrite (date_leb_toordinal anchor d Oa Od).
    rewrite (date_leb_toordinal d _ Od Oe).
    rewrite Te. reflexivity.
  - eexists. split; reflexivity.
  - eexists. split; reflexivity.
Qed.

(** Beyond that anchor the week end is not a date, and no query is sent. *)
Lemma period_condition_overflow anchor :
  MAXORDINAL < toordinal anchor + 6 ->
  period_condition Weekly anchor = Raise OverflowError.
Proof.
  intros H. unfold period_condition.
  rewrite (date_add_overflow anchor 6) by exact H. reflexivity.
Qed.

Lemma weekly_reads_overflow user_id selected_employee anchor db :
  MAXORDINAL < toordinal anchor + 6 ->
  employee_report_rows user_id Weekly anchor db = Raise OverflowError /\
  admin_report_rows selected_employee Weekly anchor db = Raise OverflowError.
Proof.
  intros H. unfold employee_report_rows, admin_report_rows.
  rewrite (period_condition_overflow anchor H). split; reflexivity.
Qed.

Lemma spec_period_predicate_iff p anchor d :
  spec_period_predicate p anchor d = true <->
  match p with
  | Daily => d = anchor
  | Weekly => toordinal anchor <= toordinal d <= toordinal anchor + 6
  | Monthly => year d = year anchor /\ month d = month anchor
  | Yearly => year d = year anchor
  end.
Proof.
  destruct p; simpl.
  - apply date_eqb_eq.
  - rewrite andb_true_iff, !Z.leb_le. reflexivity.
  - rewrite andb_true_iff, !Z.eqb_eq. reflexivity.
  - apply Z.eqb_eq.
Qed.

Lemma date_desc_total {A} (key : A -> date) a b :
  date_desc key a b = true \/ date_desc key b a = true.
Proof. unfold date_desc. apply date_leb_total. Qed.

Lemma date_desc_trans {A} (key : A -> date) a b c :
  date_desc key a b = true -> date_desc key b c = true ->
  date_desc key a c = true.
Proof. unfold date_desc. intros H1 H2. eapply date_leb_trans; eauto. Qed.

Lemma show_reports_nil {A} name : @show_reports A name [] =
  ShowInfo "No reports found for the selected criteria.".
Proof. reflexivity. Qed.

(** C1 (amended).  For every period kind and every anchor date whose week
    end (anchor + 6 days) is still a date, i.e. not later than 9999-12-31 when
    the period is Weekly, both report reads return rows, and exactly the rows
    in their scope (the given user's reports for an employee, the reports
    joined with their owners, of the selected user name unless the selection
    is 'All Employees', for the administrator) whose report_date satisfies the period predicate: Daily,
    the date equals the anchor; Weekly, its day number lies in
    [anchor, anchor + 6]; Monthly, same year and month; Yearly, same year.
    The rows come ordered by report_date descending, and when nothing matches
    the result is the empty list, shown as an information message. *)
Theorem report_reads_match_period
  (db : DB) (user_id : Z) (selected_employee : string)
  (p : period) (anchor : date) :
  valid_date anchor = true ->
  (forall r, In r (work_reports db) ->
             valid_date (WorkReport.report_date r) = true) ->
  (p = Weekly -> toordinal anchor + 6 <= MAXORDINAL) ->
  exists mine every,
    employee_report_rows user_id p anchor db = Ok mine /\
    admin_report_rows selected_employee p anchor db = Ok every /\
    Permutation mine
      (map (fun r => (WorkReport.report_date r, WorkReport.report_content r))
         (filter (fun r =>
                    (WorkReport.user_id r =? user_id) &&
                    spec_period_predicate p anchor (WorkReport.report_date r))
                 (work_reports db))) /\
    Permutation every
      (map (fun ur => (User.username (fst ur),
                       WorkReport.report_date (snd ur),
                       WorkReport.report_content (snd ur)))
         (filter (fun ur =>
                    (if String.eqb selected_employee "All Employees"
                     then true
                     else String.eqb (User.username (fst ur))
                                     selected_employee) &&
                    spec_period_predicate p anchor
                      (WorkReport.report_date (snd ur)))
                 (join_users WorkReport.user_id (work_reports db) (users db))))
    /\
    (forall d c,
        In (d, c) mine <->
        exists r, In r (work_reports db) /\
                  WorkReport.user_id r = user_id /\
                  WorkReport.report_date r = d /\
                  WorkReport.report_content r = c /\
                  match p with
                  | Daily => d = anchor
                  | Weekly =>
                      toordinal anchor <= toordinal d <= toordinal anchor + 6
                  | Monthly => year d = year anchor /\ month d = month anchor
                  | Yearly => year d = year anchor
                  end) /\
    (forall name d c,
        In (name, d, c) every <->
        exists u r, In u (users db) /\ In r (work_reports db) /\
                    WorkReport.user_id r = User.id u /\
                    User.username u = name /\
                    (selected_employee <> "All Employees"%string ->
                     name = selected_employee) /\
                    WorkReport.report_date r = d /\
                    WorkReport.report_content r = c /\
                    match p with
                    | Daily => d = anchor
                    | Weekly =>
                        toordinal anchor <= toordinal d <= toordinal anchor + 6
                    | Monthly => year d = year anchor /\ month d = month anchor
                    | Yearly => year d = year anchor
                    end) /\
    StronglySorted (fun a b => date_leb (fst b) (fst a) = true) mine /\
    StronglySorted
      (fun a b => date_leb (snd (fst b)) (snd (fst a)) = true) every /\
    (mine = [] ->
     employee_view_reports user_id p anchor db =
     Ok (ShowInfo "No reports found for the selected criteria.")) /\
    (every = [] ->
     exists text,
       admin_view_reports selected_employee p anchor db = Ok (ShowInfo text)).
Proof.
  intros Va Vr Hw.
  destruct (period_condition_spec p anchor Va Hw) as (f & Ef & Hf).
  unfold employee_report_rows, admin_report_rows,
    employee_view_reports, admin_view_reports,
    employee_report_rows, admin_report_rows.
  rewrite Ef. unfold result_bind.
  assert (filter (fun r => (WorkReport.user_id r =? user_id) &&
                           f (WorkReport.report_date r)) (work_reports db) =
          filter (fun r => (WorkReport.user_id r =? user_id) &&
                           spec_period_predicate p anchor
                             (WorkReport.report_date r)) (work_reports db))
    as F1.
  { apply filter_ext_in. intros r Hr. rewrite Hf by auto. reflexivity. }
  assert (filter (fun ur =>
                    (if String.eqb selected_employee "All Employees"
                     then true
                     else name_is selected_employee (fst ur)) &&
                    f (WorkReport.report_date (snd ur)))
                 (join_users WorkReport.user_id (work_reports db) (users db)) =
          filter (fun ur =>
                    (if String.eqb selected_employee "All Employees"
                     then true
                     else String.eqb (User.username (fst ur))
                                     selected_employee) &&
                    spec_period_predicate p anchor
                      (WorkReport.report_date (snd ur)))
                 (join_users WorkReport.user_id (work_reports db) (users db)))
    as F2.
  { apply filter_ext_in. intros [u r] Hur. apply in_join_users in Hur.
    destruct Hur as (Hr & _). simpl. rewrite Hf by (apply Vr; exact Hr).
    reflexivity. }
  rewrite F1, F2. clear F1 F2.
  eexists. eexists.
  split; [reflexivity|]. split; [reflexivity|].
  split; [apply order_by_perm|]. split; [apply order_by_perm|].
  split; [|split; [|split; [|split; [|split]]]].
  - intros d c. rewrite order_by_In, in_map_iff. split.
    + intros (r & [= <- <-] & Hr). apply filter_In in Hr.
      destruct Hr as [Hr Hc]. apply andb_true_iff in Hc.
      destruct Hc as [Hu Hp]. apply Z.eqb_eq in Hu.
      apply spec_period_predicate_iff in Hp.
      exists r. auto 6.
    + intros (r & Hr & Hu & <- & <- & Hp). exists r. split; [reflexivity|].
      apply filter_In. split; [assumption|].
      apply andb_true_iff. split; [now apply Z.eqb_eq|].
      now apply spec_period_predicate_iff.
  - intros name d c. rewrite order_by_In, in_map_iff. split.
    + intros ([u r] & [= <- <- <-] & Hr). apply filter_In in Hr.
      destruct Hr as [Hr Hc]. apply in_join_users in Hr.
      destruct Hr as (Hr & Hu & E). simpl in Hc.
      apply andb_true_iff in Hc. destruct Hc as [Hs Hp].
      apply spec_period_predicate_iff in Hp.
      exists u, r. simpl. repeat split; auto.
      intros Hn. apply String.eqb_neq in Hn. rewrite Hn in Hs.
      now apply String.eqb_eq in Hs.
    + intros (u & r & Hu & Hr & E & <- & Hs & <- & <- & Hp).
      exists (u, r). split; [reflexivity|].
      apply filter_In. split; [apply in_join_users; auto|].
      simpl. apply andb_true_iff. split.
      * destruct (String.eqb_spec selected_employee "All Employees")
          as [|Hn]; [reflexivity|].
        apply String.eqb_eq. now apply Hs.
      * now apply spec_period_predicate_iff.
  - apply (order_by_sorted (date_desc fst));
      [apply date_desc_total | apply date_desc_trans].
  - apply (order_by_sorted (date_desc (fun row : string * date * string =>
                                         snd (fst row))));
      [apply date_desc_total | apply date_desc_trans].
  - intros ->. reflexivity.
  - intros ->. destruct (select_employees db); eexists; reflexivity.
Qed.

(** ** What each page action does to the database *)

Lemma change_refl db : change db db.
Proof. apply change_sequences; unfold seq_le; auto with zarith. Qed.

Lemma seq_le_refl db : seq_le db db.
Proof. unfold seq_le; auto with zarith. Qed.

Lemma change_rollback db db' : seq_le db db' -> change db (rollback db db').
Proof. intros H. apply change_sequences; auto. Qed.

Lemma find_name_is_existsb name l :
  existsb (name_is name) l = match find (name_is name) l with
                             | Some _ => true
                             | None => false
                             end.
Proof.
  induction l as [|u l IH]; simpl; [reflexivity|].
  destruct (name_is name u); auto.
Qed.

(** *** Strings as parameters and as stored values *)

Lemma adapt_one s c :
  adapt [s] c = (c, if has_nul s then Raise ValueError else Ok tt).
Proof. unfold adapt. cbn [existsb]. now rewrite orb_false_r. Qed.

Lemma varchar_fits n s : (String.length s <= n)%nat -> varchar n s = Ok s.
Proof.
  intros H. unfold varchar. apply Nat.leb_le in H. now rewrite H.
Qed.

Lemma has_nul_substring s : forall a n,
  has_nul s = false -> has_nul (substring a n s) = false.
Proof.
  induction s as [|c s IH]; intros a n H.
  - destruct a, n; reflexivity.
  - cbn [has_nul] in H. apply orb_false_iff in H. destruct H as [Hc Hs].
    destruct a as [|a]; destruct n as [|n]; cbn [substring has_nul];
      try reflexivity; auto.
    rewrite Hc. cbn [orb]. auto.
Qed.

Lemma length_prefix s : forall n,
  (String.length (substring 0 n s) <= n)%nat.
Proof.
  induction s as [|c s IH]; intros [|n]; cbn [substring String.length];
    try lia.
  specialize (IH n). lia.
Qed.

Lemma truthy_prefix s n :
  truthy s = true -> truthy (substring 0 (S n) s) = true.
Proof. destruct s; [discriminate|reflexivity]. Qed.

(** What VARCHAR(50) stores of a name the form accepted. *)
Lemma varchar_stored name stored :
  varchar 50 name = Ok stored ->
  truthy name = true -> has_nul name = false ->
  truthy stored = true /\ storable stored /\
  ((String.length name <= 50)%nat -> stored = name).
Proof.
  unfold varchar, storable. intros V T N.
  destruct (String.length name <=? 50)%nat eqn:L.
  - injection V as <-. apply Nat.leb_le in L. auto.
  - destruct (all_spaces _); [|discriminate]. injection V as <-.
    apply Nat.leb_gt in L. split; [now apply truthy_prefix|]. split.
    + split; [now apply has_nul_substring | apply length_prefix].
    + intros H. lia.
Qed.

(** The connection of the account form, case by case. *)
Lemma create_employee_tx_run username hashed db :
  transact (adapt [username] ;;;
            execute (InsertUser username hashed employee)
                    (insert_user username hashed employee)) db =
  if has_nul username then mkOutcome (rollback db db) [] (Raise ValueError)
  else match varchar 50 username with
       | Raise e =>
           mkOutcome (rollback db db) [InsertUser username hashed employee]
                     (Raise e)
       | Ok stored =>
           if existsb (name_is stored) (users db)
           then mkOutcome
                  (mkDB (users db) (work_reports db) (tasks db)
                        (users_id_seq db + 1) (work_reports_id_seq db)
                        (tasks_id_seq db))
                  [InsertUser username hashed employee]
                  (Raise UniqueViolation)
           else mkOutcome
                  (mkDB (users db ++
                           [User.mk (users_id_seq db) stored hashed employee])
                        (work_reports db) (tasks db)
                        (users_id_seq db + 1) (work_reports_id_seq db)
                        (tasks_id_seq db))
                  [InsertUser username hashed employee]
                  (Ok tt)
       end.
Proof.
  unfold transact, bind. rewrite adapt_one.
  destruct (has_nul username); [reflexivity|].
  unfold execute, insert_user. cbn [c_db c_log].
  destruct (varchar 50 username) as [stored|e]; [|reflexivity].
  destruct (existsb (name_is stored) (users db)); reflexivity.
Qed.

Lemma admin_create_employee_change username password submit db :
  change db (out_db (admin_create_employee username password submit db)).
Proof.
  unfold admin_create_employee.
  destruct submit; [|apply change_refl].
  destruct (truthy username && truthy password) eqn:T; [|apply change_refl].
  apply andb_true_iff in T. destruct T as [T _].
  rewrite create_employee_tx_run.
  destruct (has_nul username) eqn:N;
    [apply change_rollback, seq_le_refl|].
  destruct (varchar 50 username) as [stored|e] eqn:V.
  - destruct (varchar_stored _ _ V T N) as (Ts & (Ns & Ls) & _).
    destruct (existsb (name_is stored) (users db)) eqn:E; cbn [out_db].
    + apply change_sequences; unfold seq_le; simpl; auto with zarith.
    + now apply change_new_employee.
  - destruct e; apply change_rollback, seq_le_refl.
Qed.

Lemma existsb_filter_negb {A} (p : A -> bool) l :
  existsb p (filter (fun a => negb (p a)) l) = false.
Proof.
  induction l as [|a l IH]; simpl; [reflexivity|].
  destruct (p a) eqn:E; simpl; [assumption|]. now rewrite E.
Qed.

Lemma find_filter_negb {A} (p : A -> bool) l :
  find p (filter (fun a => negb (p a)) l) = None.
Proof.
  induction l as [|a l IH]; simpl; [reflexivity|].
  destruct (p a) eqn:E; simpl; [assumption|]. now rewrite E.
Qed.

(** The three DELETE statements go through: the foreign keys are satisfied
    when the user row goes, because its reports and tasks went first. *)
Lemma remove_employee_tx_run eid c :
  remove_employee_tx eid c =
  (mkConn
     (mkDB (filter (fun u => negb (User.id u =? eid)) (users (c_db c)))
           (filter (fun r => negb (WorkReport.user_id r =? eid))
                   (work_reports (c_db c)))
           (filter (fun t => negb (Task.user_id t =? eid)) (tasks (c_db c)))
           (users_id_seq (c_db c)) (work_reports_id_seq (c_db c))
           (tasks_id_seq (c_db c)))
     (c_log c ++ [DeleteReportsOfUser eid] ++ [DeleteTasksOfUser eid]
            ++ [DeleteUser eid]),
   Ok tt).
Proof.
  unfold remove_employee_tx, bind, execute, delete_reports_of_user,
    delete_tasks_of_user, delete_user. simpl.
  rewrite (existsb_filter_negb (fun r => WorkReport.user_id r =? eid)).
  rewrite (existsb_filter_negb (fun t => Task.user_id t =? eid)).
  rewrite andb_false_r. simpl. rewrite <- !app_assoc. reflexivity.
Qed.

Lemma admin_manage_employees_change selected button db :
  change db (out_db (admin_manage_employees selected button db)).
Proof.
  unfold admin_manage_employees, transact, admin_manage_employees_tx.
  unfold bind at 1. unfold query at 1. cbn [c_db c_log].
  destruct (select_employees db) as [|e0 es] eqn:Es; [apply change_refl|].
  destruct selected as [s|]; [|apply change_refl].
  destruct (truthy s && button); [|apply change_refl].
  unfold bind at 1. unfold next_employee_id.
  destruct (find (name_is s) (e0 :: es)) as [e|] eqn:F.
  - unfold ret at 1. unfold bind at 1. rewrite remove_employee_tx_run.
    unfold ret. cbn [c_db c_log out_db].
    apply find_some in F. destruct F as [Hin _].
    rewrite <- Es in Hin. apply filter_In in Hin.
    now apply change_remove_employee.
  - unfold raise. cbn [out_db c_db]. apply change_rollback, seq_le_refl.
Qed.

Lemma user_exists_In uid db :
  user_exists uid db = true <-> exists u, In u (users db) /\ User.id u = uid.
Proof.
  unfold user_exists. rewrite existsb_exists.
  split; intros (u & H & E); exists u; split; auto; now apply Z.eqb_eq.
Qed.

Lemma admin_assign_task_change selected description due submit now db :
  change db (out_db (admin_assign_task selected description due submit now db)).
Proof.
  unfold admin_assign_task, transact, admin_assign_task_tx.
  unfold bind at 1. unfold query at 1. cbn [c_db c_log].
  destruct (select_employees db) as [|e0 es] eqn:Es; [apply change_refl|].
  destruct submit; [|apply change_refl].
  destruct (truthy selected && truthy description); [|apply change_refl].
  unfold bind at 1. unfold bind at 1. unfold next_employee_id.
  destruct (find (name_is selected) (e0 :: es)) as [e|] eqn:F.
  - unfold ret at 1. unfold bind at 1. rewrite adapt_one.
    destruct (has_nul description);
      [cbn [out_db c_db]; apply change_rollback, seq_le_refl|].
    unfold bind at 1. unfold execute at 1, insert_task.
    cbn [c_db c_log].
    apply find_some in F. destruct F as [Hin _].
    rewrite <- Es in Hin. apply filter_In in Hin. destruct Hin as [Hin _].
    assert (user_exists (User.id e) db = true) as Ex
        by (apply user_exists_In; eauto).
    rewrite Ex. cbn. now apply change_new_task.
  - unfold raise. cbn [out_db c_db]. apply change_rollback, seq_le_refl.
Qed.

Lemma select_report_id_find uid d db :
  select_report_id uid d db =
  option_map WorkReport.id (find (report_of uid d) (work_reports db)).
Proof. reflexivity. Qed.

(** The connection of the report form, case by case. *)
Lemma upsert_run uid d content now db :
  transact (upsert uid d content now) db =
  match find (report_of uid d) (work_reports db) with
  | Some r =>
      if has_nul content
      then mkOutcome (rollback db db) [SelectReportId uid d] (Raise ValueError)
      else mkOutcome
             (mkDB (users db)
                   (map (fun r' => if WorkReport.id r' =? WorkReport.id r
                                   then WorkReport.set_content content r'
                                   else r')
                        (work_reports db))
                   (tasks db)
                   (users_id_seq db) (work_reports_id_seq db)
                   (tasks_id_seq db))
             [SelectReportId uid d;
              UpdateReportContent content (WorkReport.id r)]
             (Ok Updated)
  | None =>
      if has_nul content
      then mkOutcome (rollback db db) [SelectReportId uid d] (Raise ValueError)
      else if user_exists uid db
           then mkOutcome
                  (mkDB (users db)
                        (work_reports db ++
                           [WorkReport.mk (work_reports_id_seq db) uid d
                                          content now])
                        (tasks db)
                        (users_id_seq db) (work_reports_id_seq db + 1)
                        (tasks_id_seq db))
                  [SelectReportId uid d; InsertReport uid d content]
                  (Ok Created)
           else mkOutcome
                  (mkDB (users db) (work_reports db) (tasks db)
                        (users_id_seq db) (work_reports_id_seq db + 1)
                        (tasks_id_seq db))
                  [SelectReportId uid d; InsertReport uid d content]
                  (Raise ForeignKeyViolation)
  end.
Proof.
  unfold transact, upsert.
  unfold bind at 1. unfold query at 1. cbn [c_db c_log].
  rewrite select_report_id_find.
  destruct (find (report_of uid d) (work_reports db)) as [r|];
    cbn [option_map]; unfold bind at 1; rewrite adapt_one;
    destruct (has_nul content); try reflexivity.
  unfold bind, execute, insert_report. cbn [c_db c_log].
  destruct (user_exists uid db); reflexivity.
Qed.

Lemma employee_submit_report_change uid d content submit now db :
  change db (out_db (employee_submit_report uid d content submit now db)).
Proof.
  unfold employee_submit_report.
  destruct submit; [|apply change_refl].
  destruct (truthy content); [|apply change_refl].
  rewrite upsert_run.
  destruct (find (report_of uid d) (work_reports db)) as [r|] eqn:F;
    (destruct (has_nul content);
     [apply change_rollback, seq_le_refl|]).
  - cbn. now apply change_report_content with (uid := uid) (d := d).
  - destruct (user_exists uid db) eqn:Ex; cbn.
    + now apply change_new_report.
    + apply change_sequences; unfold seq_le; simpl; auto with zarith.
Qed.

Lemma employee_view_tasks_change uid selected button db :
  change db (out_db (employee_view_tasks uid selected button db)).
Proof.
  unfold employee_view_tasks, transact, employee_view_tasks_tx.
  unfold bind at 1. unfold query at 1. cbn [c_db c_log].
  destruct (employee_task_rows uid db) as [|t0 ts] eqn:Et;
    [apply change_refl|].
  destruct (filter (fun t => status_eqb (Task.status t) pending) (t0 :: ts))
    as [|p0 ps] eqn:Ep; [apply change_refl|].
  destruct selected as [sel|]; [|apply change_refl].
  destruct button; [|apply change_refl].
  unfold bind at 1. unfold task_option.
  destruct (existsb (fun t => Task.id t =? sel) (p0 :: ps)) eqn:Ex.
  - cbn. apply existsb_exists in Ex. destruct Ex as (t & Hin & E).
    apply Z.eqb_eq in E. subst sel.
    apply change_task_completed with (uid := uid).
    apply in_map. rewrite <- Ep in Hin. apply filter_In in Hin.
    destruct Hin as [Hin Hp]. rewrite <- Et in Hin.
    unfold employee_task_rows in Hin. apply order_by_In in Hin.
    apply filter_In. split; assumption.
  - unfold raise. cbn [out_db c_db]. apply change_rollback, seq_le_refl.
Qed.

Lemma perform_change a db : change db (perform a db).
Proof.
  destruct a; unfold perform.
  - apply admin_create_employee_change.
  - apply admin_manage_employees_change.
  - apply admin_assign_task_change.
  - apply employee_submit_report_change.
  - apply employee_view_tasks_change.
Qed.

(** ** Integrity is kept *)

Lemma NoDup_map_filter {A B} (f : A -> B) (p : A -> bool) l :
  NoDup (map f l) -> NoDup (map f (filter p l)).
Proof.
  induction l as [|a l IH]; simpl; intros H; [constructor|].
  inversion H as [|? ? Hn Hd]; subst.
  destruct (p a); simpl; auto.
  constructor; auto.
  intros Hin. apply Hn. apply in_map_iff in Hin.
  destruct Hin as (x & E & Hx). apply filter_In in Hx.
  apply in_map_iff. exists x. tauto.
Qed.

Lemma NoDup_map_snoc {A B} (f : A -> B) l x :
  NoDup (map f l) -> ~ In (f x) (map f l) -> NoDup (map f (l ++ [x])).
Proof.
  intros Hd Hn. rewrite map_app. simpl.
  apply NoDup_app. repeat split; auto.
  - constructor; [intros []|constructor].
  - intros y Hy [<- | []]. contradiction.
Qed.

Lemma Forall_filter_keep {A} (P : A -> Prop) (p : A -> bool) l :
  Forall P l -> Forall P (filter p l).
Proof.
  rewrite !Forall_forall. intros H x Hx. apply filter_In in Hx. apply H; tauto.
Qed.

Lemma map_update_same {A B} (f : A -> B) (c : A -> bool) (g : A -> A) l :
  (forall a, f (g a) = f a) ->
  map f (map (fun a => if c a then g a else a) l) = map f l.
Proof.
  intros H. rewrite map_map. apply map_ext. intros a.
  destruct (c a); auto.
Qed.

Lemma fresh_not_in {A} (key : A -> Z) bound l :
  Forall (fun a => key a < bound) l -> ~ In bound (map key l).
Proof.
  rewrite Forall_forall. intros H Hin. apply in_map_iff in Hin.
  destruct Hin as (a & E & Ha). specialize (H a Ha). lia.
Qed.

Lemma find_report_none_key uid d l :
  find (report_of uid d) l = None -> ~ In (uid, d) (map report_key l).
Proof.
  intros F Hin. apply in_map_iff in Hin. destruct Hin as (r & E & Hr).
  pose proof (find_none _ _ F r Hr) as N.
  unfold report_key in E. injection E as E1 E2.
  unfold report_of in N. rewrite E1, E2, Z.eqb_refl, date_eqb_refl in N.
  discriminate.
Qed.

Lemma existsb_name_is_false name l :
  existsb (name_is name) l = false -> ~ In name (map User.username l).
Proof.
  intros E Hin. apply in_map_iff in Hin. destruct Hin as (u & <- & Hu).
  assert (existsb (name_is (User.username u)) l = true) as T.
  { apply existsb_exists. exists u. split; [assumption|].
    apply String.eqb_refl. }
  congruence.
Qed.

Lemma Forall_lt_weaken {A} (key : A -> Z) b b' l :
  b <= b' -> Forall (fun a => key a < b) l -> Forall (fun a => key a < b') l.
Proof.
  intros Hb. apply Forall_impl. intros a. lia.
Qed.

Lemma change_consistent db db' :
  consistent db -> change db db' -> consistent db'.
Proof.
  intros [Uf Uu Un Rf Ru Rk Tf Tu Rfk Tfk] Hc.
  destruct Hc as [db' Eu Er Et (Su & Sr & St)
                 | name pw _ Hname
                 | e He Hrole
                 | uid description due now Hex
                 | uid d content now Hex Hnone
                 | uid d content r Hfind
                 | uid tid Htid].
  - constructor; unfold user_exists in *; rewrite ?Eu, ?Er, ?Et; auto;
      eapply Forall_lt_weaken; eauto.
  - constructor; simpl; auto.
    + apply Forall_app. split.
      * eapply Forall_lt_weaken; [|exact Uf]. lia.
      * repeat constructor. simpl. lia.
    + apply NoDup_map_snoc; auto. simpl. now apply fresh_not_in.
    + apply NoDup_map_snoc; auto. simpl. now apply existsb_name_is_false.
    + unfold user_exists in *. simpl. eapply Forall_impl; [|exact Rfk].
      intros r Hr. simpl in Hr. rewrite existsb_app, Hr. reflexivity.
    + unfold user_exists in *. simpl. eapply Forall_impl; [|exact Tfk].
      intros t Ht. simpl in Ht. rewrite existsb_app, Ht. reflexivity.
  - constructor; simpl;
      auto using Forall_filter_keep, NoDup_map_filter.
    + unfold user_exists in *. simpl. rewrite Forall_forall in *.
      intros r Hr. apply filter_In in Hr. destruct Hr as [Hr Hne].
      specialize (Rfk r Hr). apply existsb_exists in Rfk.
      destruct Rfk as (u & Hu & E). apply existsb_exists. exists u.
      split; [|assumption]. apply filter_In. split; [assumption|].
      apply Z.eqb_eq in E. rewrite E. exact Hne.
    + unfold user_exists in *. simpl. rewrite Forall_forall in *.
      intros t Ht. apply filter_In in Ht. destruct Ht as [Ht Hne].
      specialize (Tfk t Ht). apply existsb_exists in Tfk.
      destruct Tfk as (u & Hu & E). apply existsb_exists. exists u.
      split; [|assumption]. apply filter_In. split; [assumption|].
      apply Z.eqb_eq in E. rewrite E. exact Hne.
  - constructor; simpl; auto.
    + apply Forall_app. split.
      * eapply Forall_lt_weaken; [|exact Tf]. lia.
      * repeat constructor. simpl. lia.
    + apply NoDup_map_snoc; auto. simpl. now apply fresh_not_in.
    + apply Forall_app. split; [exact Tfk|]. repeat constructor. exact Hex.
  - constructor; simpl; auto.
    + apply Forall_app. split.
      * eapply Forall_lt_weaken; [|exact Rf]. lia.
      * repeat constructor. simpl. lia.
    + apply NoDup_map_snoc; auto. simpl. now apply fresh_not_in.
    + apply NoDup_map_snoc; auto. simpl. now apply find_report_none_key.
    + apply Forall_app. split; [exact Rfk|]. repeat constructor. exact Hex.
  - constructor; simpl; auto.
    + apply Forall_map. eapply Forall_impl; [|exact Rf].
      intros r' Hr'. simpl. destruct (WorkReport.id r' =? WorkReport.id r); auto.
    + rewrite map_update_same by reflexivity. exact Ru.
    + rewrite map_update_same by reflexivity. exact Rk.
    + apply Forall_map. eapply Forall_impl; [|exact Rfk].
      intros r' Hr'. simpl. destruct (WorkReport.id r' =? WorkReport.id r); auto.
  - constructor; simpl; auto.
    + apply Forall_map. eapply Forall_impl; [|exact Tf].
      intros t Ht. simpl. destruct (Task.id t =? tid); auto.
    + rewrite map_update_same by reflexivity. exact Tu.
    + apply Forall_map. eapply Forall_impl; [|exact Tfk].
      intros t Ht. simpl. destruct (Task.id t =? tid); auto.
Qed.

Lemma NoDup_map_inj {A B} (f : A -> B) l x y :
  NoDup (map f l) -> In x l -> In y l -> f x = f y -> x = y.
Proof.
  induction l as [|a l IH]; simpl; intros Hd Hx Hy E; [contradiction|].
  inversion Hd as [|? ? Hn Hd']; subst.
  destruct Hx as [-> | Hx], Hy as [-> | Hy]; auto.
  - exfalso. apply Hn. rewrite E. now apply in_map.
  - exfalso. apply Hn. rewrite <- E. now apply in_map.
Qed.

Lemma filter_filter_absorb {A} (p q : A -> bool) l :
  (forall a, In a l -> p a = true -> q a = true) ->
  filter p (filter q l) = filter p l.
Proof.
  induction l as [|a l IH]; simpl; intros H; [reflexivity|].
  destruct (q a) eqn:Q; simpl.
  - destruct (p a); rewrite IH by auto; reflexivity.
  - destruct (p a) eqn:P.
    + rewrite H in Q by auto. discriminate.
    + apply IH. auto.
Qed.

Lemma role_admin_not_employee u :
  is_admin u = true -> is_employee u = true -> False.
Proof. unfold is_admin, is_employee. destruct (User.role u); discriminate. Qed.

Lemma change_single_admin db db' :
  consistent db -> single_admin db -> change db db' -> single_admin db'.
Proof.
  unfold single_admin. intros C S Hc.
  destruct Hc as [db' Eu _ _ _ | name pw _ _ | e He Hrole | | | |];
    simpl; auto.
  - now rewrite Eu.
  - rewrite filter_app. simpl. rewrite app_nil_r. exact S.
  - rewrite filter_filter_absorb; [exact S|].
    intros u Hu Ha. apply negb_true_iff, Z.eqb_neq. intros E.
    assert (u = e) as -> by (eapply NoDup_map_inj; eauto using user_ids_unique).
    eapply role_admin_not_employee; eauto.
Qed.

Lemma change_named db db' : named db -> change db db' -> named db'.
Proof.
  unfold named. intros N Hc.
  destruct Hc as [db' Eu _ _ _ | name pw T _ | e He Hrole | | | |];
    simpl; auto.
  - now rewrite Eu.
  - apply Forall_app. split; [exact N|]. repeat constructor. exact T.
  - now apply Forall_filter_keep.
Qed.

Lemma change_names_stored db db' :
  names_stored db -> change db db' -> names_stored db'.
Proof.
  unfold names_stored. intros N Hc.
  destruct Hc as [db' Eu _ _ _ | name pw _ Hn Hl _ | e He Hrole | | | |];
    simpl; auto.
  - now rewrite Eu.
  - apply Forall_app. split; [exact N|].
    constructor; [split; assumption | constructor].
  - now apply Forall_filter_keep.
Qed.

Lemma change_wf db db' : wf db -> change db db' -> wf db'.
Proof.
  intros (C & S & N & L) H. split; [|split; [|split]];
    eauto using change_consistent, change_single_admin, change_named,
      change_names_stored.
Qed.

(** On an empty database [init_db] seeds the administrator. *)
Lemma init_db_empty :
  init_db empty_db =
  mkOutcome (mkDB [seeded_admin] [] [] 2 1 1)
            [SelectUserByName "admin";
             InsertUser "admin" (hash_password "admin123") admin]
            (Ok tt).
Proof. reflexivity. Qed.

Lemma single_admin_named db :
  single_admin db -> existsb (name_is "admin") (users db) = true.
Proof.
  unfold single_admin. intros S. apply existsb_exists.
  exists seeded_admin. split; [|reflexivity].
  assert (In seeded_admin (filter is_admin (users db))) as Hin
      by (rewrite S; left; reflexivity).
  apply filter_In in Hin. tauto.
Qed.

(** Afterwards it finds the administrator and changes nothing. *)
Lemma init_db_idle db :
  single_admin db ->
  out_db (init_db db) = db /\ out_log (init_db db) = [SelectUserByName "admin"]
  /\ out_res (init_db db) = Ok tt.
Proof.
  intros S. apply single_admin_named in S.
  rewrite find_name_is_existsb in S.
  unfold init_db, transact, init_db_tx, bind, query, select_user_by_name.
  cbn [c_db c_log].
  destruct (find (name_is "admin") (users db)); [|discriminate].
  cbn. auto.
Qed.

Lemma wf_boot : wf (out_db (init_db empty_db)).
Proof.
  rewrite init_db_empty. cbn [out_db]. split; [|split; [|split]].
  - constructor; simpl; repeat constructor; simpl; auto; lia.
  - reflexivity.
  - repeat constructor.
  - constructor; [|constructor]. split; [reflexivity | simpl; lia].
Qed.

Lemma reachable_wf db : reachable db -> wf db.
Proof.
  induction 1 as [|db _ IH|db a _ IH].
  - apply wf_boot.
  - destruct (init_db_idle db (proj1 (proj2 IH))) as (-> & _). exact IH.
  - destruct (init_db_idle db (proj1 (proj2 IH))) as (-> & _).
    eapply change_wf; [exact IH|apply perform_change].
Qed.

(** ** The report upsert *)

Lemma upsert_created uid d content now db :
  find (report_of uid d) (work_reports db) = None ->
  user_exists uid db = true ->
  has_nul content = false ->
  transact (upsert uid d content now) db =
  mkOutcome
    (mkDB (users db)
          (work_reports db ++
             [WorkReport.mk (work_reports_id_seq db) uid d content now])
          (tasks db)
          (users_id_seq db) (work_reports_id_seq db + 1) (tasks_id_seq db))
    [SelectReportId uid d; InsertReport uid d content]
    (Ok Created).
Proof.
  intros F Ex N. rewrite upsert_run, F, N, Ex. reflexivity.
Qed.

Lemma upsert_updated uid d content now db r :
  find (report_of uid d) (work_reports db) = Some r ->
  has_nul content = false ->
  transact (upsert uid d content now) db =
  mkOutcome
    (mkDB (users db)
          (map (fun r' => if WorkReport.id r' =? WorkReport.id r
                          then WorkReport.set_content content r' else r')
               (work_reports db))
          (tasks db)
          (users_id_seq db) (work_reports_id_seq db) (tasks_id_seq db))
    [SelectReportId uid d; UpdateReportContent content (WorkReport.id r)]
    (Ok Updated).
Proof.
  intros F N. rewrite upsert_run, F, N. reflexivity.
Qed.

(** A user the table does not hold cannot own a new report. *)
Lemma upsert_foreign_key uid d content now db :
  find (report_of uid d) (work_reports db) = None ->
  user_exists uid db = false ->
  has_nul content = false ->
  out_res (transact (upsert uid d content now) db) = Raise ForeignKeyViolation
  /\ work_reports (out_db (transact (upsert uid d content now) db)) =
     work_reports db.
Proof.
  intros F Ex N. rewrite upsert_run, F, N, Ex. split; reflexivity.
Qed.

(** A content with a NUL character stops at the adaptation: the SELECT was
    sent, nothing else. *)
Lemma upsert_nul uid d content now db :
  has_nul content = true ->
  transact (upsert uid d content now) db =
  mkOutcome (rollback db db) [SelectReportId uid d] (Raise ValueError).
Proof.
  intros N. rewrite upsert_run, N.
  now destruct (find (report_of uid d) (work_reports db)).
Qed.

Lemma report_of_key uid d r :
  report_of uid d r = true <-> report_key r = (uid, d).
Proof.
  unfold report_of, report_key.
  rewrite andb_true_iff, Z.eqb_eq, date_eqb_eq.
  split; [intros [-> ->]; reflexivity | intros [= -> ->]; auto].
Qed.

Lemma filter_none {A} (p : A -> bool) l : find p l = None -> filter p l = [].
Proof.
  induction l as [|a l IH]; simpl; [reflexivity|].
  destruct (p a); [discriminate | exact IH].
Qed.

Lemma filter_report_unique uid d l r :
  NoDup (map report_key l) ->
  find (report_of uid d) l = Some r ->
  filter (report_of uid d) l = [r].
Proof.
  induction l as [|a l IH]; simpl; intros Hd F; [discriminate|].
  inversion Hd as [|? ? Hn Hd']; subst.
  destruct (report_of uid d a) eqn:E.
  - injection F as ->. f_equal.
    destruct (filter (report_of uid d) l) as [|b bs] eqn:Fl; [reflexivity|].
    exfalso. apply Hn.
    assert (In b (filter (report_of uid d) l)) as Hb by (rewrite Fl; now left).
    apply filter_In in Hb. destruct Hb as [Hb Eb].
    apply report_of_key in E. apply report_of_key in Eb.
    rewrite E, <- Eb. now apply in_map.
  - auto.
Qed.

Lemma find_map_update {A} (p c : A -> bool) (g : A -> A) l :
  (forall a, p (g a) = p a) ->
  find p (map (fun a => if c a then g a else a) l) =
  option_map (fun a => if c a then g a else a) (find p l).
Proof.
  intros H. induction l as [|a l IH]; simpl; [reflexivity|].
  destruct (c a) eqn:C; rewrite ?H; destruct (p a); simpl; rewrite ?C; auto.
Qed.

Lemma filter_map_update {A} (p c : A -> bool) (g : A -> A) l :
  (forall a, p (g a) = p a) ->
  filter p (map (fun a => if c a then g a else a) l) =
  map (fun a => if c a then g a else a) (filter p l).
Proof.
  intros H. induction l as [|a l IH]; simpl; [reflexivity|].
  destruct (c a) eqn:C; rewrite ?H; destruct (p a); simpl; rewrite ?C, IH;
    reflexivity.
Qed.

Lemma map_update_fresh (content : string) rid l :
  Forall (fun r => WorkReport.id r < rid) l ->
  map (fun r => if WorkReport.id r =? rid
                then WorkReport.set_content content r else r) l = l.
Proof.
  induction 1 as [|r l Hr _ IH]; simpl; [reflexivity|].
  destruct (Z.eqb_spec (WorkReport.id r) rid); [lia|]. now rewrite IH.
Qed.

Lemma find_app_none {A} (p : A -> bool) l x :
  find p l = None -> find p (l ++ [x]) = if p x then Some x else None.
Proof.
  induction l as [|a l IH]; simpl; [reflexivity|].
  destruct (p a); [discriminate | exact IH].
Qed.

Lemma report_of_self uid d content now rid :
  report_of uid d (WorkReport.mk rid uid d content now) = true.
Proof. apply report_of_key. reflexivity. Qed.

Lemma update_twice_others uid d c1 c2 r0 l :
  NoDup (map WorkReport.id l) -> In r0 l -> report_of uid d r0 = true ->
  map (fun r' => if WorkReport.id r' =? WorkReport.id r0
                 then WorkReport.set_content c2 r' else r')
      (map (fun r' => if WorkReport.id r' =? WorkReport.id r0
                      then WorkReport.set_content c1 r' else r')
           (filter (fun r' => negb (report_of uid d r')) l)) =
  filter (fun r' => negb (report_of uid d r')) l.
Proof.
  intros Hd Hin Hr. rewrite map_map.
  rewrite <- (map_id (filter _ l)) at 2.
  apply map_ext_in. intros a Ha. apply filter_In in Ha.
  destruct Ha as [Ha Hn].
  destruct (Z.eqb_spec (WorkReport.id a) (WorkReport.id r0)) as [E|N].
  - assert (a = r0) as -> by (eapply NoDup_map_inj; eauto).
    rewrite Hr in Hn. discriminate.
  - destruct (Z.eqb_spec (WorkReport.id a) (WorkReport.id r0)); [contradiction|].
    reflexivity.
Qed.

(** Two upserts in a row, on a consistent database. *)
Lemma upsert_upsert db uid d c1 c2 now1 now2 :
  consistent db ->
  user_exists uid db = true ->
  has_nul c1 = false -> has_nul c2 = false ->
  exists db1 db2 log1 log2 b1 r,
    transact (upsert uid d c1 now1) db = mkOutcome db1 log1 (Ok b1) /\
    transact (upsert uid d c2 now2) db1 = mkOutcome db2 log2 (Ok Updated) /\
    b1 = (if existsb (report_of uid d) (work_reports db)
          then Updated else Created) /\
    filter (report_of uid d) (work_reports db2) = [r] /\
    WorkReport.report_content r = c2 /\
    filter (fun r' => negb (report_of uid d r')) (work_reports db2) =
    filter (fun r' => negb (report_of uid d r')) (work_reports db).
Proof.
  intros C Ex N1 N2.
  destruct (find (report_of uid d) (work_reports db)) as [r0|] eqn:F.
  - (* a report exists: both calls update it *)
    pose (upd1 := fun r' => if WorkReport.id r' =? WorkReport.id r0
                            then WorkReport.set_content c1 r' else r').
    pose (db1 := mkDB (users db) (map upd1 (work_reports db)) (tasks db)
                      (users_id_seq db) (work_reports_id_seq db)
                      (tasks_id_seq db)).
    assert (find (report_of uid d) (work_reports db1) =
            Some (WorkReport.set_content c1 r0)) as F1.
    { cbn [db1 work_reports]. unfold upd1.
      rewrite find_map_update by reflexivity. rewrite F. simpl.
      now rewrite Z.eqb_refl. }
    pose proof (find_some _ _ F) as [Hin Hp].
    exists db1. eexists. eexists. eexists. exists Updated.
    exists (WorkReport.set_content c2 r0).
    split; [apply (upsert_updated uid d c1 now1 db r0 F N1)|].
    split; [apply (upsert_updated uid d c2 now2 db1 _ F1 N2)|].
    cbn [work_reports db1 WorkReport.id WorkReport.set_content].
    split.
    { assert (existsb (report_of uid d) (work_reports db) = true) as ->
        by (apply existsb_exists; eauto).
      reflexivity. }
    unfold upd1.
    rewrite !filter_map_update by reflexivity.
    rewrite (filter_report_unique uid d _ r0 (report_keys_unique db C) F).
    split; [|split; [reflexivity|]].
    + simpl. rewrite ?Z.eqb_refl. simpl. rewrite ?Z.eqb_refl. reflexivity.
    + apply update_twice_others; auto. apply (report_ids_unique db C).
  - (* no report yet: the first call inserts, the second updates *)
    pose (new := WorkReport.mk (work_reports_id_seq db) uid d c1 now1).
    pose (db1 := mkDB (users db) (work_reports db ++ [new]) (tasks db)
                      (users_id_seq db) (work_reports_id_seq db + 1)
                      (tasks_id_seq db)).
    assert (find (report_of uid d) (work_reports db1) = Some new) as F1.
    { cbn [db1 work_reports]. rewrite find_app_none by exact F.
      unfold new. now rewrite report_of_self. }
    exists db1. eexists. eexists. eexists. exists Created.
    exists (WorkReport.set_content c2 new).
    split; [apply (upsert_created uid d c1 now1 db F Ex N1)|].
    split; [apply (upsert_updated uid d c2 now2 db1 _ F1 N2)|].
    cbn [work_reports db1].
    split.
    { destruct (existsb (report_of uid d) (work_reports db)) eqn:Eb;
        [|reflexivity].
      apply existsb_exists in Eb. destruct Eb as (r & Hr & Hp).
      pose proof (find_none _ _ F r Hr). congruence. }
    rewrite map_app.
    rewrite (map_update_fresh c2 (WorkReport.id new) (work_reports db))
      by apply (report_ids_fresh db C).
    cbn [map]. rewrite Z.eqb_refl.
    rewrite !filter_app. rewrite (filter_none _ _ F).
    assert (report_of uid d (WorkReport.set_content c2 new) = true) as Hnew
        by (apply report_of_key; reflexivity).
    cbn [filter app]. rewrite Hnew. cbn [negb]. rewrite app_nil_r.
    split; [reflexivity|]. split; reflexivity.
Qed.

Lemma employee_submit_report_run uid d content now db db' log b :
  truthy content = true ->
  transact (upsert uid d content now) db = mkOutcome db' log (Ok b) ->
  employee_submit_report uid d content true now db =
  mkOutcome db' log (Ok (Some (Success (success_message b)))).
Proof.
  intros T E. unfold employee_submit_report. rewrite T, E. reflexivity.
Qed.

(** C2 (amended).  In every state the program reaches, for every stored
    user, every date and any two contents without a NUL character, two
    upserts in a row both succeed and leave exactly one work report of that
    user and date, whose content is the second one.  Each call tells its branch: the first
    one Updated when a report of that user and date existed and Created
    when none did, the second one Updated; the form answers a Created
    branch with 'Report submitted successfully!' and an Updated branch with
    'Report updated successfully!'. *)
Theorem upsert_twice_keeps_one_report
  (db : DB) (user_id : Z) (report_date : date) (c1 c2 : string)
  (now1 now2 : Z) :
  reachable db ->
  user_exists user_id db = true ->
  has_nul c1 = false -> has_nul c2 = false ->
  exists db1 db2 log1 log2 b1 r,
    transact (upsert user_id report_date c1 now1) db =
      mkOutcome db1 log1 (Ok b1) /\
    transact (upsert user_id report_date c2 now2) db1 =
      mkOutcome db2 log2 (Ok Updated) /\
    b1 = (if existsb (report_of user_id report_date) (work_reports db)
          then Updated else Created) /\
    filter (report_of user_id report_date) (work_reports db2) = [r] /\
    WorkReport.user_id r = user_id /\
    WorkReport.report_date r = report_date /\
    WorkReport.report_content r = c2 /\
    (truthy c1 = true ->
     employee_submit_report user_id report_date c1 true now1 db =
       mkOutcome db1 log1
         (Ok (Some (Success
            (if existsb (report_of user_id report_date) (work_reports db)
             then "Report updated successfully!"
             else "Report submitted successfully!"))))) /\
    (truthy c2 = true ->
     employee_submit_report user_id report_date c2 true now2 db1 =
       mkOutcome db2 log2 (Ok (Some (Success "Report updated successfully!")))).
Proof.
  intros R Ex N1 N2. apply reachable_wf in R. destruct R as (C & _).
  destruct (upsert_upsert db user_id report_date c1 c2 now1 now2 C Ex N1 N2)
    as (db1 & db2 & log1 & log2 & b1 & r & E1 & E2 & Hb & Hf & Hc & _).
  exists db1, db2, log1, log2, b1, r.
  assert (In r (filter (report_of user_id report_date) (work_reports db2)))
    as Hin by (rewrite Hf; now left).
  apply filter_In in Hin. destruct Hin as [_ Hk].
  apply report_of_key in Hk. injection Hk as Hu Hd.
  split; [exact E1|]. split; [exact E2|]. split; [exact Hb|].
  split; [exact Hf|]. split; [exact Hu|]. split; [exact Hd|].
  split; [exact Hc|]. split.
  - intros T.
    rewrite (employee_submit_report_run _ _ _ _ _ _ _ _ T E1), Hb.
    now destruct (existsb (report_of user_id report_date) (work_reports db)).
  - intros T.
    now rewrite (employee_submit_report_run _ _ _ _ _ _ _ _ T E2).
Qed.

(** ** Task lists *)

Lemma status_rank_cases t :
  (Task.status t = pending /\ status_rank t = 0) \/
  (Task.status t = completed /\ status_rank t = 1).
Proof. unfold status_rank. destruct (Task.status t); simpl; auto. Qed.

Lemma status_then_due_spec a b :
  status_then_due a b = true <->
  ((Task.status a = pending /\ Task.status b = completed) \/
   (Task.status a = Task.status b /\
    date_leb (Task.due_date a) (Task.due_date b) = true)).
Proof.
  unfold status_then_due.
  rewrite orb_true_iff, andb_true_iff, Z.ltb_lt, Z.eqb_eq.
  destruct (status_rank_cases a) as [[Sa Ra] | [Sa Ra]],
           (status_rank_cases b) as [[Sb Rb] | [Sb Rb]];
    rewrite Sa, Sb, Ra, Rb; split; intros H;
    repeat match goal with
           | H : _ \/ _ |- _ => destruct H
           | H : _ /\ _ |- _ => destruct H
           end; try lia; try discriminate; auto.
Qed.

Lemma status_then_due_total a b :
  status_then_due a b = true \/ status_then_due b a = true.
Proof.
  rewrite !status_then_due_spec.
  destruct (date_leb_total (Task.due_date a) (Task.due_date b));
    destruct (Task.status a), (Task.status b); auto.
Qed.

Lemma status_then_due_trans a b c :
  status_then_due a b = true -> status_then_due b c = true ->
  status_then_due a c = true.
Proof.
  rewrite !status_then_due_spec.
  intros [[Ha Hb] | [Hab Lab]] [[Hb' Hc] | [Hbc Lbc]].
  - congruence.
  - left. split; congruence.
  - left. split; congruence.
  - right. split; [congruence|]. eapply date_leb_trans; eauto.
Qed.

Lemma due_asc_total {A} (key : A -> Task.t) a b :
  due_asc key a b = true \/ due_asc key b a = true.
Proof. unfold due_asc. apply date_leb_total. Qed.

Lemma due_asc_trans {A} (key : A -> Task.t) a b c :
  due_asc key a b = true -> due_asc key b c = true -> due_asc key a c = true.
Proof. unfold due_asc. intros H1 H2. eapply date_leb_trans; eauto. Qed.

Lemma StronglySorted_impl {A} (R S : A -> A -> Prop) l :
  (forall a b, R a b -> S a b) -> StronglySorted R l -> StronglySorted S l.
Proof.
  intros H. induction 1 as [|a l _ IH Hall]; constructor; auto.
  eapply Forall_impl; [|exact Hall]. auto.
Qed.

Lemma filter_nil_forall {A} (p : A -> bool) l :
  (forall a, In a l -> p a = false) -> filter p l = [].
Proof.
  induction l as [|a l IH]; intros H; [reflexivity|].
  cbn [filter]. rewrite (H a) by (simpl; auto).
  apply IH. intros; apply H; simpl; auto.
Qed.

Lemma filter_unique_id us u :
  NoDup (map User.id us) -> In u us ->
  filter (fun v => User.id v =? User.id u) us = [u].
Proof.
  induction us as [|a l IH]; intros Hd Hin; [contradiction|].
  inversion Hd as [|? ? Hn Hd']; subst. cbn [filter].
  destruct Hin as [-> | Hin].
  - rewrite Z.eqb_refl. f_equal. apply filter_nil_forall.
    intros v Hv. apply Z.eqb_neq. intros E. apply Hn. rewrite <- E.
    now apply in_map.
  - destruct (Z.eqb_spec (User.id a) (User.id u)) as [E|E].
    + exfalso. apply Hn. rewrite E. now apply in_map.
    + now apply IH.
Qed.

(** When every row has its user and ids are unique, the join pairs each row
    with that one user and loses none. *)
Lemma join_users_total {A} (key : A -> Z) rows us :
  NoDup (map User.id us) ->
  Forall (fun a => existsb (fun u => User.id u =? key a) us = true) rows ->
  map snd (join_users key rows us) = rows.
Proof.
  intros Hd. induction 1 as [|a rows Ha _ IH]; [reflexivity|].
  unfold join_users in *. cbn [flat_map]. rewrite map_app, IH. clear IH.
  apply existsb_exists in Ha. destruct Ha as (u & Hu & E).
  apply Z.eqb_eq in E. rewrite <- E.
  rewrite (filter_unique_id us u Hd Hu). reflexivity.
Qed.

(** C3 (amended).  The task list of a user holds exactly that user's tasks,
    ordered by status with pending before completed and, within a status, by
    due date ascending; in particular three tasks of one user with statuses
    completed, pending, pending and due dates d1, d2, d3 with d3 before d2
    come out as the pending task due d3, the pending task due d2, then the
    completed task.  The list of all tasks is ordered by due date ascending
    only, whatever the statuses; each of its rows is a task beside the user
    name of its assignee, and in every state the program reaches it holds
    every stored task exactly once. *)
Theorem task_lists_order (db : DB) (user_id : Z) :
  Permutation (employee_task_rows user_id db)
              (filter (fun t => Task.user_id t =? user_id) (tasks db)) /\
  StronglySorted
    (fun a b =>
       (Task.status a = pending /\ Task.status b = completed) \/
       (Task.status a = Task.status b /\
        date_leb (Task.due_date a) (Task.due_date b) = true))
    (employee_task_rows user_id db) /\
  (forall i1 i2 i3 desc1 desc2 desc3 d1 d2 d3 at1 at2 at3,
      tasks db = [Task.mk i1 user_id desc1 d1 completed at1;
                  Task.mk i2 user_id desc2 d2 pending at2;
                  Task.mk i3 user_id desc3 d3 pending at3] ->
      date_ltb d3 d2 = true ->
      employee_task_rows user_id db =
        [Task.mk i3 user_id desc3 d3 pending at3;
         Task.mk i2 user_id desc2 d2 pending at2;
         Task.mk i1 user_id desc1 d1 completed at1]) /\
  Permutation (admin_task_rows db)
              (map (fun ut => (User.username (fst ut), snd ut))
                   (join_users Task.user_id (tasks db) (users db))) /\
  StronglySorted
    (fun a b => date_leb (Task.due_date (snd a)) (Task.due_date (snd b)) = true)
    (admin_task_rows db) /\
  (forall name t,
      In (name, t) (admin_task_rows db) ->
      In t (tasks db) /\
      exists u, In u (users db) /\ User.id u = Task.user_id t /\
                User.username u = name) /\
  (reachable db ->
   Permutation (map snd (admin_task_rows db)) (tasks db)).
Proof.
  unfold employee_task_rows, admin_task_rows.
  split; [apply order_by_perm|].
  split.
  { eapply StronglySorted_impl;
      [|apply (order_by_sorted status_then_due);
        [apply status_then_due_total | apply status_then_due_trans]].
    intros a b. apply status_then_due_spec. }
  split.
  { intros i1 i2 i3 desc1 desc2 desc3 d1 d2 d3 at1 at2 at3 -> Hlt.
    unfold date_ltb in Hlt. apply negb_true_iff in Hlt.
    cbn [filter Task.user_id]. rewrite Z.eqb_refl.
    unfold order_by. cbn [fold_right insert_sorted].
    unfold status_then_due, status_rank. cbn [Task.status Task.due_date status_eqb].
    rewrite Hlt. reflexivity. }
  split; [apply order_by_perm|].
  split.
  { apply (order_by_sorted (due_asc snd));
      [apply due_asc_total | apply due_asc_trans]. }
  split.
  { intros name t Hin. apply order_by_In, in_map_iff in Hin.
    destruct Hin as ([u t'] & [= <- <-] & Hj). apply in_join_users in Hj.
    destruct Hj as (Ht & Hu & E). split; [exact Ht|].
    exists u. split; [exact Hu|]. split; [exact E | reflexivity]. }
  intros R. pose proof (reachable_wf db R) as (C & _).
  rewrite (Permutation_map snd (order_by_perm _ _)).
  rewrite map_map. cbn [snd].
  change (fun x : User.t * Task.t => snd x) with (@snd User.t Task.t).
  rewrite join_users_total; [reflexivity | apply C | apply (tasks_fk db C)].
Qed.

(** ** Authentication *)

Lemma authenticate_run db username password :
  authenticate db username password =
  if has_nul username then Raise ValueError
  else Ok (find (fun u => String.eqb (User.username u) username &&
                          String.eqb (User.password u)
                                     (hash_password password))
                (users db)).
Proof. reflexivity. Qed.

Lemma authenticate_users db db' username password :
  users db' = users db ->
  authenticate db' username password = authenticate db username password.
Proof. intros E. unfold authenticate. now rewrite E. Qed.

Lemma main_login_failed username password s :
  session_user s = None ->
  authenticate (out_db (init_db (st_db s))) username password = Ok None ->
  main (Login username password) s =
  mkPage (mkState (out_db (init_db (st_db s))) None)
         (Some (Error "Invalid username or password")) false.
Proof. intros Hs Ha. unfold main. rewrite Hs, Ha. reflexivity. Qed.

Lemma main_login_raised username password s e :
  session_user s = None ->
  authenticate (out_db (init_db (st_db s))) username password = Raise e ->
  main (Login username password) s =
  mkPage (mkState (out_db (init_db (st_db s))) None) None false.
Proof. intros Hs Ha. unfold main. rewrite Hs, Ha. reflexivity. Qed.

(** C4 (amended).  For a user name without a NUL character, [authenticate]
    returns a stored user exactly when some stored user has that user name
    and, as password, the digest of the plaintext; the user returned is such
    a row.  In every other case it returns None, be it that nobody has that
    name or that the digest differs, and the login page then shows the same
    message and stays logged out.  A user name that holds a NUL character is
    refused with ValueError before the query is sent: neither a user nor
    None is returned, the page shows no message of its own and stays logged
    out. *)
Theorem authenticate_spec (db : DB) (username password : string) :
  (forall user,
      authenticate db username password = Ok (Some user) ->
      In user (users db) /\ User.username user = username /\
      User.password user = hash_password password) /\
  ((exists user, authenticate db username password = Ok (Some user)) <->
   has_nul username = false /\
   (exists user, In user (users db) /\ User.username user = username /\
                 User.password user = hash_password password)) /\
  (authenticate db username password = Ok None <->
   has_nul username = false /\
   ~ (exists user, In user (users db) /\ User.username user = username /\
                   User.password user = hash_password password)) /\
  (authenticate db username password = Raise ValueError <->
   has_nul username = true) /\
  (has_nul username = false ->
   (forall user, In user (users db) -> User.username user <> username) ->
   authenticate db username password = Ok None) /\
  (has_nul username = false ->
   (forall user, In user (users db) -> User.username user = username ->
                 User.password user <> hash_password password) ->
   authenticate db username password = Ok None) /\
  (forall s,
      session_user s = None ->
      authenticate (out_db (init_db (st_db s))) username password = Ok None ->
      main (Login username password) s =
      mkPage (mkState (out_db (init_db (st_db s))) None)
             (Some (Error "Invalid username or password")) false) /\
  (forall s,
      session_user s = None ->
      has_nul username = true ->
      main (Login username password) s =
      mkPage (mkState (out_db (init_db (st_db s))) None) None false).
Proof.
  set (matches := fun u => String.eqb (User.username u) username &&
                           String.eqb (User.password u)
                                      (hash_password password)).
  assert (forall u, matches u = true <->
                    User.username u = username /\
                    User.password u = hash_password password) as M.
  { intros u. unfold matches.
    now rewrite andb_true_iff, !String.eqb_eq. }
  assert (forall d, authenticate d username password =
                    if has_nul username then Raise ValueError
                    else Ok (find matches (users d))) as E
      by reflexivity.
  assert (forall user,
             authenticate db username password = Ok (Some user) ->
             has_nul username = false /\
             In user (users db) /\ User.username user = username /\
             User.password user = hash_password password) as Sound.
  { intros user H. rewrite E in H.
    destruct (has_nul username); [discriminate|].
    injection H as H. apply find_some in H.
    destruct H as [Hin Hm]. apply M in Hm.
    destruct Hm as [Hu Hp].
    split; [reflexivity|]. split; [exact Hin|]. split; assumption. }
  assert (has_nul username = false ->
          (exists user, In user (users db) /\ User.username user = username /\
                        User.password user = hash_password password) ->
          exists user, authenticate db username password = Ok (Some user))
    as Complete.
  { intros N (u & Hin & Hu). rewrite E, N.
    destruct (find matches (users db)) as [v|] eqn:F; [eauto|].
    pose proof (find_none _ _ F u Hin) as Hn.
    apply M in Hu. congruence. }
  assert (authenticate db username password = Ok None <->
          has_nul username = false /\
          ~ (exists user, In user (users db) /\ User.username user = username /\
                          User.password user = hash_password password))
    as None_iff.
  { split.
    - intros H. split.
      + rewrite E in H. destruct (has_nul username); [discriminate|reflexivity].
      + intros Hex.
        assert (has_nul username = false) as N.
        { rewrite E in H.
          destruct (has_nul username); [discriminate|reflexivity]. }
        destruct (Complete N Hex) as [u Hu]. congruence.
    - intros [N H]. rewrite E, N.
      destruct (find matches (users db)) as [u|] eqn:F; [|reflexivity].
      exfalso. apply H. exists u.
      destruct (Sound u) as (_ & S); [rewrite E, N, F; reflexivity | exact S]. }
  split.
  { intros user H. destruct (Sound user H) as (_ & S). exact S. }
  split.
  { split.
    - intros [u Hu]. destruct (Sound u Hu) as (N & S).
      split; [exact N|]. exists u. exact S.
    - intros [N Hex]. exact (Complete N Hex). }
  split; [exact None_iff|].
  split.
  { rewrite E. destruct (has_nul username); split; intros H;
      try reflexivity; discriminate. }
  split.
  { intros N H. apply None_iff. split; [exact N|].
    intros (u & Hin & Hn & _). exact (H u Hin Hn). }
  split.
  { intros N H. apply None_iff. split; [exact N|].
    intros (u & Hin & Hn & Hp). exact (H u Hin Hn Hp). }
  split.
  { intros s. apply main_login_failed. }
  intros s Hs N. apply (main_login_raised _ _ _ ValueError Hs).
  rewrite E, N. reflexivity.
Qed.

(** ** Removing an employee *)

Lemma find_unique_name db u :
  NoDup (map User.username (users db)) ->
  In u (users db) -> is_employee u = true ->
  find (name_is (User.username u)) (select_employees db) = Some u.
Proof.
  intros Hd Hin Hr.
  assert (In u (select_employees db)) as Hin'
      by (apply filter_In; auto).
  destruct (find (name_is (User.username u)) (select_employees db))
    as [v|] eqn:F.
  - apply find_some in F. destruct F as [Hv Hn].
    apply filter_In in Hv. destruct Hv as [Hv _].
    apply String.eqb_eq in Hn. f_equal.
    eapply NoDup_map_inj; eauto.
  - pose proof (find_none _ _ F u Hin') as N.
    unfold name_is in N. rewrite String.eqb_refl in N. discriminate.
Qed.

(** C5.  In every state the program reaches and for every stored user whose
    role is employee, whatever the number of its reports and tasks, removing
    that user runs DELETE on its work reports, then on its tasks, then on the
    user row, and commits: afterwards no work report, no task and no user row
    carries that id, and the rows of everybody else are all still there. *)
Theorem remove_employee_cascades (db : DB) (u : User.t) :
  reachable db ->
  In u (users db) ->
  User.role u = employee ->
  let o := admin_manage_employees (Some (User.username u)) true db in
  out_res o =
    Ok (Some (Success ("Employee " ++ User.username u
                       ++ " removed successfully!"))) /\
  out_log o = [SelectEmployees;
               DeleteReportsOfUser (User.id u);
               DeleteTasksOfUser (User.id u);
               DeleteUser (User.id u)] /\
  filter (fun r => WorkReport.user_id r =? User.id u)
         (work_reports (out_db o)) = [] /\
  filter (fun t => Task.user_id t =? User.id u) (tasks (out_db o)) = [] /\
  filter (fun v => User.id v =? User.id u) (users (out_db o)) = [] /\
  work_reports (out_db o) =
    filter (fun r => negb (WorkReport.user_id r =? User.id u))
           (work_reports db) /\
  tasks (out_db o) =
    filter (fun t => negb (Task.user_id t =? User.id u)) (tasks db) /\
  users (out_db o) =
    filter (fun v => negb (User.id v =? User.id u)) (users db).
Proof.
  intros R Hin Hrole o.
  apply reachable_wf in R. destruct R as (C & _ & N).
  assert (is_employee u = true) as He
      by (unfold is_employee; rewrite Hrole; reflexivity).
  pose proof (find_unique_name db u (usernames_unique db C) Hin He) as F.
  assert (truthy (User.username u) = true) as T.
  { unfold named in N. rewrite Forall_forall in N. now apply N. }
  assert (exists e0 es, select_employees db = e0 :: es) as (e0 & es & Es).
  { destruct (select_employees db) as [|e0 es]; [discriminate|eauto]. }
  assert (o = mkOutcome
                (mkDB (filter (fun v => negb (User.id v =? User.id u)) (users db))
                      (filter (fun r => negb (WorkReport.user_id r =? User.id u))
                              (work_reports db))
                      (filter (fun t => negb (Task.user_id t =? User.id u))
                              (tasks db))
                      (users_id_seq db) (work_reports_id_seq db)
                      (tasks_id_seq db))
                [SelectEmployees; DeleteReportsOfUser (User.id u);
                 DeleteTasksOfUser (User.id u); DeleteUser (User.id u)]
                (Ok (Some (Success ("Employee " ++ User.username u
                                    ++ " removed successfully!"))))) as Eo.
  { unfold o, admin_manage_employees, transact, admin_manage_employees_tx.
    unfold bind at 1. unfold query at 1. cbn [c_db c_log].
    rewrite Es, T. cbn [andb].
    unfold bind at 1. unfold next_employee_id. rewrite <- Es, F.
    unfold ret at 1. unfold bind at 1. rewrite remove_employee_tx_run.
    unfold ret. reflexivity. }
  rewrite Eo. cbn [out_res out_log out_db work_reports tasks users].
  repeat split.
  - apply filter_none. apply find_filter_negb.
  - apply filter_none. apply find_filter_negb.
  - apply filter_none. apply find_filter_negb.
Qed.

(** ** Completing a task *)

Lemma complete_run tid db :
  transact (complete tid) db =
  mkOutcome
    (mkDB (users db) (work_reports db)
          (map (fun t => if Task.id t =? tid
                         then Task.set_status completed t else t)
               (tasks db))
          (users_id_seq db) (work_reports_id_seq db) (tasks_id_seq db))
    [UpdateTaskCompleted tid] (Ok tt).
Proof. reflexivity. Qed.

Lemma set_status_same t :
  Task.status t = completed -> Task.set_status completed t = t.
Proof. destruct t; simpl. intros ->. reflexivity. Qed.

Lemma complete_map_idempotent tid l :
  map (fun t => if Task.id t =? tid then Task.set_status completed t else t)
      (map (fun t => if Task.id t =? tid
                     then Task.set_status completed t else t) l) =
  map (fun t => if Task.id t =? tid then Task.set_status completed t else t) l.
Proof.
  rewrite map_map. apply map_ext. intros t.
  destruct (Task.id t =? tid) eqn:E; simpl; rewrite E; reflexivity.
Qed.

(** No change of the database turns a completed task back. *)
Lemma change_keeps_completed db db' t t' :
  consistent db -> change db db' ->
  In t (tasks db) -> Task.status t = completed ->
  In t' (tasks db') -> Task.id t' = Task.id t ->
  Task.status t' = completed.
Proof.
  intros C Hc Hin Hs Hin' Eid.
  pose proof (task_ids_unique db C) as Hd.
  pose proof (task_ids_fresh db C) as Hf.
  destruct Hc as [db' _ _ Et _ | | e _ _ | uid description due now _
                 | | | uid tid _]; cbn [tasks] in Hin'.
  - rewrite Et in Hin'.
    now rewrite (NoDup_map_inj Task.id _ t' t Hd Hin' Hin Eid).
  - now rewrite (NoDup_map_inj Task.id _ t' t Hd Hin' Hin Eid).
  - apply filter_In in Hin'. destruct Hin' as [Hin' _].
    now rewrite (NoDup_map_inj Task.id _ t' t Hd Hin' Hin Eid).
  - apply in_app_or in Hin'. destruct Hin' as [Hin' | [<- | []]].
    + now rewrite (NoDup_map_inj Task.id _ t' t Hd Hin' Hin Eid).
    + rewrite Forall_forall in Hf. specialize (Hf t Hin).
      simpl in Eid. lia.
  - now rewrite (NoDup_map_inj Task.id _ t' t Hd Hin' Hin Eid).
  - now rewrite (NoDup_map_inj Task.id _ t' t Hd Hin' Hin Eid).
  - apply in_map_iff in Hin'. destruct Hin' as (t0 & E0 & Hin0).
    destruct (Task.id t0 =? tid); subst t'; [reflexivity|].
    now rewrite (NoDup_map_inj Task.id _ t0 t Hd Hin0 Hin Eid).
Qed.

Lemma admin_dashboard_change ev db : change db (fst (admin_dashboard ev db)).
Proof.
  destruct ev; cbn [admin_dashboard fst]; try apply change_refl.
  - apply admin_create_employee_change.
  - apply admin_manage_employees_change.
  - apply admin_assign_task_change.
Qed.

Lemma employee_dashboard_change uid ev db :
  change db (fst (employee_dashboard uid ev db)).
Proof.
  destruct ev; cbn [employee_dashboard fst]; try apply change_refl.
  - apply employee_submit_report_change.
  - apply employee_view_tasks_change.
Qed.

(** One run of the script: the bootstrap, then at most one change. *)
Lemma main_change ev s :
  change (out_db (init_db (st_db s))) (st_db (page_state (main ev s))).
Proof.
  unfold main. destruct (session_user s) as [user|].
  - destruct ev;
      try (destruct (User.role user);
           [ match goal with
             | |- context [admin_dashboard ?e ?d] =>
                 pose proof (admin_dashboard_change e d) as H;
                 destruct (admin_dashboard e d)
             end
           | match goal with
             | |- context [employee_dashboard ?u ?e ?d] =>
                 pose proof (employee_dashboard_change u e d) as H;
                 destruct (employee_dashboard u e d)
             end ]; exact H).
    apply change_refl.
  - destruct ev; try apply change_refl.
    destruct (authenticate _ _ _) as [[user|]|e]; apply change_refl.
Qed.

Lemma main_wf ev s : wf (st_db s) -> wf (st_db (page_state (main ev s))).
Proof.
  intros W. pose proof (main_change ev s) as H.
  destruct (init_db_idle _ (proj1 (proj2 W))) as (E & _).
  rewrite E in H. eapply change_wf; eauto.
Qed.

Lemma main_refresh_db s :
  wf (st_db s) -> st_db (page_state (main Refresh s)) = st_db s.
Proof.
  intros W. destruct (init_db_idle _ (proj1 (proj2 W))) as (E & _).
  unfold main. destruct (session_user s) as [user|].
  - destruct (User.role user); cbn; exact E.
  - cbn. exact E.
Qed.

Lemma interact_wf ev s : wf (st_db s) -> wf (st_db (interact ev s)).
Proof.
  intros W. unfold interact.
  destruct (page_rerun (main ev s)); auto using main_wf.
Qed.

Lemma main_keeps_completed ev s t t' :
  wf (st_db s) ->
  In t (tasks (st_db s)) -> Task.status t = completed ->
  In t' (tasks (st_db (page_state (main ev s)))) -> Task.id t' = Task.id t ->
  Task.status t' = completed.
Proof.
  intros W Hin Hs Hin' Eid. pose proof (main_change ev s) as H.
  destruct (init_db_idle _ (proj1 (proj2 W))) as (E & _).
  rewrite E in H. eapply change_keeps_completed; eauto. apply W.
Qed.

(** C6.  [complete] sets the status of the task to completed; a second call
    runs without error and leaves the database as the first call left it, the
    task still completed.  And in every state the program reaches, whatever
    action comes next, by any session, and whatever a session does in one
    interaction, a task that is completed is not pending afterwards: as long
    as a task with that id exists it is completed. *)
Theorem complete_is_idempotent_and_final (db : DB) (task_id : Z) :
  let db1 := out_db (transact (complete task_id) db) in
  out_res (transact (complete task_id) db) = Ok tt /\
  (forall t, In t (tasks db1) -> Task.id t = task_id ->
             Task.status t = completed) /\
  (forall t, In t (tasks db) -> Task.id t = task_id ->
             In (Task.set_status completed t) (tasks db1)) /\
  transact (complete task_id) db1 =
    mkOutcome db1 [UpdateTaskCompleted task_id] (Ok tt) /\
  (reachable db ->
   forall t, In t (tasks db) -> Task.status t = completed ->
     (forall a t', In t' (tasks (perform a (out_db (init_db db)))) ->
                   Task.id t' = Task.id t -> Task.status t' = completed) /\
     (forall ev user t',
         In t' (tasks (st_db (interact ev (mkState db user)))) ->
         Task.id t' = Task.id t -> Task.status t' = completed)).
Proof.
  intros db1. unfold db1. rewrite !complete_run. cbn [out_db out_res tasks].
  split; [reflexivity|]. split; [|split; [|split]].
  - intros t Hin E. apply in_map_iff in Hin. destruct Hin as (t0 & E0 & _).
    destruct (Z.eqb_spec (Task.id t0) task_id) as [|N]; subst t;
      [reflexivity|].
    contradiction.
  - intros t Hin E. apply in_map_iff. exists t. split; [|assumption].
    apply Z.eqb_eq in E. now rewrite E.
  - cbn [users work_reports tasks users_id_seq work_reports_id_seq
         tasks_id_seq].
    now rewrite complete_map_idempotent.
  - intros R t Hin Hs. pose proof (reachable_wf db R) as W. split.
    + intros a t' Hin' Eid.
      destruct (init_db_idle db (proj1 (proj2 W))) as (E & _).
      rewrite E in Hin'.
      eapply change_keeps_completed;
        [apply W | apply (perform_change a db) | eauto ..].
    + intros ev user t' Hin' Eid. unfold interact in Hin'.
      set (s := mkState db user) in *.
      assert (wf (st_db s)) as Ws by exact W.
      destruct (page_rerun (main ev s)).
      * rewrite main_refresh_db in Hin' by auto using main_wf.
        eapply (main_keeps_completed ev s t t'); eauto.
      * eapply (main_keeps_completed ev s t t'); eauto.
Qed.


(** ** The session *)

Lemma main_refresh_session s :
  session_user (page_state (main Refresh s)) = session_user s.
Proof.
  unfold main. destruct (session_user s) as [user|]; [|reflexivity].
  destruct (User.role user); reflexivity.
Qed.

Lemma interact_session ev s :
  session_user (interact ev s) = session_user (page_state (main ev s)).
Proof.
  unfold interact. destruct (page_rerun (main ev s)); [|reflexivity].
  apply main_refresh_session.
Qed.

Lemma main_session_logged_in ev s user :
  session_user s = Some user ->
  session_user (page_state (main ev s)) =
  match ev with
  | Logout => None
  | _ => Some user
  end.
Proof.
  intros E. unfold main. rewrite E.
  destruct ev; try reflexivity;
    destruct (User.role user);
    match goal with
    | |- context [admin_dashboard ?e ?d] => destruct (admin_dashboard e d)
    | |- context [employee_dashboard ?u ?e ?d] =>
        destruct (employee_dashboard u e d)
    end; reflexivity.
Qed.

Lemma main_session_anonymous ev s :
  session_user s = None ->
  session_user (page_state (main ev s)) =
  match ev with
  | Login username password =>
      match authenticate (out_db (init_db (st_db s))) username password with
      | Ok found => found
      | Raise _ => None
      end
  | _ => None
  end.
Proof.
  intros E. unfold main. rewrite E.
  destruct ev; try reflexivity.
  destruct (authenticate _ _ _) as [[user|]|e]; reflexivity.
Qed.

(** C7.  The session is Anonymous (None) on a new connection.  From
    Anonymous an interaction leads to Authenticated(u) only by a login for
    which [authenticate] returns u, and a login for which it returns nothing
    or raises stays Anonymous, as does everything else.  From
    Authenticated(u) an interaction leads to Anonymous when it is the
    logout, and stays Authenticated(u) otherwise. *)
Theorem session_is_two_state_machine :
  (forall db, session_user (new_session db) = None) /\
  (forall ev s u,
      session_user s = None ->
      session_user (interact ev s) = Some u ->
      exists username password,
        ev = Login username password /\
        authenticate (out_db (init_db (st_db s))) username password =
          Ok (Some u)) /\
  (forall username password s u,
      session_user s = None ->
      authenticate (out_db (init_db (st_db s))) username password =
        Ok (Some u) ->
      session_user (interact (Login username password) s) = Some u) /\
  (forall username password s,
      session_user s = None ->
      authenticate (out_db (init_db (st_db s))) username password = Ok None ->
      session_user (interact (Login username password) s) = None) /\
  (forall username password s e,
      session_user s = None ->
      authenticate (out_db (init_db (st_db s))) username password = Raise e ->
      session_user (interact (Login username password) s) = None) /\
  (forall s u,
      session_user s = Some u -> session_user (interact Logout s) = None) /\
  (forall ev s u,
      session_user s = Some u ->
      session_user (interact ev s) = None -> ev = Logout) /\
  (forall ev s u,
      session_user s = Some u ->
      session_user (interact ev s) = None \/
      session_user (interact ev s) = Some u).
Proof.
  split; [reflexivity|].
  split; [|split; [|split; [|split; [|split; [|split]]]]].
  - intros ev s u E H. rewrite interact_session, main_session_anonymous in H
      by exact E.
    destruct ev; try discriminate.
    destruct (authenticate _ _ _) as [found|e] eqn:A; [|discriminate].
    subst found. eauto.
  - intros username password s u E A.
    now rewrite interact_session, main_session_anonymous, A by exact E.
  - intros username password s E A.
    now rewrite interact_session, main_session_anonymous, A by exact E.
  - intros username password s e E A.
    now rewrite interact_session, main_session_anonymous, A by exact E.
  - intros s u E.
    now rewrite interact_session, (main_session_logged_in _ _ u) by exact E.
  - intros ev s u E H.
    rewrite interact_session, (main_session_logged_in _ _ u) in H by exact E.
    destruct ev; try discriminate. reflexivity.
  - intros ev s u E.
    rewrite interact_session, (main_session_logged_in _ _ u) by exact E.
    destruct ev; auto.
Qed.

(** ** An employee's own rows *)

Lemma update_others_unchanged uid content r0 l :
  NoDup (map WorkReport.id l) -> In r0 l -> WorkReport.user_id r0 = uid ->
  filter (fun r => negb (WorkReport.user_id r =? uid))
         (map (fun r => if WorkReport.id r =? WorkReport.id r0
                        then WorkReport.set_content content r else r) l) =
  filter (fun r => negb (WorkReport.user_id r =? uid)) l.
Proof.
  intros Hd Hin Hu. rewrite filter_map_update by reflexivity.
  rewrite <- (map_id (filter _ l)) at 2.
  apply map_ext_in. intros a Ha. apply filter_In in Ha.
  destruct Ha as [Ha Hn].
  destruct (Z.eqb_spec (WorkReport.id a) (WorkReport.id r0)) as [E|N];
    [|reflexivity].
  assert (a = r0) as -> by (eapply NoDup_map_inj; eauto).
  rewrite Hu, Z.eqb_refl in Hn. discriminate.
Qed.

Lemma employee_submit_report_frame uid d content submit now db :
  consistent db ->
  let db' := out_db (employee_submit_report uid d content submit now db) in
  filter (fun r => negb (WorkReport.user_id r =? uid)) (work_reports db') =
  filter (fun r => negb (WorkReport.user_id r =? uid)) (work_reports db) /\
  users db' = users db /\ tasks db' = tasks db.
Proof.
  intros C db'. unfold db', employee_submit_report.
  destruct submit; [|auto]. destruct (truthy content); [|auto].
  rewrite upsert_run.
  destruct (find (report_of uid d) (work_reports db)) as [r0|] eqn:F;
    (destruct (has_nul content); [cbn; auto|]).
  - cbn [out_db work_reports users tasks].
    split; [|auto].
    pose proof (find_some _ _ F) as [Hin Hp].
    apply report_of_key in Hp. injection Hp as Hu _.
    apply update_others_unchanged; auto. apply C.
  - destruct (user_exists uid db) eqn:Ex;
      cbn [out_db work_reports users tasks]; [|auto].
    split; [|auto]. rewrite filter_app. cbn [filter WorkReport.user_id].
    rewrite Z.eqb_refl. cbn [negb]. apply app_nil_r.
Qed.

(** C8.  The report view of an employee returns only rows of that user's
    own work reports; and in every state the program reaches, submitting the
    report form as that user, whatever is submitted, leaves the work reports
    of every other user, all the users and all the tasks as they were, in the
    form itself and in the employee dashboard of [main]. *)
Theorem employee_touches_own_reports (db : DB) (user_id : Z) :
  (forall p anchor rows d c,
      employee_report_rows user_id p anchor db = Ok rows ->
      In (d, c) rows ->
      exists r, In r (work_reports db) /\ WorkReport.user_id r = user_id /\
                WorkReport.report_date r = d /\
                WorkReport.report_content r = c) /\
  (reachable db ->
   forall report_date content submit now,
     let db' := out_db (employee_submit_report user_id report_date content
                                               submit now db) in
     filter (fun r => negb (WorkReport.user_id r =? user_id))
            (work_reports db') =
     filter (fun r => negb (WorkReport.user_id r =? user_id))
            (work_reports db) /\
     (forall r, In r (work_reports db) -> WorkReport.user_id r <> user_id ->
                In r (work_reports db')) /\
     (forall r, In r (work_reports db') -> WorkReport.user_id r <> user_id ->
                In r (work_reports db)) /\
     users db' = users db /\ tasks db' = tasks db) /\
  (reachable db ->
   forall user report_date content now,
     User.id user = user_id -> User.role user = employee ->
     st_db (page_state (main (SubmitReport report_date content now)
                             (mkState db (Some user)))) =
     out_db (employee_submit_report user_id report_date content true now db)).
Proof.
  split; [|split].
  - intros p anchor rows d c E Hin.
    unfold employee_report_rows in E.
    destruct (period_condition p anchor) as [f|e]; [|discriminate].
    cbn [result_bind] in E. injection E as <-.
    apply order_by_In, in_map_iff in Hin.
    destruct Hin as (r & [= <- <-] & Hr). apply filter_In in Hr.
    destruct Hr as [Hr Hc]. apply andb_true_iff in Hc.
    destruct Hc as [Hu _]. apply Z.eqb_eq in Hu. eauto.
  - intros R report_date content submit now db'.
    apply reachable_wf in R. destruct R as (C & _).
    destruct (employee_submit_report_frame user_id report_date content submit
                now db C) as (Hf & Hu & Ht).
    fold db' in Hf, Hu, Ht.
    assert (forall l r, In r (filter (fun r => negb (WorkReport.user_id r
                                                     =? user_id)) l) <->
                        In r l /\ WorkReport.user_id r <> user_id) as Hm.
    { intros l r. rewrite filter_In, negb_true_iff, Z.eqb_neq. tauto. }
    repeat split; auto.
    + intros r Hr Hne. apply (Hm (work_reports db')). rewrite Hf.
      apply Hm. auto.
    + intros r Hr Hne. apply (Hm (work_reports db)). rewrite <- Hf.
      apply Hm. auto.
  - intros R user report_date content now Eid Hrole.
    apply reachable_wf in R.
    destruct (init_db_idle db (proj1 (proj2 R))) as (E & _).
    unfold main. cbn [session_user st_db]. rewrite Hrole, E, Eid. reflexivity.
Qed.

(** ** Validation *)

(** C9.  A form submitted with an empty required field answers with its
    warning and sends no statement that writes: the report form with an empty
    content and the account form with an empty user name or password send no
    statement at all; the task form, shown when there is an employee, with an
    empty description (or no assignee) sends only the two SELECT statements of
    the page.  In each case the database is left exactly as it was. *)
Theorem empty_field_is_refused (db : DB) :
  (forall user_id report_date now,
      employee_submit_report user_id report_date "" true now db =
      mkOutcome db [] (Ok (Some (Warning "Please enter your work report!")))) /\
  (forall username password,
      username = ""%string \/ password = ""%string ->
      admin_create_employee username password true db =
      mkOutcome db [] (Ok (Some (Warning "Please fill all fields!")))) /\
  (forall selected description due now,
      selected = ""%string \/ description = ""%string ->
      select_employees db <> [] ->
      admin_assign_task selected description due true now db =
      mkOutcome db [SelectEmployees; SelectTasksJoinUsers]
                (Ok (Some (Warning "Please fill all fields!"),
                     Some (admin_task_rows db))) /\
      forallb (fun s => negb (is_mutating s))
              (out_log (admin_assign_task selected description due true now db))
      = true).
Proof.
  split; [reflexivity|]. split.
  - intros username password [-> | ->]; unfold admin_create_employee.
    + reflexivity.
    + rewrite andb_false_r. reflexivity.
  - intros selected description due now H Hemp.
    assert (truthy selected && truthy description = false) as T.
    { destruct H as [-> | ->]; [reflexivity | apply andb_false_r]. }
    assert (admin_assign_task selected description due true now db =
            mkOutcome db [SelectEmployees; SelectTasksJoinUsers]
                      (Ok (Some (Warning "Please fill all fields!"),
                           Some (admin_task_rows db)))) as E.
    { unfold admin_assign_task, transact, admin_assign_task_tx.
      unfold bind at 1. unfold query at 1. cbn [c_db c_log].
      destruct (select_employees db) as [|e0 es]; [contradiction|].
      rewrite T. reflexivity. }
    rewrite E. split; reflexivity.
Qed.

(** ** The administrator *)

Lemma main_reachable ev s :
  reachable (st_db s) -> reachable (st_db (page_state (main ev s))).
Proof.
  intros R. unfold main.
  destruct (session_user s) as [user|].
  - destruct ev; try (apply reach_run; exact R);
      destruct (User.role user); cbn;
      try (apply reach_run; exact R).
    + apply (reach_action _ (ACreateEmployee username password) R).
    + apply (reach_action _ (ARemoveEmployee selected) R).
    + apply (reach_action _ (AAssignTask selected description due now) R).
    + apply (reach_action _ (ASubmitReport (User.id user) report_date content
                                           now) R).
    + apply (reach_action _ (ACompleteTask (User.id user) selected) R).
  - destruct ev; try (apply reach_run; exact R).
    destruct (authenticate _ _ _) as [[user|]|e]; apply reach_run; exact R.
Qed.

Lemma interact_reachable ev s :
  reachable (st_db s) -> reachable (st_db (interact ev s)).
Proof.
  intros R. unfold interact.
  destruct (page_rerun (main ev s)); auto using main_reachable.
Qed.

Lemma created_user_is_employee username password submit db :
  users (out_db (admin_create_employee username password submit db)) = users db
  \/ exists stored,
       varchar 50 username = Ok stored /\
       users (out_db (admin_create_employee username password submit db)) =
       users db ++ [User.mk (users_id_seq db) stored (hash_password password)
                            employee].
Proof.
  unfold admin_create_employee.
  destruct submit; [|auto].
  destruct (truthy username && truthy password); [|auto].
  rewrite create_employee_tx_run.
  destruct (has_nul username); [cbn; auto|].
  destruct (varchar 50 username) as [stored|e]; [|destruct e; cbn; auto].
  destruct (existsb (name_is stored) (users db)); cbn; eauto.
Qed.

Lemma removed_user_is_employee selected button db v :
  In v (users db) ->
  ~ In v (users (out_db (admin_manage_employees selected button db))) ->
  exists e, In e (select_employees db) /\ User.id v = User.id e.
Proof.
  intros Hin Hout. revert Hout.
  unfold admin_manage_employees, transact, admin_manage_employees_tx.
  unfold bind at 1. unfold query at 1. cbn [c_db c_log].
  destruct (select_employees db) as [|e0 es] eqn:Es; [cbn; contradiction|].
  destruct selected as [s|]; [|cbn; contradiction].
  destruct (truthy s && button); [|cbn; contradiction].
  unfold bind at 1. unfold next_employee_id.
  destruct (find (name_is s) (e0 :: es)) as [e|] eqn:F.
  - unfold ret at 1. unfold bind at 1. rewrite remove_employee_tx_run.
    unfold ret. cbn [c_db c_log out_db users]. intros Hout.
    apply find_some in F. destruct F as [He _].
    exists e. split; [exact He|].
    destruct (Z.eqb_spec (User.id v) (User.id e)) as [|N]; [assumption|].
    exfalso. apply Hout. apply filter_In. split; [assumption|].
    apply negb_true_iff, Z.eqb_neq. exact N.
  - unfold raise. cbn. contradiction.
Qed.

(** C10.  In every state the program reaches, the users whose role is admin
    are the seeded administrator and nobody else, and this still holds after
    any further action and any further interaction.  Account creation leaves
    the users as they are or appends one user whose role is employee, under
    the name the column VARCHAR(50) stores for the one typed: the name
    itself when it has at most 50 characters; the removal page offers the
    employees only, and a user it removes is an employee, so in a reachable
    state never the administrator. *)
Theorem seeded_admin_is_the_only_admin (db : DB) :
  (reachable db ->
   filter is_admin (users db) = [seeded_admin] /\
   In seeded_admin (users db) /\
   (forall a,
       filter is_admin (users (perform a (out_db (init_db db)))) =
       [seeded_admin]) /\
   (forall ev user,
       filter is_admin (users (st_db (interact ev (mkState db user)))) =
       [seeded_admin]) /\
   (forall selected button,
       In seeded_admin
          (users (out_db (admin_manage_employees selected button db))))) /\
  (forall username password submit,
      users (out_db (admin_create_employee username password submit db)) =
        users db \/
      exists new,
        users (out_db (admin_create_employee username password submit db)) =
          users db ++ [new] /\
        varchar 50 username = Ok (User.username new) /\
        ((String.length username <= 50)%nat -> User.username new = username) /\
        User.role new = employee) /\
  (forall e, In e (select_employees db) ->
             In e (users db) /\ User.role e = employee) /\
  (forall selected button v,
      In v (users db) ->
      ~ In v (users (out_db (admin_manage_employees selected button db))) ->
      exists e, In e (users db) /\ User.role e = employee /\
                User.id v = User.id e).
Proof.
  assert (forall e, In e (select_employees db) ->
                    In e (users db) /\ User.role e = employee) as Emp.
  { intros e He. apply filter_In in He. destruct He as [He Hr].
    split; [assumption|]. unfold is_employee in Hr.
    destruct (User.role e); [discriminate | reflexivity]. }
  split; [|split; [|split]].
  - intros R. pose proof (reachable_wf db R) as (C & S & N).
    assert (forall db', wf db' -> In seeded_admin (users db')) as Hin.
    { intros db' (_ & S' & _).
      assert (In seeded_admin (filter is_admin (users db'))) as H
          by (rewrite S'; now left).
      apply filter_In in H. tauto. }
    split; [exact S|]. split; [apply Hin; exact (conj C (conj S N))|].
    split; [|split].
    + intros a. apply (reachable_wf _ (reach_action db a R)).
    + intros ev user.
      apply (interact_wf ev (mkState db user)). exact (conj C (conj S N)).
    + intros selected button. apply Hin.
      eapply change_wf; [|apply admin_manage_employees_change].
      exact (conj C (conj S N)).
  - intros username password submit.
    destruct (created_user_is_employee username password submit db)
      as [E|(stored & V & E)]; [left; exact E | right].
    eexists. split; [exact E|]. cbn [User.username User.role].
    split; [exact V|]. split; [|reflexivity].
    intros L. rewrite (varchar_fits _ _ L) in V. now injection V.
  - exact Emp.
  - intros selected button v Hin Hout.
    destruct (removed_user_is_employee selected button db v Hin Hout)
      as (e & He & Eid).
    destruct (Emp e He). eauto.
Qed.

(** * Further properties of the pages *)

(** ** Bootstrap *)



(** ** Accounts *)

Lemma wf_seeded_admin db : wf db -> In seeded_admin (users db).
Proof.
  intros (_ & S & _).
  assert (In seeded_admin (filter is_admin (users db))) as H
      by (rewrite S; now left).
  apply filter_In in H. tauto.
Qed.

(** X2.  In every state the program reaches, the user name 'admin' with the
    password 'admin123' authenticates as the seeded administrator: nothing
    in the program removes that account or changes a password.  A login with
    these credentials opens a session whose role is admin. *)
Theorem default_admin_credentials_work (db : DB) :
  reachable db ->
  authenticate db "admin" "admin123" = Ok (Some seeded_admin) /\
  session_user (interact (Login "admin" "admin123") (new_session db)) =
    Some seeded_admin /\
  User.role seeded_admin = admin.
Proof.
  intros R. pose proof (reachable_wf db R) as W.
  pose proof (wf_seeded_admin db W) as Hin.
  destruct W as (C & S & N & L).
  assert (authenticate db "admin" "admin123" = Ok (Some seeded_admin)) as A.
  { rewrite authenticate_run. change (has_nul "admin") with false.
    cbv iota. f_equal.
    destruct (find _ (users db)) as [u|] eqn:F.
    - apply find_some in F. destruct F as [Hu Hm].
      apply andb_true_iff in Hm. destruct Hm as [Hn _].
      apply String.eqb_eq in Hn. f_equal.
      eapply NoDup_map_inj; eauto using usernames_unique.
    - pose proof (find_none _ _ F seeded_admin Hin) as X.
      cbn [seeded_admin User.username User.password] in X.
      rewrite (String.eqb_refl (hash_password "admin123")) in X.
      discriminate. }
  split; [exact A|]. split; [|reflexivity].
  rewrite interact_session, main_session_anonymous by reflexivity.
  cbn [st_db new_session].
  destruct (init_db_idle db S) as (-> & _). now rewrite A.
Qed.

Lemma admin_create_employee_run username password db :
  truthy username = true -> truthy password = true ->
  storable username ->
  admin_create_employee username password true db =
  if existsb (name_is username) (users db)
  then mkOutcome
         (mkDB (users db) (work_reports db) (tasks db)
               (users_id_seq db + 1) (work_reports_id_seq db)
               (tasks_id_seq db))
         [InsertUser username (hash_password password) employee]
         (Ok (Some (Error ("Username " ++ username ++ " already exists!"))))
  else mkOutcome
         (mkDB (users db ++ [User.mk (users_id_seq db) username
                                     (hash_password password) employee])
               (work_reports db) (tasks db)
               (users_id_seq db + 1) (work_reports_id_seq db)
               (tasks_id_seq db))
         [InsertUser username (hash_password password) employee]
         (Ok (Some (Success ("Employee " ++ username
                             ++ " created successfully!")))).
Proof.
  intros Tu Tp [N L]. unfold admin_create_employee. rewrite Tu, Tp.
  cbn [andb]. rewrite create_employee_tx_run, N, (varchar_fits _ _ L).
  destruct (existsb (name_is username) (users db)); reflexivity.
Qed.

Lemma stored_name db u : wf db -> In u (users db) -> storable (User.username u).
Proof.
  intros (_ & _ & _ & L) Hin. unfold names_stored in L.
  rewrite Forall_forall in L. now apply L.
Qed.

(** X3.  In every state the program reaches, creating an account under a
    user name that is taken, by an employee or by the administrator, is
    answered with 'Username ... already exists!': the UNIQUE violation is
    caught, no row of any table changes, and the holder of the name still
    authenticates as before. *)
Theorem duplicate_username_is_refused
  (db : DB) (username password : string) (holder : User.t) :
  reachable db ->
  In holder (users db) ->
  User.username holder = username ->
  truthy username = true -> truthy password = true ->
  let o := admin_create_employee username password true db in
  out_res o =
    Ok (Some (Error ("Username " ++ username ++ " already exists!"))) /\
  users (out_db o) = users db /\
  work_reports (out_db o) = work_reports db /\
  tasks (out_db o) = tasks db /\
  forall name pw, authenticate (out_db o) name pw = authenticate db name pw.
Proof.
  intros R Hin Hn Tu Tp o. unfold o.
  pose proof (stored_name db holder (reachable_wf db R) Hin) as St.
  rewrite Hn in St.
  rewrite (admin_create_employee_run username password db Tu Tp St).
  assert (existsb (name_is username) (users db) = true) as ->.
  { apply existsb_exists. exists holder. split; [assumption|].
    unfold name_is. rewrite Hn. apply String.eqb_refl. }
  cbn [out_res out_db users work_reports tasks]. repeat split.
Qed.



Lemma admin_manage_employees_run db u :
  consistent db -> named db ->
  In u (users db) -> User.role u = employee ->
  admin_manage_employees (Some (User.username u)) true db =
  mkOutcome
    (mkDB (filter (fun v => negb (User.id v =? User.id u)) (users db))
          (filter (fun r => negb (WorkReport.user_id r =? User.id u))
                  (work_reports db))
          (filter (fun t => negb (Task.user_id t =? User.id u)) (tasks db))
          (users_id_seq db) (work_reports_id_seq db) (tasks_id_seq db))
    [SelectEmployees; DeleteReportsOfUser (User.id u);
     DeleteTasksOfUser (User.id u); DeleteUser (User.id u)]
    (Ok (Some (Success ("Employee " ++ User.username u
                        ++ " removed successfully!")))).
Proof.
  intros C N Hin Hrole.
  assert (is_employee u = true) as He
      by (unfold is_employee; rewrite Hrole; reflexivity).
  pose proof (find_unique_name db u (usernames_unique db C) Hin He) as F.
  assert (truthy (User.username u) = true) as T.
  { unfold named in N. rewrite Forall_forall in N. now apply N. }
  assert (exists e0 es, select_employees db = e0 :: es) as (e0 & es & Es).
  { destruct (select_employees db) as [|e0 es]; [discriminate|eauto]. }
  unfold admin_manage_employees, transact, admin_manage_employees_tx.
  unfold bind at 1. unfold query at 1. cbn [c_db c_log].
  rewrite Es, T. cbn [andb].
  unfold bind at 1. unfold next_employee_id. rewrite <- Es, F.
  unfold ret at 1. unfold bind at 1. rewrite remove_employee_tx_run.
  unfold ret. reflexivity.
Qed.

Lemma find_filter_absorb {A} (p q : A -> bool) l :
  (forall a, In a l -> p a = true -> q a = true) ->
  find p (filter q l) = find p l.
Proof.
  induction l as [|a l IH]; intros H; [reflexivity|].
  cbn [filter find].
  destruct (q a) eqn:Q; cbn [find].
  - destruct (p a); [reflexivity|]. apply IH. intros; apply H; simpl; auto.
  - destruct (p a) eqn:P.
    + rewrite H in Q by (simpl; auto). discriminate.
    + apply IH. intros; apply H; simpl; auto.
Qed.

(** X5.  In every state the program reaches, a removed employee cannot log
    in any more, whatever the password, every other user logs in as before,
    and the user name is free again: creating an account under it
    succeeds. *)
Theorem removed_employee_cannot_log_in (db : DB) (u : User.t) :
  reachable db ->
  In u (users db) -> User.role u = employee ->
  let db' := out_db (admin_manage_employees (Some (User.username u)) true db) in
  (forall password, authenticate db' (User.username u) password = Ok None) /\
  (forall name password,
      name <> User.username u ->
      authenticate db' name password = authenticate db name password) /\
  (forall password,
      truthy password = true ->
      out_res (admin_create_employee (User.username u) password true db') =
      Ok (Some (Success ("Employee " ++ User.username u
                         ++ " created successfully!")))).
Proof.
  intros R Hin Hrole db'.
  pose proof (reachable_wf db R) as (C & _ & N & L).
  unfold db'. rewrite (admin_manage_employees_run db u C N Hin Hrole).
  cbn [out_db].
  set (us := filter (fun v => negb (User.id v =? User.id u)) (users db)).
  assert (forall v, In v us -> User.username v <> User.username u) as Gone.
  { intros v Hv E. apply filter_In in Hv. destruct Hv as [Hv Hne].
    assert (v = u) as -> by (eapply NoDup_map_inj; eauto using usernames_unique).
    rewrite Z.eqb_refl in Hne. discriminate. }
  assert (storable (User.username u)) as St.
  { unfold names_stored in L. rewrite Forall_forall in L. now apply L. }
  split; [|split].
  - intros password. rewrite authenticate_run, (proj1 St). cbn [users].
    fold us. f_equal.
    destruct (find _ us) as [v|] eqn:F; [|reflexivity].
    apply find_some in F. destruct F as [Hv Hm].
    apply andb_true_iff in Hm. destruct Hm as [Hm _].
    apply String.eqb_eq in Hm. exfalso. exact (Gone v Hv Hm).
  - intros name password Hname. rewrite !authenticate_run. cbn [users].
    destruct (has_nul name); [reflexivity|]. f_equal.
    apply find_filter_absorb. intros v Hv Hm.
    apply andb_true_iff in Hm. destruct Hm as [Hm _].
    apply String.eqb_eq in Hm.
    apply negb_true_iff, Z.eqb_neq. intros E.
    assert (v = u) as -> by (eapply NoDup_map_inj; eauto using user_ids_unique).
    congruence.
  - intros password Tp.
    assert (truthy (User.username u) = true) as Tu.
    { unfold named in N. rewrite Forall_forall in N. now apply N. }
    rewrite (admin_create_employee_run _ _ _ Tu Tp St). cbn [users]. fold us.
    assert (existsb (name_is (User.username u)) us = false) as ->.
    { destruct (existsb (name_is (User.username u)) us) eqn:E; [|reflexivity].
      apply existsb_exists in E. destruct E as (v & Hv & Hm).
      apply String.eqb_eq in Hm. exfalso. exact (Gone v Hv Hm). }
    reflexivity.
Qed.

(** X6.  A session outlives its user.  In every state the program reaches,
    once an employee is removed, the report form submitted from a session of
    that user stores nothing: it raises ForeignKeyViolation on its INSERT,
    or, when the content holds a NUL character, ValueError before the INSERT
    is sent.  The session itself stays logged in, and its task list and
    report views are empty. *)
Theorem removed_employee_session_cannot_submit
  (db : DB) (u : User.t) (report_date : date) (content : string) (now : Z) :
  reachable db ->
  In u (users db) -> User.role u = employee ->
  truthy content = true ->
  let db' := out_db (admin_manage_employees (Some (User.username u)) true db) in
  let o := employee_submit_report (User.id u) report_date content true now db' in
  out_res o =
    Raise (if has_nul content then ValueError else ForeignKeyViolation) /\
  out_log o =
    SelectReportId (User.id u) report_date ::
    (if has_nul content then []
     else [InsertReport (User.id u) report_date content]) /\
  users (out_db o) = users db' /\
  work_reports (out_db o) = work_reports db' /\
  tasks (out_db o) = tasks db' /\
  session_user (interact (SubmitReport report_date content now)
                         (mkState db' (Some u))) = Some u /\
  employee_task_rows (User.id u) db' = [] /\
  (forall p anchor rows,
      employee_report_rows (User.id u) p anchor db' = Ok rows -> rows = []).
Proof.
  intros R Hin Hrole T db' o.
  pose proof (reachable_wf db R) as (C & _ & N & L).
  assert (db' =
          mkDB (filter (fun v => negb (User.id v =? User.id u)) (users db))
               (filter (fun r => negb (WorkReport.user_id r =? User.id u))
                       (work_reports db))
               (filter (fun t => negb (Task.user_id t =? User.id u)) (tasks db))
               (users_id_seq db) (work_reports_id_seq db) (tasks_id_seq db))
    as Edb.
  { unfold db'. now rewrite (admin_manage_employees_run db u C N Hin Hrole). }
  assert (find (report_of (User.id u) report_date) (work_reports db') = None)
    as F.
  { rewrite Edb. cbn [work_reports].
    destruct (find _ _) as [r|] eqn:F; [|reflexivity].
    apply find_some in F. destruct F as [Hr Hm]. apply filter_In in Hr.
    destruct Hr as [_ Hne]. apply andb_true_iff in Hm. destruct Hm as [Hm _].
    rewrite Hm in Hne. discriminate. }
  assert (user_exists (User.id u) db' = false) as Ex.
  { rewrite Edb. unfold user_exists. cbn [users].
    apply (existsb_filter_negb (fun v => User.id v =? User.id u)). }
  assert (o = if has_nul content
              then mkOutcome (rollback db' db')
                             [SelectReportId (User.id u) report_date]
                             (Raise ValueError)
              else mkOutcome
                     (mkDB (users db') (work_reports db') (tasks db')
                           (users_id_seq db') (work_reports_id_seq db' + 1)
                           (tasks_id_seq db'))
                     [SelectReportId (User.id u) report_date;
                      InsertReport (User.id u) report_date content]
                     (Raise ForeignKeyViolation)) as Eo.
  { unfold o, employee_submit_report. rewrite T, upsert_run, F, Ex.
    now destruct (has_nul content). }
  assert (session_user (interact (SubmitReport report_date content now)
                                 (mkState db' (Some u))) = Some u) as Hs.
  { rewrite interact_session.
    now rewrite (main_session_logged_in _ _ u) by reflexivity. }
  assert (employee_task_rows (User.id u) db' = []) as Ht.
  { unfold employee_task_rows. rewrite Edb. cbn [tasks].
    rewrite (filter_nil_forall _ (filter _ (tasks db))); [reflexivity|].
    intros t Ht. apply filter_In in Ht. destruct Ht as [_ Hne].
    now apply negb_true_iff in Hne. }
  assert (forall p anchor rows,
             employee_report_rows (User.id u) p anchor db' = Ok rows ->
             rows = []) as Hr.
  { intros p anchor rows E. unfold employee_report_rows in E.
    destruct (period_condition p anchor) as [f|e]; [|discriminate].
    cbn [result_bind] in E. injection E as <-.
    rewrite Edb. cbn [work_reports].
    rewrite (filter_nil_forall _ (filter _ (work_reports db))); [reflexivity|].
    intros r Hr. apply filter_In in Hr. destruct Hr as [_ Hne].
    apply negb_true_iff in Hne. now rewrite Hne. }
  rewrite Eo.
  destruct (has_nul content);
    cbn [out_res out_log out_db rollback users work_reports tasks];
    (split; [reflexivity|]); (split; [reflexivity|]);
    (split; [reflexivity|]); (split; [reflexivity|]);
    (split; [reflexivity|]); (split; [exact Hs|]); (split; [exact Ht|]);
    exact Hr.
Qed.

(** ** Who can do what *)

(** X7.  The dashboards are gated by the session.  In every state the
    program reaches, a run of the script without a session changes nothing
    in the database whatever is submitted; in the session of an employee the
    administrator's forms (account creation, removal, task assignment) change
    nothing; in the session of an administrator the employee's forms (report,
    task completion) change nothing; and a refresh, a login or a logout never
    changes the database. *)
Theorem dashboards_are_gated_by_role (db : DB) (ev : event) :
  reachable db ->
  st_db (page_state (main ev (mkState db None))) = db /\
  (forall user,
      User.role user = employee ->
      match ev with
      | SubmitReport _ _ _ | CompleteTask _ => True
      | _ => st_db (page_state (main ev (mkState db (Some user)))) = db
      end) /\
  (forall user,
      User.role user = admin ->
      match ev with
      | CreateEmployee _ _ | RemoveEmployee _ | AssignTask _ _ _ _ => True
      | _ => st_db (page_state (main ev (mkState db (Some user)))) = db
      end) /\
  (forall session,
      match ev with
      | Refresh | Login _ _ | Logout =>
          st_db (interact ev (mkState db session)) = db
      | _ => True
      end).
Proof.
  intros R. pose proof (reachable_wf db R) as W.
  destruct (init_db_idle db (proj1 (proj2 W))) as (E & _).
  assert (forall s, st_db s = db ->
                    st_db (page_state (main Refresh s)) = db) as Again.
  { intros s Hs. rewrite main_refresh_db; rewrite Hs; auto. }
  split; [|split; [|split]].
  - unfold main. cbn [session_user st_db]. rewrite E.
    destruct ev; try reflexivity.
    destruct (authenticate db username password) as [[user|]|e];
      reflexivity.
  - intros user Hrole. unfold main. cbn [session_user st_db].
    rewrite E, Hrole. destruct ev; auto.
  - intros user Hrole. unfold main. cbn [session_user st_db].
    rewrite E, Hrole. destruct ev; auto.
  - intros session.
    assert (forall e, (e = Refresh \/ (exists n p, e = Login n p) \/ e = Logout)
                      -> st_db (page_state (main e (mkState db session))) = db)
      as One.
    { intros e He. unfold main. cbn [session_user st_db]. rewrite E.
      destruct session as [user|].
      - destruct He as [-> | [(n & p & ->) | ->]]; try reflexivity;
          destruct (User.role user); reflexivity.
      - destruct He as [-> | [(n & p & ->) | ->]]; try reflexivity.
        destruct (authenticate db n p) as [[user|]|e0]; reflexivity. }
    destruct ev; auto; unfold interact;
      match goal with
      | |- context [main ?e ?s] =>
          assert (st_db (page_state (main e s)) = db) as H1
            by (apply One; eauto);
          destruct (page_rerun (main e s)); [apply Again|]; exact H1
      end.
Qed.

(** ** Tasks *)

Lemma admin_assign_task_run db e description due now :
  consistent db -> named db ->
  In e (users db) -> User.role e = employee ->
  truthy description = true -> has_nul description = false ->
  let new := Task.mk (tasks_id_seq db) (User.id e) description due pending now in
  let db' := mkDB (users db) (work_reports db) (tasks db ++ [new])
                  (users_id_seq db) (work_reports_id_seq db)
                  (tasks_id_seq db + 1) in
  admin_assign_task (User.username e) description due true now db =
  mkOutcome db'
    [SelectEmployees; InsertTask (User.id e) description due;
     SelectTasksJoinUsers]
    (Ok (Some (Success ("Task assigned to " ++ User.username e
                        ++ " successfully!")),
         Some (admin_task_rows db'))).
Proof.
  intros C N Hin Hrole Td Nd new db'.
  assert (is_employee e = true) as He
      by (unfold is_employee; rewrite Hrole; reflexivity).
  pose proof (find_unique_name db e (usernames_unique db C) Hin He) as F.
  assert (truthy (User.username e) = true) as T.
  { unfold named in N. rewrite Forall_forall in N. now apply N. }
  assert (exists e0 es, select_employees db = e0 :: es) as (e0 & es & Es).
  { destruct (select_employees db) as [|e0 es]; [discriminate|eauto]. }
  assert (user_exists (User.id e) db = true) as Ex
      by (apply user_exists_In; eauto).
  unfold admin_assign_task, transact, admin_assign_task_tx.
  unfold bind at 1. unfold query at 1. cbn [c_db c_log].
  rewrite Es, T, Td. cbn [andb].
  unfold bind at 1. unfold bind at 1. unfold next_employee_id.
  rewrite <- Es, F.
  unfold ret at 1. unfold bind at 1. rewrite adapt_one, Nd.
  unfold bind at 1. unfold execute at 1, insert_task.
  cbn [c_db c_log]. rewrite Ex. reflexivity.
Qed.

(** X8.  In every state the program reaches, assigning a task with a
    non-empty description without a NUL character to a stored employee
    succeeds, inserts exactly one task, pending, under a fresh id and owned
    by that employee, and leaves the other tasks alone.  The new task is in the list fetched on the same
    page, with the employee's user name, and in that employee's own task
    list. *)
Theorem assigned_task_is_listed
  (db : DB) (e : User.t) (description : string) (due : date) (now : Z) :
  reachable db ->
  In e (users db) -> User.role e = employee ->
  truthy description = true -> has_nul description = false ->
  let o := admin_assign_task (User.username e) description due true now db in
  let new := Task.mk (tasks_id_seq db) (User.id e) description due pending now in
  tasks (out_db o) = tasks db ++ [new] /\
  ~ In (Task.id new) (map Task.id (tasks db)) /\
  users (out_db o) = users db /\ work_reports (out_db o) = work_reports db /\
  (exists listed,
      out_res o =
        Ok (Some (Success ("Task assigned to " ++ User.username e
                           ++ " successfully!")), Some listed) /\
      listed = admin_task_rows (out_db o) /\
      In (User.username e, new) listed) /\
  In new (employee_task_rows (User.id e) (out_db o)).
Proof.
  intros R Hin Hrole Td Nd o new.
  pose proof (reachable_wf db R) as (C & _ & N & L).
  unfold o. rewrite (admin_assign_task_run db e description due now C N Hin
                       Hrole Td Nd).
  cbn [out_db out_res tasks users work_reports]. fold new.
  split; [reflexivity|].
  split; [apply fresh_not_in, (task_ids_fresh db C)|].
  split; [reflexivity|]. split; [reflexivity|]. split.
  - eexists. split; [reflexivity|]. split; [reflexivity|].
    unfold admin_task_rows. apply order_by_In, in_map_iff.
    exists (e, new). split; [reflexivity|].
    apply in_join_users. cbn [tasks users].
    split; [apply in_or_app; right; now left|]. split; [assumption|reflexivity].
  - unfold employee_task_rows. apply order_by_In, filter_In. cbn [tasks].
    split; [apply in_or_app; right; now left|].
    cbn [new Task.user_id]. apply Z.eqb_refl.
Qed.

(** X9.  In every state the program reaches, the administrator's task list
    shows every stored task exactly once, each beside the user name of its
    assignee: the join with the users loses no task and duplicates none. *)
Theorem admin_task_list_is_complete (db : DB) :
  reachable db ->
  Permutation (map snd (admin_task_rows db)) (tasks db) /\
  (forall name t,
      In (name, t) (admin_task_rows db) ->
      exists u, In u (users db) /\ User.id u = Task.user_id t /\
                User.username u = name) /\
  List.length (admin_task_rows db) = List.length (tasks db).
Proof.
  intros R. pose proof (reachable_wf db R) as (C & _ & _).
  assert (Permutation (map snd (admin_task_rows db)) (tasks db)) as P.
  { unfold admin_task_rows.
    rewrite (Permutation_map snd (order_by_perm _ _)).
    rewrite map_map. cbn [snd].
    change (fun x : User.t * Task.t => snd x) with (@snd User.t Task.t).
    rewrite join_users_total; [reflexivity | apply C | apply (tasks_fk db C)]. }
  split; [exact P|]. split.
  - intros name t Hin. unfold admin_task_rows in Hin.
    apply order_by_In, in_map_iff in Hin.
    destruct Hin as ([u t'] & [= <- <-] & Hj). apply in_join_users in Hj.
    exists u. tauto.
  - rewrite <- (Permutation_length P). now rewrite length_map.
Qed.

(** ** Reports *)

Lemma order_by_map {A B} (lebA : A -> A -> bool) (lebB : B -> B -> bool)
      (g : A -> B) l :
  (forall a b, lebB (g a) (g b) = lebA a b) ->
  order_by lebB (map g l) = map g (order_by lebA l).
Proof.
  intros H. induction l as [|x l IH]; [reflexivity|].
  cbn [map order_by fold_right]. fold (order_by lebB (map g l)).
  fold (order_by lebA l). rewrite IH. clear IH.
  induction (order_by lebA l) as [|y s IHs]; [reflexivity|].
  cbn [map insert_sorted]. rewrite H.
  destruct (lebA x y); [reflexivity|]. cbn [map]. now rewrite IHs.
Qed.

Lemma filter_unique_name us u :
  NoDup (map User.username us) -> In u us ->
  filter (name_is (User.username u)) us = [u].
Proof.
  induction us as [|a l IH]; intros Hd Hin; [contradiction|].
  inversion Hd as [|? ? Hn Hd']; subst. cbn [filter]. unfold name_is at 1.
  destruct Hin as [-> | Hin].
  - rewrite String.eqb_refl. f_equal. apply filter_nil_forall.
    intros v Hv. apply String.eqb_neq. intros E. apply Hn. rewrite <- E.
    now apply in_map.
  - destruct (String.eqb_spec (User.username a) (User.username u)) as [E|E].
    + exfalso. apply Hn. rewrite E. now apply in_map.
    + now apply IH.
Qed.

(** The reports joined with their users, restricted to one user name, are
    the reports of that user. *)
Lemma join_users_of_name (f : date -> bool) rows us u :
  NoDup (map User.id us) -> NoDup (map User.username us) -> In u us ->
  filter (fun ur : User.t * WorkReport.t =>
            name_is (User.username u) (fst ur) &&
            f (WorkReport.report_date (snd ur)))
         (join_users WorkReport.user_id rows us) =
  map (fun r => (u, r))
      (filter (fun r => (WorkReport.user_id r =? User.id u) &&
                        f (WorkReport.report_date r)) rows).
Proof.
  intros Hid Hname Hin. induction rows as [|r rows IH]; [reflexivity|].
  unfold join_users in *. cbn [flat_map]. rewrite filter_app, IH. clear IH.
  cbn [filter].
  assert (filter (fun ur : User.t * WorkReport.t =>
                    name_is (User.username u) (fst ur) &&
                    f (WorkReport.report_date (snd ur)))
                 (map (fun v => (v, r))
                      (filter (fun v => User.id v =? WorkReport.user_id r) us))
          = if (WorkReport.user_id r =? User.id u) &&
               f (WorkReport.report_date r)
            then [(u, r)] else []) as ->.
  { destruct (Z.eqb_spec (WorkReport.user_id r) (User.id u)) as [E|E].
    - rewrite E, (filter_unique_id us u Hid Hin). cbn [map filter fst snd].
      unfold name_is. rewrite String.eqb_refl. cbn [andb].
      destruct (f (WorkReport.report_date r)); reflexivity.
    - cbn [andb]. apply filter_nil_forall. intros [v r'] Hv.
      apply in_map_iff in Hv. destruct Hv as (v' & [= -> ->] & Hv').
      apply filter_In in Hv'. destruct Hv' as [Hv' Ev].
      apply Z.eqb_eq in Ev. cbn [fst snd].
      destruct (name_is (User.username u) v) eqn:Nv; [|reflexivity].
      exfalso. apply E. rewrite <- Ev. f_equal.
      apply String.eqb_eq in Nv.
      eapply NoDup_map_inj; eauto. }
  destruct ((WorkReport.user_id r =? User.id u) &&
            f (WorkReport.report_date r)); reflexivity.
Qed.

(** X10.  In every state the program reaches, what the administrator sees
    of one employee is what that employee sees: for a stored user not called
    'All Employees', the administrator's report query with that user name
    selected returns the rows of the user's own report view, in the same
    order, each with the user name in front; it raises when and as the own
    view does. *)
Theorem admin_sees_the_employee_view
  (db : DB) (u : User.t) (p : period) (anchor : date) :
  reachable db ->
  In u (users db) ->
  User.username u <> "All Employees"%string ->
  admin_report_rows (User.username u) p anchor db =
  match employee_report_rows (User.id u) p anchor db with
  | Ok rows => Ok (map (fun row => (User.username u, fst row, snd row)) rows)
  | Raise e => Raise e
  end.
Proof.
  intros R Hin Hall. pose proof (reachable_wf db R) as (C & _ & _).
  unfold admin_report_rows, employee_report_rows.
  destruct (period_condition p anchor) as [f|e]; [|reflexivity].
  cbn [result_bind]. f_equal.
  apply String.eqb_neq in Hall. rewrite Hall.
  rewrite (join_users_of_name f (work_reports db) (users db) u
             (user_ids_unique db C) (usernames_unique db C) Hin).
  rewrite map_map. cbn [fst snd].
  rewrite <- (order_by_map (date_desc fst)
                (date_desc (fun row : string * date * string => snd (fst row)))
                (fun row : date * string => (User.username u, fst row, snd row)))
    by reflexivity.
  rewrite map_map. reflexivity.
Qed.

Lemma upsert_once db uid d content now :
  consistent db ->
  user_exists uid db = true ->
  has_nul content = false ->
  exists db' log b r,
    transact (upsert uid d content now) db = mkOutcome db' log (Ok b) /\
    filter (report_of uid d) (work_reports db') = [r] /\
    WorkReport.report_date r = d /\
    WorkReport.report_content r = content.
Proof.
  intros C Ex N.
  destruct (find (report_of uid d) (work_reports db)) as [r0|] eqn:F.
  - rewrite (upsert_updated uid d content now db r0 F N).
    do 3 eexists. exists (WorkReport.set_content content r0).
    split; [reflexivity|]. cbn [work_reports].
    rewrite filter_map_update by reflexivity.
    rewrite (filter_report_unique uid d _ r0 (report_keys_unique db C) F).
    cbn [map]. rewrite Z.eqb_refl.
    apply find_some in F. destruct F as [_ Hk]. apply report_of_key in Hk.
    injection Hk as _ Hd. repeat split. exact Hd.
  - rewrite (upsert_created uid d content now db F Ex N).
    do 3 eexists. exists (WorkReport.mk (work_reports_id_seq db) uid d content now).
    split; [reflexivity|]. cbn [work_reports].
    rewrite filter_app, (filter_none _ _ F). cbn [filter app].
    rewrite report_of_self. repeat split.
Qed.

(** X11.  What is submitted is what the Daily view shows.  In every state
    the program reaches, after a stored user submits a non-empty report
    without a NUL character for a day, that user's Daily view of that day
    fetches exactly one row, the day with the submitted content, and shows
    it as a table with the download named my_reports_daily.csv. *)
Theorem submitted_report_is_shown
  (db : DB) (user_id : Z) (report_date : date) (content : string) (now : Z) :
  reachable db ->
  user_exists user_id db = true ->
  truthy content = true -> has_nul content = false ->
  let db' := out_db (employee_submit_report user_id report_date content true
                                            now db) in
  employee_report_rows user_id Daily report_date db' =
    Ok [(report_date, content)] /\
  employee_view_reports user_id Daily report_date db' =
    Ok (ShowTable [(report_date, content)] "my_reports_daily.csv").
Proof.
  intros R Ex T N db'. pose proof (reachable_wf db R) as (C & _ & _).
  destruct (upsert_once db user_id report_date content now C Ex N)
    as (db1 & log & b & r & E & F & Hd & Hc).
  assert (db' = db1) as ->.
  { unfold db'. now rewrite (employee_submit_report_run _ _ _ _ _ _ _ _ T E). }
  assert (employee_report_rows user_id Daily report_date db1 =
          Ok [(report_date, content)]) as Rows.
  { unfold employee_report_rows, period_condition. cbn [result_bind].
    change (filter _ (work_reports db1))
      with (filter (report_of user_id report_date) (work_reports db1)).
    rewrite F. cbn. now rewrite Hd, Hc. }
  split; [exact Rows|].
  unfold employee_view_reports. rewrite Rows. reflexivity.
Qed.

(** ** Marking a task as complete *)

Lemma employee_view_tasks_run uid selected button db :
  let o := employee_view_tasks uid selected button db in
  (users (out_db o) = users db /\ work_reports (out_db o) = work_reports db /\
   tasks (out_db o) = tasks db /\
   (forall rows text, out_res o <> Ok (rows, Some (Success text))) /\
   ~ (button = true /\
      exists t, In t (tasks db) /\ selected = Some (Task.id t) /\
                Task.user_id t = uid /\ Task.status t = pending)) \/
  (exists t,
      In t (tasks db) /\ selected = Some (Task.id t) /\ button = true /\
      Task.user_id t = uid /\ Task.status t = pending /\
      o = mkOutcome
            (mkDB (users db) (work_reports db)
                  (map (fun t' => if Task.id t' =? Task.id t
                                  then Task.set_status completed t' else t')
                       (tasks db))
                  (users_id_seq db) (work_reports_id_seq db) (tasks_id_seq db))
            [SelectTasksOfUser uid; UpdateTaskCompleted (Task.id t)]
            (Ok (employee_task_rows uid db,
                 Some (Success "Task marked as complete!")))).
Proof.
  intros o. unfold o. clear o.
  assert (forall t, In t (filter (fun t => status_eqb (Task.status t) pending)
                                 (employee_task_rows uid db)) <->
                    In t (tasks db) /\ Task.user_id t = uid /\
                    Task.status t = pending) as Own.
  { intros t. unfold employee_task_rows.
    rewrite filter_In, order_by_In, filter_In, Z.eqb_eq.
    destruct (Task.status t); simpl; intuition congruence. }
  remember (employee_view_tasks uid selected button db) as o' eqn:Eo.
  unfold employee_view_tasks, transact, employee_view_tasks_tx in Eo.
  unfold bind at 1 in Eo. unfold query at 1 in Eo. cbn [c_db c_log] in Eo.
  destruct (employee_task_rows uid db) as [|t0 ts] eqn:Et.
  { left. subst o'. cbn. repeat split; try discriminate.
    intros (_ & t & Ht & _ & Hu & Hp).
    destruct (proj2 (Own t) (conj Ht (conj Hu Hp))). }
  destruct (filter (fun t => status_eqb (Task.status t) pending) (t0 :: ts))
    as [|p0 ps] eqn:Ep.
  { left. subst o'. cbn. repeat split; try discriminate.
    intros (_ & t & Ht & _ & Hu & Hp).
    destruct (proj2 (Own t) (conj Ht (conj Hu Hp))). }
  destruct selected as [sel|].
  2:{ left. subst o'. cbn. repeat split; try discriminate.
      intros (_ & t & _ & X & _). discriminate. }
  destruct button.
  2:{ left. subst o'. cbn. repeat split; try discriminate.
      intros (X & _). discriminate. }
  unfold bind at 1 in Eo. unfold task_option in Eo.
  destruct (existsb (fun t => Task.id t =? sel) (p0 :: ps)) eqn:Ex.
  - right. apply existsb_exists in Ex. destruct Ex as (t & Hin & E).
    apply Z.eqb_eq in E. subst sel.
    apply Own in Hin. destruct Hin as (Ht & Hu & Hp).
    exists t. subst o'. repeat split; auto.
  - left. unfold raise in Eo. subst o'. cbn. repeat split; try discriminate.
    intros (_ & t & Ht & [= ->] & Hu & Hp).
    assert (existsb (fun t' => Task.id t' =? Task.id t) (p0 :: ps) = true) as X.
    { apply existsb_exists. exists t. split; [|apply Z.eqb_refl].
      apply Own. auto. }
    congruence.
Qed.

(** X12.  The page 'My Tasks' lets a user complete that user's own pending
    tasks and nothing else.  In every state the program reaches, whatever is
    selected: the page reports success exactly when the button is pressed on
    the id of a pending task of that user, and then that task is completed;
    the tasks of every other user and the tasks already completed stay as
    they are; no task is added or removed; users and reports are
    untouched. *)
Theorem employee_completes_own_pending_tasks_only
  (db : DB) (user_id : Z) (selected : option Z) (button : bool) :
  reachable db ->
  let o := employee_view_tasks user_id selected button db in
  ((exists rows text, out_res o = Ok (rows, Some (Success text))) <->
   (button = true /\
    exists t, In t (tasks db) /\ selected = Some (Task.id t) /\
              Task.user_id t = user_id /\ Task.status t = pending)) /\
  (forall t, In t (tasks db) -> selected = Some (Task.id t) ->
             button = true -> Task.user_id t = user_id ->
             Task.status t = pending ->
             In (Task.set_status completed t) (tasks (out_db o))) /\
  (forall t, In t (tasks db) -> Task.user_id t <> user_id ->
             In t (tasks (out_db o))) /\
  (forall t, In t (tasks db) -> Task.status t = completed ->
             In t (tasks (out_db o))) /\
  map Task.id (tasks (out_db o)) = map Task.id (tasks db) /\
  users (out_db o) = users db /\ work_reports (out_db o) = work_reports db.
Proof.
  intros R o. pose proof (reachable_wf db R) as (C & _ & _).
  pose proof (task_ids_unique db C) as Hd. unfold o. clear o.
  destruct (employee_view_tasks_run user_id selected button db)
    as [(U & W & T & Ns & Nc) | (t0 & Ht0 & Hs & Hb & Hu & Hp & Eo)].
  - rewrite U, W, T.
    split; [split|].
    + intros (rows & text & E). exfalso. exact (Ns rows text E).
    + intros H. exfalso. exact (Nc H).
    + split; [|auto 6].
      intros t Ht Hsel Hbut Hown Hpen. exfalso. apply Nc. eauto 8.
  - rewrite Eo. cbn [out_res out_db tasks users work_reports].
    assert (forall t, In t (tasks db) -> Task.id t <> Task.id t0 ->
                      In t (map (fun t' => if Task.id t' =? Task.id t0
                                           then Task.set_status completed t'
                                           else t') (tasks db))) as Keep.
    { intros t Ht Hne. apply in_map_iff. exists t. split; [|assumption].
      destruct (Z.eqb_spec (Task.id t) (Task.id t0)); [contradiction|].
      reflexivity. }
    split; [split; [intros _; eauto 8 | intros _; eauto]|].
    split; [|split; [|split; [|split; [|split]]]]; try reflexivity.
    + intros t Ht Hsel _ _ _. rewrite Hs in Hsel. injection Hsel as Hsel.
      apply in_map_iff. exists t. split; [|assumption].
      rewrite <- Hsel, Z.eqb_refl. reflexivity.
    + intros t Ht Hne. apply Keep; [assumption|]. intros E.
      apply Hne. rewrite (NoDup_map_inj Task.id _ t t0 Hd Ht Ht0 E). exact Hu.
    + intros t Ht Hc. apply Keep; [assumption|]. intros E.
      rewrite (NoDup_map_inj Task.id _ t t0 Hd Ht Ht0 E) in Hc. congruence.
    + apply map_update_same. reflexivity.
Qed.

(** ** The date the picker starts from *)

Lemma prev_day_ok d : month_day_ok d -> month_day_ok (prev_day d).
Proof.
  unfold month_day_ok, prev_day. intros [Hm Hd].
  destruct (Z.ltb_spec 1 (day d)); simpl.
  - lia.
  - destruct (Z.ltb_spec 1 (month d)); simpl.
    + pose proof (days_in_month_pos (year d) (month d - 1)). lia.
    + unfold days_in_month. simpl. lia.
Qed.

Lemma toordinal_prev_day d :
  month_day_ok d -> toordinal (prev_day d) = toordinal d - 1.
Proof.
  unfold month_day_ok, prev_day, toordinal. intros [Hm Hd].
  destruct (Z.ltb_spec 1 (day d)); simpl.
  - lia.
  - destruct (Z.ltb_spec 1 (month d)); simpl.
    + pose proof (days_before_month_succ (year d) (month d - 1) ltac:(lia)) as S.
      replace (month d - 1 + 1) with (month d) in S by lia. lia.
    + assert (month d = 1) as E by lia. rewrite E.
      pose proof (days_before_year_succ (year d - 1)) as Y.
      replace (year d - 1 + 1) with (year d) in Y by lia.
      pose proof (days_before_month_december (year d - 1)) as D.
      change (days_in_month (year d - 1) 12) with 31 in D.
      change (days_before_month (year d) 1) with 0.
      destruct (is_leap (year d - 1)); lia.
Qed.

Lemma days_before_S n d : days_before (S n) d = days_before n (prev_day d).
Proof. reflexivity. Qed.

Lemma days_before_ok n d : month_day_ok d -> month_day_ok (days_before n d).
Proof.
  revert d. induction n as [|n IH]; intros d H.
  - exact H.
  - rewrite days_before_S. apply IH, prev_day_ok, H.
Qed.

Lemma toordinal_days_before n d :
  month_day_ok d -> toordinal (days_before n d) = toordinal d - Z.of_nat n.
Proof.
  revert d. induction n as [|n IH]; intros d H.
  - change (days_before 0 d) with d. lia.
  - rewrite days_before_S, IH by auto using prev_day_ok.
    rewrite toordinal_prev_day by assumption. lia.
Qed.

(** A calendar date from day 1 on lies in year 1 or later. *)
Lemma toordinal_year_pos d :
  month_day_ok d -> 1 <= toordinal d -> MINYEAR <= year d.
Proof.
  intros [Hm Hd] Ho. unfold MINYEAR.
  destruct (Z.le_gt_cases 1 (year d)) as [|Hy]; [assumption|exfalso].
  pose proof (days_before_year_le (year d + 1) 1 ltac:(lia)) as Y.
  rewrite days_before_year_succ in Y.
  change (days_before_year 1) with 0 in Y.
  pose proof (days_before_month_bounds (year d) (month d) Hm).
  unfold toordinal in Ho. destruct (is_leap (year d)); lia.
Qed.

Lemma weekday_range d : 0 <= weekday d <= 6.
Proof. unfold weekday. pose proof (Z.mod_pos_bound (toordinal d + 6) 7). lia. Qed.

Lemma default_week_start today :
  valid_date today = true ->
  let monday := days_before (Z.to_nat (weekday today)) today in
  default_selected_date Weekly today = Ok monday /\
  valid_date monday = true /\
  weekday monday = 0 /\
  toordinal monday <= toordinal today <= toordinal monday + 6.
Proof.
  intros V monday.
  pose proof (valid_month_day_ok _ V) as Ok0.
  pose proof (valid_date_toordinal _ V) as [O1 O2].
  pose proof (weekday_range today) as Wr.
  assert (toordinal monday = toordinal today - weekday today) as Em.
  { unfold monday. rewrite toordinal_days_before by assumption.
    rewrite Z2Nat.id by lia. reflexivity. }
  assert (1 <= toordinal monday /\ (toordinal monday + 6) mod 7 = 0) as [M1 M7].
  { rewrite Em. unfold weekday in *. Z.div_mod_to_equations. lia. }
  pose proof (days_before_ok (Z.to_nat (weekday today)) today Ok0) as Okm.
  fold monday in Okm.
  split; [|split; [|split]].
  - unfold default_selected_date, date_sub. rewrite Z2Nat.id by lia.
    fold monday.
    destruct (Z.ltb_spec 0 (toordinal today - weekday today)); [reflexivity|].
    lia.
  - apply valid_date_spec. split; [|exact Okm]. split.
    + now apply toordinal_year_pos.
    + assert (date_leb monday today = true) as L
          by (apply date_leb_toordinal; auto; lia).
      apply date_leb_spec in L. apply valid_date_spec in V.
      destruct V as [[_ Hy] _]. lia.
  - exact M7.
  - lia.
Qed.

(** X13.  The date each period's picker starts from selects a period that
    contains today.  For every date today and every period kind, the default
    anchor is computed without error and is a date (for Weekly the Monday of
    today's week, at most six days back); and whenever the report query for
    that anchor is built, a report dated today satisfies its period
    condition, so the employee's view lists it.  The query fails to build
    only for Weekly, when that Monday plus six days passes 9999-12-31. *)
Theorem default_period_contains_today (today : date) (p : period) :
  valid_date today = true ->
  exists anchor,
    default_selected_date p today = Ok anchor /\
    valid_date anchor = true /\
    (p = Weekly ->
     weekday anchor = 0 /\
     toordinal anchor <= toordinal today <= toordinal anchor + 6) /\
    (forall in_period,
        period_condition p anchor = Ok in_period -> in_period today = true) /\
    (forall e, period_condition p anchor = Raise e ->
               p = Weekly /\ e = OverflowError /\
               MAXORDINAL < toordinal anchor + 6) /\
    (forall db user_id rows r,
        employee_report_rows user_id p anchor db = Ok rows ->
        In r (work_reports db) -> WorkReport.user_id r = user_id ->
        WorkReport.report_date r = today ->
        In (today, WorkReport.report_content r) rows).
Proof.
  intros V.
  pose proof (valid_month_day_ok _ V) as Ok0.
  assert (forall anchor,
             (forall in_period, period_condition p anchor = Ok in_period ->
                                in_period today = true) ->
             forall db user_id rows r,
               employee_report_rows user_id p anchor db = Ok rows ->
               In r (work_reports db) -> WorkReport.user_id r = user_id ->
               WorkReport.report_date r = today ->
               In (today, WorkReport.report_content r) rows) as View.
  { intros anchor Hf db user_id rows r E Hr Hu Hd.
    unfold employee_report_rows in E.
    destruct (period_condition p anchor) as [f|e]; [|discriminate].
    cbn [result_bind] in E. injection E as <-.
    apply order_by_In, in_map_iff. exists r. split; [now rewrite Hd|].
    apply filter_In. split; [assumption|].
    rewrite Hd, (Hf f eq_refl), Hu, Z.eqb_refl. reflexivity. }
  destruct p.
  - exists today. split; [reflexivity|]. split; [exact V|].
    split; [discriminate|].
    assert (forall in_period, period_condition Daily today = Ok in_period ->
                              in_period today = true) as Hf.
    { intros f [= <-]. apply date_eqb_refl. }
    split; [exact Hf|]. split; [discriminate|]. now apply View.
  - pose proof (default_week_start today V) as H. cbv zeta in H.
    set (monday := days_before (Z.to_nat (weekday today)) today) in H.
    clearbody monday. destruct H as (D & Vm & W0 & Rng).
    exists monday. split; [exact D|]. split; [exact Vm|].
    split; [auto|].
    destruct (Z.leb_spec (toordinal monday + 6) MAXORDINAL) as [B|B].
    + destruct (period_condition_spec Weekly monday Vm (fun _ => B))
        as (f & Ef & Hs).
      assert (forall in_period,
                 period_condition Weekly monday = Ok in_period ->
                 in_period today = true) as Hf.
      { intros g E. rewrite Ef in E. injection E as <-.
        rewrite Hs by exact V. apply spec_period_predicate_iff. exact Rng. }
      split; [exact Hf|]. split; [|now apply View].
      intros e E. rewrite Ef in E. discriminate.
    + pose proof (period_condition_overflow monday B) as Eo.
      assert (forall in_period,
                 period_condition Weekly monday = Ok in_period ->
                 in_period today = true) as Hf.
      { intros g E. rewrite Eo in E. discriminate. }
      split; [exact Hf|]. split; [|now apply View].
      intros e E. rewrite Eo in E. injection E as <-. auto.
  - exists (replace_day1 today). split; [reflexivity|].
    split.
    { apply valid_date_spec in V. apply valid_date_spec.
      unfold month_day_ok, replace_day1 in *. cbn [year month day].
      pose proof (days_in_month_pos (year today) (month today)). lia. }
    split; [discriminate|].
    assert (forall in_period,
               period_condition Monthly (replace_day1 today) = Ok in_period ->
               in_period today = true) as Hf.
    { intros f [= <-]. cbn [replace_day1 year month].
      now rewrite !Z.eqb_refl. }
    split; [exact Hf|]. split; [discriminate|]. now apply View.
  - exists (replace_month1_day1 today). split; [reflexivity|].
    split.
    { apply valid_date_spec in V. apply valid_date_spec.
      unfold month_day_ok, replace_month1_day1 in *. cbn [year month day].
      change (days_in_month (year today) 1) with 31. lia. }
    split; [discriminate|].
    assert (forall in_period,
               period_condition Yearly (replace_month1_day1 today) =
               Ok in_period -> in_period today = true) as Hf.
    { intros f [= <-]. cbn [replace_month1_day1 year]. apply Z.eqb_refl. }
    split; [exact Hf|]. split; [discriminate|]. now apply View.
Qed.

(** X14.  Narrowing the period never adds rows.  For one user and one
    anchor date, every row of the Daily view is in the Monthly view and
    every row of the Monthly view is in the Yearly view; these three views
    never fail.  Every row of the Daily view is also in the Weekly view
    whenever the Weekly view can be built. *)
Theorem narrower_period_shows_fewer (db : DB) (user_id : Z) (anchor : date) :
  exists daily monthly yearly,
    employee_report_rows user_id Daily anchor db = Ok daily /\
    employee_report_rows user_id Monthly anchor db = Ok monthly /\
    employee_report_rows user_id Yearly anchor db = Ok yearly /\
    incl daily monthly /\ incl monthly yearly /\
    (valid_date anchor = true ->
     forall weekly,
       employee_report_rows user_id Weekly anchor db = Ok weekly ->
       incl daily weekly).
Proof.
  assert (forall (f g : date -> bool),
             (forall d, f d = true -> g d = true) ->
             incl (order_by (date_desc fst)
                     (map (fun r => (WorkReport.report_date r,
                                     WorkReport.report_content r))
                          (filter (fun r => (WorkReport.user_id r =? user_id)
                                            && f (WorkReport.report_date r))
                                  (work_reports db))))
                  (order_by (date_desc fst)
                     (map (fun r => (WorkReport.report_date r,
                                     WorkReport.report_content r))
                          (filter (fun r => (WorkReport.user_id r =? user_id)
                                            && g (WorkReport.report_date r))
                                  (work_reports db))))) as Mono.
  { intros f g H row Hin. apply order_by_In, in_map_iff in Hin.
    destruct Hin as (r & E & Hr). apply filter_In in Hr.
    destruct Hr as [Hr Hc]. apply andb_true_iff in Hc. destruct Hc as [Hu Hf].
    apply order_by_In, in_map_iff. exists r. split; [exact E|].
    apply filter_In. split; [assumption|].
    now rewrite Hu, (H _ Hf). }
  unfold employee_report_rows, period_condition. cbn [result_bind].
  do 3 eexists. split; [reflexivity|]. split; [reflexivity|].
  split; [reflexivity|]. split; [|split].
  - apply (Mono (fun d => date_eqb d anchor)
                (fun d => (year d =? year anchor) && (month d =? month anchor))).
    intros d E. apply date_eqb_eq in E. subst d.
    now rewrite !Z.eqb_refl.
  - apply (Mono (fun d => (year d =? year anchor) && (month d =? month anchor))
                (fun d => year d =? year anchor)).
    intros d E. apply andb_true_iff in E. exact (proj1 E).
  - intros V weekly E. unfold date_add in E.
    destruct (toordinal anchor + Z.of_nat 6 <=? MAXORDINAL); [|discriminate].
    cbn [result_bind] in E. injection E as <-.
    apply (Mono (fun d => date_eqb d anchor)
                (fun d => date_leb anchor d && date_leb d (days_after 6 anchor))).
    intros d E. apply date_eqb_eq in E. subst d.
    pose proof (valid_month_day_ok _ V) as Oa.
    apply andb_true_iff. split; [apply date_leb_refl|].
    apply date_leb_toordinal; auto using days_after_ok.
    rewrite toordinal_days_after by assumption. lia.
Qed.

(** ** The tables *)

(** X15.  Three things the pages maintain by themselves hold in every state
    the program reaches: a user has at most one work report per day (the
    report form reads before it writes); no work report and no task is left
    without its user (the removal deletes them first); and no user name is
    empty (the account form refuses it). *)
Theorem pages_keep_the_tables_consistent (db : DB) :
  reachable db ->
  (forall r1 r2,
      In r1 (work_reports db) -> In r2 (work_reports db) ->
      WorkReport.user_id r1 = WorkReport.user_id r2 ->
      WorkReport.report_date r1 = WorkReport.report_date r2 ->
      r1 = r2) /\
  (forall r, In r (work_reports db) ->
             exists u, In u (users db) /\ User.id u = WorkReport.user_id r) /\
  (forall t, In t (tasks db) ->
             exists u, In u (users db) /\ User.id u = Task.user_id t) /\
  (forall u, In u (users db) -> User.username u <> ""%string).
Proof.
  intros R. pose proof (reachable_wf db R) as (C & _ & N & L).
  split; [|split; [|split]].
  - intros r1 r2 H1 H2 Eu Ed.
    apply (NoDup_map_inj report_key (work_reports db)); auto.
    + apply C.
    + unfold report_key. now rewrite Eu, Ed.
  - intros r Hr. apply user_exists_In.
    pose proof (reports_fk db C) as F. rewrite Forall_forall in F. auto.
  - intros t Ht. apply user_exists_In.
    pose proof (tasks_fk db C) as F. rewrite Forall_forall in F. auto.
  - intros u Hu E. unfold named in N. rewrite Forall_forall in N.
    specialize (N u Hu). rewrite E in N. discriminate.
Qed.

(** ** The download link *)

Example b64encode_examples :
  b64encode "" = ""%string /\
  b64encode "f" = "Zg=="%string /\
  b64encode "fo" = "Zm8="%string /\
  b64encode "foo" = "Zm9v"%string /\
  b64encode "foob" = "Zm9vYg=="%string /\
  b64encode "fooba" = "Zm9vYmE="%string /\
  b64encode "foobar" = "Zm9vYmFy"%string.
Proof. repeat split; reflexivity. Qed.

Lemma sextet_cases (P : N -> Prop) :
  Forall P (map N.of_nat (seq 0 64)) -> forall i, (i < 64)%N -> P i.
Proof.
  intros H i Hi. rewrite Forall_forall in H. apply H.
  apply in_map_iff. exists (N.to_nat i). split; [apply N2Nat.id|].
  apply in_seq. lia.
Qed.

Lemma b64_index_char i : (i < 64)%N -> b64_index (b64_char i) = i.
Proof.
  revert i. apply sextet_cases. repeat constructor.
Qed.

Lemma b64_char_not_pad i :
  (i < 64)%N -> Ascii.eqb (b64_char i) b64_pad = false.
Proof.
  revert i. apply sextet_cases. repeat constructor.
Qed.

Lemma b64_char_not_quote i : (i < 64)%N -> b64_char i <> "034"%char.
Proof.
  revert i. apply sextet_cases. repeat (constructor; [discriminate|]).
  constructor.
Qed.

Lemma string_ind3 (P : string -> Prop) :
  P EmptyString ->
  (forall a, P (String a EmptyString)) ->
  (forall a b, P (String a (String b EmptyString))) ->
  (forall a b c rest, P rest -> P (String a (String b (String c rest)))) ->
  forall s, P s.
Proof.
  intros H0 H1 H2 H3.
  assert (forall s, P s /\ (forall a, P (String a s)) /\
                    (forall a b, P (String a (String b s)))) as H.
  { induction s as [|c s (IH0 & IH1 & IH2)].
    - auto.
    - split; [apply IH1|]. split; [intros a; apply IH2|].
      intros a b. now apply H3. }
  intros s. apply H.
Qed.

Ltac sextet_arith := zify; Z.to_euclidean_division_equations; lia.

Lemma sextets_in_range x y z :
  (x < 256 -> y < 256 -> z < 256 ->
   x / 4 < 64 /\ (x mod 4) * 16 < 64 /\ (x mod 4) * 16 + y / 16 < 64 /\
   (y mod 16) * 4 < 64 /\ (y mod 16) * 4 + z / 64 < 64 /\ z mod 64 < 64)%N.
Proof.
  intros. split; [|split; [|split; [|split; [|split]]]]; sextet_arith.
Qed.

Lemma bytes_from_sextets x y z :
  (x < 256 -> y < 256 -> z < 256 ->
   x / 4 * 4 + (x mod 4 * 16) / 16 = x /\
   x / 4 * 4 + (x mod 4 * 16 + y / 16) / 16 = x /\
   (x mod 4 * 16 + y / 16) mod 16 * 16 + (y mod 16 * 4) / 4 = y /\
   (x mod 4 * 16 + y / 16) mod 16 * 16 + (y mod 16 * 4 + z / 64) / 4 = y /\
   (y mod 16 * 4 + z / 64) mod 4 * 64 + z mod 64 = z)%N.
Proof.
  intros. split; [|split; [|split; [|split]]]; sextet_arith.
Qed.

Lemma N_of_ascii_lt a : (N_of_ascii a < 256)%N.
Proof. apply N_ascii_bounded. Qed.

(** Reading the base64 text back gives the bytes that were encoded. *)
Lemma b64_unpack_encode bytes : b64_unpack (b64encode bytes) = bytes.
Proof.
  induction bytes as [|a|a b|a b c rest IH] using string_ind3.
  - reflexivity.
  - pose proof (N_of_ascii_lt a) as Ha.
    destruct (sextets_in_range _ _ _ Ha Ha Ha) as (S1 & S2 & _).
    destruct (bytes_from_sextets _ _ _ Ha Ha Ha) as (B1 & _).
    cbn [b64encode b64_unpack]. cbv zeta.
    rewrite !b64_index_char by assumption.
    rewrite B1, ascii_N_embedding. reflexivity.
  - pose proof (N_of_ascii_lt a) as Ha. pose proof (N_of_ascii_lt b) as Hb.
    destruct (sextets_in_range _ _ _ Ha Hb Hb) as (S1 & _ & S2 & S3 & _).
    destruct (bytes_from_sextets _ _ _ Ha Hb Hb) as (_ & B1 & B2 & _).
    cbn [b64encode b64_unpack]. cbv zeta.
    rewrite (b64_char_not_pad _ S3).
    change (Ascii.eqb b64_pad b64_pad) with true. cbv iota.
    rewrite !b64_index_char by assumption.
    rewrite B1, B2, !ascii_N_embedding. reflexivity.
  - pose proof (N_of_ascii_lt a) as Ha. pose proof (N_of_ascii_lt b) as Hb.
    pose proof (N_of_ascii_lt c) as Hc.
    destruct (sextets_in_range _ _ _ Ha Hb Hc) as (S1 & _ & S2 & _ & S3 & S4).
    destruct (bytes_from_sextets _ _ _ Ha Hb Hc) as (_ & B1 & _ & B2 & B3).
    cbn [b64encode b64_unpack]. cbv zeta.
    rewrite (b64_char_not_pad _ S3), (b64_char_not_pad _ S4). cbv iota.
    rewrite !b64_index_char by assumption.
    rewrite B1, B2, B3, !ascii_N_embedding, IH. reflexivity.
Qed.

Lemma b64encode_length bytes :
  String.length (b64encode bytes) =
  (4 * ((String.length bytes + 2) / 3))%nat.
Proof.
  induction bytes as [|a|a b|a b c rest IH] using string_ind3;
    try reflexivity.
  cbn [b64encode]. cbv zeta. cbn [String.length]. rewrite IH.
  replace (S (S (S (String.length rest))) + 2)%nat
    with (String.length rest + 2 + 1 * 3)%nat by lia.
  rewrite Nat.div_add by discriminate. lia.
Qed.

Lemma b64encode_chars bytes c :
  In c (list_ascii_of_string (b64encode bytes)) ->
  c = b64_pad \/ exists i, (i < 64)%N /\ c = b64_char i.
Proof.
  induction bytes as [|a|a b|a b x rest IH] using string_ind3.
  - intros [].
  - pose proof (N_of_ascii_lt a) as Ha.
    destruct (sextets_in_range _ _ _ Ha Ha Ha) as (S1 & S2 & _).
    cbn [b64encode list_ascii_of_string In]. cbv zeta.
    intros [<- | [<- | [<- | [<- | []]]]]; eauto.
  - pose proof (N_of_ascii_lt a) as Ha. pose proof (N_of_ascii_lt b) as Hb.
    destruct (sextets_in_range _ _ _ Ha Hb Hb) as (S1 & _ & S2 & S3 & _).
    cbn [b64encode list_ascii_of_string In]. cbv zeta.
    intros [<- | [<- | [<- | [<- | []]]]]; eauto.
  - pose proof (N_of_ascii_lt a) as Ha. pose proof (N_of_ascii_lt b) as Hb.
    pose proof (N_of_ascii_lt x) as Hx.
    destruct (sextets_in_range _ _ _ Ha Hb Hx) as (S1 & _ & S2 & _ & S3 & S4).
    cbn [b64encode list_ascii_of_string In]. cbv zeta.
    intros [<- | [<- | [<- | [<- | H]]]]; eauto.
Qed.

Lemma append_cancel_l (p a b : string) :
  (p ++ a)%string = (p ++ b)%string -> a = b.
Proof.
  induction p as [|c p IH]; cbn [append]; intros H; [exact H|].
  injection H as H. auto.
Qed.

Lemma append_length (a b : string) :
  String.length (a ++ b) = (String.length a + String.length b)%nat.
Proof.
  induction a as [|c a IH]; cbn [append String.length]; [reflexivity|].
  now rewrite IH.
Qed.

Lemma append_cancel_r (a b s : string) :
  (a ++ s)%string = (b ++ s)%string -> a = b.
Proof.
  intros H.
  assert (String.length a = String.length b) as L.
  { apply (f_equal String.length) in H. rewrite !append_length in H. lia. }
  revert b H L. induction a as [|c a IH]; intros [|d b] H L;
    try discriminate; [reflexivity|].
  cbn [append] in H. injection H as -> H. cbn [String.length] in L.
  f_equal. apply IH; [exact H | lia].
Qed.

(** X16.  The payload of the download link is well-formed base64: its
    length is four characters for every three bytes of the CSV text, rounded
    up, every character is one of the 64 of the alphabet or the padding '=',
    and so none is a double quote that would end the href early. *)
Theorem download_link_payload_is_base64 (csv : string) :
  String.length (b64encode csv) = (4 * ((String.length csv + 2) / 3))%nat /\
  (forall c, In c (list_ascii_of_string (b64encode csv)) ->
             c = "="%char \/
             In c (list_ascii_of_string b64_alphabet)) /\
  ~ In "034"%char (list_ascii_of_string (b64encode csv)).
Proof.
  split; [apply b64encode_length|]. split.
  - intros c Hc. destruct (b64encode_chars csv c Hc) as [-> | (i & Hi & ->)];
      [left; reflexivity | right].
    clear Hc. revert i Hi. apply sextet_cases.
    repeat (constructor;
            [cbv; repeat (first [left; reflexivity | right])|]).
    constructor.
  - intros Hc. destruct (b64encode_chars csv _ Hc) as [E | (i & Hi & E)].
    + discriminate.
    + symmetry in E. exact (b64_char_not_quote i Hi E).
Qed.

(** X17.  The download link loses nothing of the table: reading its payload
    back gives the CSV text byte for byte, so two links with the same file
    name are equal only when their CSV texts are. *)
Theorem download_link_is_lossless (csv1 csv2 filename : string) :
  b64_unpack (b64encode csv1) = csv1 /\
  (get_csv_download_link csv1 filename = get_csv_download_link csv2 filename ->
   csv1 = csv2).
Proof.
  split; [apply b64_unpack_encode|].
  unfold get_csv_download_link. cbv zeta. intros H.
  apply append_cancel_l in H. apply append_cancel_l in H.
  apply append_cancel_l in H. apply append_cancel_r in H.
  rewrite <- (b64_unpack_encode csv1), <- (b64_unpack_encode csv2).
  now rewrite H.
Qed.

Lemma map_snd_filter {A B} (P : B -> bool) (l : list (A * B)) :
  map snd (filter (fun x => P (snd x)) l) = filter P (map snd l).
Proof.
  induction l as [|x l IH]; [reflexivity|].
  cbn [filter map]. destruct (P (snd x)); cbn [map]; now rewrite IH.
Qed.

(** X18.  In every state the program reaches, with 'All Employees' selected
    the administrator's report query returns every stored work report of the
    period exactly once: the rows, without their user names, are the dates
    and contents of the reports that satisfy the period condition, none lost
    in the join and none doubled. *)
Theorem admin_sees_every_report
  (db : DB) (p : period) (anchor : date)
  (rows : list (string * date * string)) :
  reachable db ->
  admin_report_rows "All Employees" p anchor db = Ok rows ->
  exists in_period,
    period_condition p anchor = Ok in_period /\
    Permutation
      (map (fun row => (snd (fst row), snd row)) rows)
      (map (fun r => (WorkReport.report_date r, WorkReport.report_content r))
           (filter (fun r => in_period (WorkReport.report_date r))
                   (work_reports db))) /\
    List.length rows =
    List.length (filter (fun r => in_period (WorkReport.report_date r))
                        (work_reports db)).
Proof.
  intros R E. pose proof (reachable_wf db R) as (C & _ & _).
  unfold admin_report_rows in E.
  destruct (period_condition p anchor) as [f|e]; [|discriminate].
  cbn [result_bind] in E. injection E as <-.
  exists f. split; [reflexivity|].
  assert (Permutation
            (map (fun row : string * date * string => (snd (fst row), snd row))
               (order_by (date_desc (fun row => snd (fst row)))
                  (map (fun ur : User.t * WorkReport.t =>
                          (User.username (fst ur),
                           WorkReport.report_date (snd ur),
                           WorkReport.report_content (snd ur)))
                       (filter (fun ur : User.t * WorkReport.t =>
                                  (if ("All Employees" =? "All Employees")%string
                                   then true
                                   else name_is "All Employees" (fst ur)) &&
                                  f (WorkReport.report_date (snd ur)))
                               (join_users WorkReport.user_id
                                           (work_reports db) (users db))))))
            (map (fun r => (WorkReport.report_date r,
                            WorkReport.report_content r))
                 (filter (fun r => f (WorkReport.report_date r))
                         (work_reports db)))) as P.
  { rewrite (Permutation_map _ (order_by_perm _ _)).
    rewrite map_map. cbn [fst snd andb String.eqb Ascii.eqb Bool.eqb].
    rewrite <- (join_users_total WorkReport.user_id (work_reports db)
                  (users db) (user_ids_unique db C) (reports_fk db C)) at 2.
    rewrite <- (map_snd_filter (fun r => f (WorkReport.report_date r))).
    rewrite map_map. reflexivity. }
  split; [exact P|].
  apply Permutation_length in P. rewrite !length_map in P. exact P.
Qed.

(** ** Text the database does not take *)

Lemma rollback_same db : rollback db db = db.
Proof. now destruct db. Qed.

Lemma has_nul_truthy s : has_nul s = true -> truthy s = true.
Proof. destruct s; [discriminate|reflexivity]. Qed.

Lemma varchar_over n s :
  (n < String.length s)%nat ->
  varchar n s =
  if all_spaces (substring n (String.length s - n) s)
  then Ok (substring 0 n s)
  else Raise StringDataRightTruncation.
Proof.
  intros H. unfold varchar. apply Nat.leb_gt in H. now rewrite H.
Qed.

Lemma find_all_false {A} (p : A -> bool) l :
  (forall a, In a l -> p a = false) -> find p l = None.
Proof.
  intros H. destruct (find p l) as [a|] eqn:F; [|reflexivity].
  apply find_some in F. destruct F as [Hin Hp].
  rewrite (H a Hin) in Hp. discriminate.
Qed.

(** X19.  The account form with a user name of more than 50 characters, in
    every state the program reaches.  When a character beyond the 50th is
    not a space, the INSERT raises StringDataRightTruncation, which the form
    does not catch, and no row of any table changes.  When all of them are
    spaces, the name is stored cut to its first 50 characters: if that name
    is free the account is created under it, and logs in under the cut name
    but not under the name typed; if it is taken the form answers
    'Username ... already exists!' and stores nothing. *)
Theorem over_long_user_name_is_cut_or_refused
  (db : DB) (username password : string) :
  reachable db ->
  truthy password = true -> has_nul username = false ->
  (50 < String.length username)%nat ->
  let o := admin_create_employee username password true db in
  let beyond := substring 50 (String.length username - 50) username in
  let cut := substring 0 50 username in
  let new := User.mk (users_id_seq db) cut (hash_password password) employee in
  (all_spaces beyond = false ->
   out_res o = Raise StringDataRightTruncation /\
   out_log o = [InsertUser username (hash_password password) employee] /\
   users (out_db o) = users db /\
   work_reports (out_db o) = work_reports db /\
   tasks (out_db o) = tasks db) /\
  (all_spaces beyond = true ->
   existsb (name_is cut) (users db) = false ->
   out_res o =
     Ok (Some (Success ("Employee " ++ username ++ " created successfully!")))
   /\ users (out_db o) = users db ++ [new] /\
   authenticate (out_db o) cut password = Ok (Some new) /\
   authenticate (out_db o) username password = Ok None) /\
  (all_spaces beyond = true ->
   existsb (name_is cut) (users db) = true ->
   out_res o =
     Ok (Some (Error ("Username " ++ username ++ " already exists!"))) /\
   users (out_db o) = users db /\
   work_reports (out_db o) = work_reports db /\
   tasks (out_db o) = tasks db).
Proof.
  intros R Tp N Long o beyond cut new.
  pose proof (reachable_wf db R) as W.
  assert (truthy username = true) as Tu.
  { destruct username; [cbn in Long; lia | reflexivity]. }
  assert (o = if all_spaces beyond
              then
                if existsb (name_is cut) (users db)
                then mkOutcome
                       (mkDB (users db) (work_reports db) (tasks db)
                             (users_id_seq db + 1) (work_reports_id_seq db)
                             (tasks_id_seq db))
                       [InsertUser username (hash_password password) employee]
                       (Ok (Some (Error ("Username " ++ username
                                         ++ " already exists!"))))
                else mkOutcome
                       (mkDB (users db ++ [new])
                             (work_reports db) (tasks db)
                             (users_id_seq db + 1) (work_reports_id_seq db)
                             (tasks_id_seq db))
                       [InsertUser username (hash_password password) employee]
                       (Ok (Some (Success ("Employee " ++ username
                                           ++ " created successfully!"))))
              else mkOutcome (rollback db db)
                     [InsertUser username (hash_password password) employee]
                     (Raise StringDataRightTruncation)) as Eo.
  { unfold o, admin_create_employee. rewrite Tu, Tp. cbn [andb].
    rewrite create_employee_tx_run, N, (varchar_over 50 username Long).
    fold beyond cut. destruct (all_spaces beyond); [|reflexivity].
    now destruct (existsb (name_is cut) (users db)). }
  split; [|split].
  - intros B. rewrite B in Eo. rewrite Eo, rollback_same.
    repeat split.
  - intros B Free. rewrite B, Free in Eo. rewrite Eo.
    cbn [out_res out_db users]. fold new.
    assert (has_nul cut = false) as Nc by (now apply has_nul_substring).
    assert (String.length cut <= 50)%nat as Lc by apply length_prefix.
    split; [reflexivity|]. split; [reflexivity|]. split.
    + rewrite authenticate_run, Nc. cbn [users]. f_equal.
      rewrite find_app_none.
      * cbn [find new User.username User.password].
        now rewrite (String.eqb_refl cut),
          (String.eqb_refl (hash_password password)).
      * apply find_all_false. intros u Hu.
        destruct (String.eqb_spec (User.username u) cut) as [E|]; [|reflexivity].
        exfalso.
        assert (existsb (name_is cut) (users db) = true) as X.
        { apply existsb_exists. exists u. split; [exact Hu|].
          unfold name_is. rewrite E. apply String.eqb_refl. }
        congruence.
    + rewrite authenticate_run, N. cbn [users]. f_equal.
      apply find_all_false. intros u Hu.
      destruct (String.eqb_spec (User.username u) username) as [E|];
        [|reflexivity].
      exfalso. apply in_app_or in Hu. destruct Hu as [Hu | [<- | []]].
      * destruct (stored_name db u W Hu) as [_ Lu]. rewrite E in Lu. lia.
      * cbn [new User.username] in E. rewrite <- E in Long. lia.
  - intros B Taken. rewrite B, Taken in Eo. rewrite Eo. repeat split.
Qed.

(** X20.  A text with a NUL character is refused before its statement is
    sent.  The report form has then sent its SELECT only, the task form
    (for a stored employee) the SELECT of the employees only, the account
    form nothing: each raises ValueError and leaves the database exactly as
    it was. *)
Theorem text_with_nul_is_refused (db : DB) :
  (forall user_id report_date content now,
      has_nul content = true ->
      employee_submit_report user_id report_date content true now db =
      mkOutcome db [SelectReportId user_id report_date] (Raise ValueError)) /\
  (forall selected e description due now,
      truthy selected = true ->
      find (name_is selected) (select_employees db) = Some e ->
      has_nul description = true ->
      admin_assign_task selected description due true now db =
      mkOutcome db [SelectEmployees] (Raise ValueError)) /\
  (forall username password,
      has_nul username = true -> truthy password = true ->
      admin_create_employee username password true db =
      mkOutcome db [] (Raise ValueError)).
Proof.
  split; [|split].
  - intros user_id report_date content now N.
    unfold employee_submit_report. rewrite (has_nul_truthy _ N).
    now rewrite (upsert_nul _ _ _ _ _ N), rollback_same.
  - intros selected e description due now Ts F N.
    unfold admin_assign_task, transact, admin_assign_task_tx.
    unfold bind at 1. unfold query at 1. cbn [c_db c_log].
    destruct (select_employees db) as [|e0 es] eqn:Es; [discriminate|].
    rewrite Ts, (has_nul_truthy _ N). cbn [andb].
    unfold bind at 1. unfold bind at 1. unfold next_employee_id. rewrite F.
    unfold ret at 1. unfold bind at 1. rewrite adapt_one, N.
    cbn [c_db c_log app]. now rewrite rollback_same.
  - intros username password N Tp.
    unfold admin_create_employee. rewrite (has_nul_truthy _ N), Tp.
    cbn [andb]. now rewrite create_employee_tx_run, N, rollback_same.
Qed.

End App.

(** * The definitions at work on the sample data *)

(** The sample database is a state of the program: the bootstrap, the
    account of alice, her three tasks, the first one completed, and one
    report. *)
Lemma sample_db_reachable : reachable toy_digest sample_db.
Proof.
  change sample_db with
    (perform toy_digest
       (ASubmitReport 2 (mkDate 2024 3 11) "Wrote the weekly summary" 1005)
       (out_db (init_db toy_digest
    (perform toy_digest (ACompleteTask 2 1)
       (out_db (init_db toy_digest
    (perform toy_digest
       (AAssignTask "alice" "Review the budget" (mkDate 2024 3 10) 1003)
       (out_db (init_db toy_digest
    (perform toy_digest
       (AAssignTask "alice" "Prepare the demo" (mkDate 2024 3 20) 1002)
       (out_db (init_db toy_digest
    (perform toy_digest
       (AAssignTask "alice" "File the expenses" (mkDate 2024 3 1) 1001)
       (out_db (init_db toy_digest
    (perform toy_digest (ACreateEmployee "alice" "wonderland")
       (out_db (init_db toy_digest
    (out_db (init_db toy_digest empty_db)))))))))))))))))))).
  repeat apply reach_action. apply reach_boot.
Qed.

(** The dates of the specification's example: 2024-03-15 is a Friday, its
    week starts on Monday 2024-03-11. *)
Example friday_2024_03_15 :
  weekday (mkDate 2024 3 15) = 4 /\
  default_selected_date Weekly (mkDate 2024 3 15) = Ok (mkDate 2024 3 11) /\
  default_selected_date Monthly (mkDate 2024 3 15) = Ok (mkDate 2024 3 1) /\
  default_selected_date Yearly (mkDate 2024 3 15) = Ok (mkDate 2024 1 1).
Proof. repeat split; reflexivity. Qed.

Example week_of_2024_03_11 :
  exists in_week,
    period_condition Weekly (mkDate 2024 3 11) = Ok in_week /\
    map in_week [mkDate 2024 3 10; mkDate 2024 3 11; mkDate 2024 3 12;
                 mkDate 2024 3 13; mkDate 2024 3 14; mkDate 2024 3 15;
                 mkDate 2024 3 16; mkDate 2024 3 17; mkDate 2024 3 18] =
    [false; true; true; true; true; true; true; true; false].
Proof. eexists. split; reflexivity. Qed.

Example month_of_2024_03_15 :
  exists in_month,
    period_condition Monthly (mkDate 2024 3 15) = Ok in_month /\
    map in_month [mkDate 2024 2 29; mkDate 2024 3 1; mkDate 2024 3 31;
                  mkDate 2024 4 1] =
    [false; true; true; false].
Proof. eexists. split; reflexivity. Qed.

Example year_of_2024_03_15 :
  exists in_year,
    period_condition Yearly (mkDate 2024 3 15) = Ok in_year /\
    map in_year [mkDate 2023 12 31; mkDate 2024 1 1; mkDate 2024 12 31;
                 mkDate 2025 1 1] =
    [false; true; true; false].
Proof. eexists. split; reflexivity. Qed.

(** Right after the bootstrap the administrator logs in with the default
    password, whatever the digest; a user name nobody has does not. *)
Example admin_logs_in_after_bootstrap (hash_password : string -> string) :
  authenticate hash_password (out_db (init_db hash_password empty_db))
               "admin" "admin123" = Ok (Some (seeded_admin hash_password)) /\
  authenticate hash_password (out_db (init_db hash_password empty_db))
               "nobody" "admin123" = Ok None.
Proof.
  rewrite init_db_empty. unfold authenticate. cbn [out_db users find has_nul].
  cbn [seeded_admin User.username User.password].
  rewrite (String.eqb_refl (hash_password "admin123"%string)). split; reflexivity.
Qed.

Example sample_names :
  String.length name_of_51 = 51%nat /\
  varchar 50 name_of_51 = Raise StringDataRightTruncation /\
  String.length name_of_50_and_spaces = 53%nat /\
  varchar 50 name_of_50_and_spaces =
    Ok "a-user-name-that-is-exactly-fifty-characters-long-"%string /\
  has_nul text_with_nul = true.
Proof. repeat split; reflexivity. Qed.

Lemma sample_db_without_alice_reachable :
  reachable toy_digest sample_db_without_alice.
Proof.
  change sample_db_without_alice with
    (perform toy_digest (ARemoveEmployee "alice")
             (out_db (init_db toy_digest sample_db))).
  apply reach_action, sample_db_reachable.
Qed.

(** ** C1 *)

(** The Weekly read at an anchor in the last six days of year 9999 raises
    OverflowError before any query is sent, for both views. *)
Lemma weekly_read_overflows_at_9999_12_28 :
  valid_date (mkDate 9999 12 28) = true /\
  employee_report_rows 2 Weekly (mkDate 9999 12 28) sample_db =
    Raise OverflowError /\
  admin_report_rows "All Employees" Weekly (mkDate 9999 12 28) sample_db =
    Raise OverflowError.
Proof. repeat split; reflexivity. Qed.

Lemma report_reads_match_period_witness :
  valid_date (mkDate 2024 3 11) = true /\
  toordinal (mkDate 2024 3 11) + 6 <= MAXORDINAL /\
  exists mine every,
    employee_report_rows 2 Weekly (mkDate 2024 3 11) sample_db = Ok mine /\
    admin_report_rows "All Employees" Weekly (mkDate 2024 3 11) sample_db =
      Ok every /\
    StronglySorted (fun a b => date_leb (fst b) (fst a) = true) mine.
Proof.
  assert (toordinal (mkDate 2024 3 11) + 6 <= MAXORDINAL) as H3
      by (vm_compute; discriminate).
  split; [reflexivity|]. split; [exact H3|].
  destruct (report_reads_match_period sample_db 2 "All Employees"%string Weekly
              (mkDate 2024 3 11) eq_refl
              (fun r Hr => match Hr with
                           | or_introl E =>
                               eq_ind sample_report
                                 (fun r => valid_date
                                             (WorkReport.report_date r) = true)
                                 eq_refl r E
                           | or_intror F => match F with end
                           end)
              (fun _ => H3))
    as (mine & every & E1 & E2 & _ & _ & _ & _ & S1 & _).
  exists mine, every. auto.
Defined.

(** ** C2 *)

(** Two upserts in a row for the id of a removed user, which a session of
    that user still submits: both raise ForeignKeyViolation and no report of
    that user and day is stored.  And a content with a NUL character is
    refused before its statement is sent, for a stored user too. *)
Lemma upsert_refused_for_removed_user_and_for_nul :
  reachable toy_digest sample_db_without_alice /\
  out_res (transact (upsert 2 (mkDate 2024 3 12) "first draft" 2000)
                    sample_db_without_alice) = Raise ForeignKeyViolation /\
  out_res (transact (upsert 2 (mkDate 2024 3 12) "final text" 2001)
             (out_db (transact (upsert 2 (mkDate 2024 3 12) "first draft" 2000)
                               sample_db_without_alice))) =
    Raise ForeignKeyViolation /\
  filter (report_of 2 (mkDate 2024 3 12))
    (work_reports
       (out_db (transact (upsert 2 (mkDate 2024 3 12) "final text" 2001)
          (out_db (transact (upsert 2 (mkDate 2024 3 12) "first draft" 2000)
                            sample_db_without_alice))))) = [] /\
  user_exists 2 sample_db = true /\
  transact (upsert 2 (mkDate 2024 3 12) text_with_nul 2000) sample_db =
    mkOutcome sample_db [SelectReportId 2 (mkDate 2024 3 12)]
              (Raise ValueError).
Proof.
  split; [exact sample_db_without_alice_reachable|].
  repeat split; reflexivity.
Qed.

Lemma upsert_twice_keeps_one_report_witness :
  user_exists 2 sample_db = true /\
  exists db1 db2 log1 log2 r,
    transact (upsert 2 (mkDate 2024 3 12) "first draft" 2000) sample_db =
      mkOutcome db1 log1 (Ok Created) /\
    transact (upsert 2 (mkDate 2024 3 12) "final text" 2001) db1 =
      mkOutcome db2 log2 (Ok Updated) /\
    filter (report_of 2 (mkDate 2024 3 12)) (work_reports db2) = [r] /\
    WorkReport.report_content r = "final text"%string /\
    employee_submit_report 2 (mkDate 2024 3 12) "first draft" true 2000
                           sample_db =
      mkOutcome db1 log1
                (Ok (Some (Success "Report submitted successfully!"))) /\
    employee_submit_report 2 (mkDate 2024 3 12) "final text" true 2001 db1 =
      mkOutcome db2 log2 (Ok (Some (Success "Report updated successfully!"))).
Proof.
  split; [reflexivity|].
  destruct (upsert_twice_keeps_one_report toy_digest sample_db 2
              (mkDate 2024 3 12) "first draft" "final text" 2000 2001
              sample_db_reachable eq_refl eq_refl eq_refl)
    as (db1 & db2 & log1 & log2 & b1 & r & E1 & E2 & B & F & _ & _ & C
        & M1 & M2).
  change (b1 = Created) in B. subst b1.
  exists db1, db2, log1, log2, r.
  split; [exact E1|]. split; [exact E2|]. split; [exact F|].
  split; [exact C|]. split; [exact (M1 eq_refl) | exact (M2 eq_refl)].
Defined.

(** ** C3 *)

(** The list of all tasks puts the completed task of the sample first: it is
    due first, and the status plays no part in that order. *)
Lemma admin_task_rows_ignore_status :
  admin_task_rows sample_db =
  [("alice"%string,
    Task.mk 1 2 "File the expenses" (mkDate 2024 3 1) completed 1001);
   ("alice"%string,
    Task.mk 3 2 "Review the budget" (mkDate 2024 3 10) pending 1003);
   ("alice"%string,
    Task.mk 2 2 "Prepare the demo" (mkDate 2024 3 20) pending 1002)] /\
  map (fun row => Task.status (snd row)) (admin_task_rows sample_db) =
  [completed; pending; pending].
Proof. split; reflexivity. Qed.

Lemma task_lists_order_witness :
  date_ltb (mkDate 2024 3 10) (mkDate 2024 3 20) = true /\
  employee_task_rows 2 sample_db =
  [Task.mk 3 2 "Review the budget" (mkDate 2024 3 10) pending 1003;
   Task.mk 2 2 "Prepare the demo" (mkDate 2024 3 20) pending 1002;
   Task.mk 1 2 "File the expenses" (mkDate 2024 3 1) completed 1001] /\
  Permutation (map snd (admin_task_rows sample_db)) (tasks sample_db).
Proof.
  pose proof (task_lists_order toy_digest sample_db 2)
    as (_ & _ & Three & _ & _ & _ & Every).
  split; [reflexivity|]. split.
  - exact (Three 1 2 3 "File the expenses"%string "Prepare the demo"%string
             "Review the budget"%string
             (mkDate 2024 3 1) (mkDate 2024 3 20) (mkDate 2024 3 10)
             1001 1002 1003 eq_refl eq_refl).
  - exact (Every sample_db_reachable).
Defined.

(** ** C4 *)

(** No stored user has the name, yet [authenticate] does not return None:
    the NUL character in the name makes the query raise ValueError, and the
    login page shows no message of its own. *)
Lemma authenticate_raises_on_nul_user_name :
  existsb (name_is (String "000" "admin")) (users sample_db) = false /\
  authenticate toy_digest sample_db (String "000" "admin") "admin123" =
    Raise ValueError /\
  main toy_digest (Login (String "000" "admin") "admin123")
       (new_session sample_db) =
    mkPage (mkState sample_db None) None false.
Proof. repeat split; reflexivity. Qed.

Lemma authenticate_spec_witness :
  authenticate toy_digest sample_db "alice" "wonderland" =
    Ok (Some sample_alice) /\
  In sample_alice (users sample_db) /\
  User.username sample_alice = "alice"%string /\
  User.password sample_alice = toy_digest "wonderland" /\
  authenticate toy_digest sample_db "alice" "looking glass" = Ok None /\
  authenticate toy_digest sample_db "bob" "wonderland" = Ok None /\
  main toy_digest (Login "bob" "wonderland") (new_session sample_db) =
    mkPage (mkState sample_db None)
           (Some (Error "Invalid username or password")) false.
Proof.
  split; [reflexivity|].
  pose proof (authenticate_spec toy_digest sample_db "alice" "wonderland")
    as (S & _).
  destruct (S sample_alice eq_refl) as (H1 & H2 & H3).
  pose proof (authenticate_spec toy_digest sample_db "bob" "wonderland")
    as (_ & _ & _ & _ & _ & _ & M & _).
  split; [exact H1|]. split; [exact H2|]. split; [exact H3|].
  split; [reflexivity|]. split; [reflexivity|].
  exact (M (new_session sample_db) eq_refl eq_refl).
Defined.

(** ** C5 *)

Lemma remove_employee_cascades_witness :
  In sample_alice (users sample_db) /\
  User.role sample_alice = employee /\
  let o := admin_manage_employees (Some "alice"%string) true sample_db in
  out_log o = [SelectEmployees; DeleteReportsOfUser 2; DeleteTasksOfUser 2;
               DeleteUser 2] /\
  filter (fun r => WorkReport.user_id r =? 2) (work_reports (out_db o)) = [] /\
  filter (fun t => Task.user_id t =? 2) (tasks (out_db o)) = [] /\
  filter (fun v => User.id v =? 2) (users (out_db o)) = [].
Proof.
  split; [right; left; reflexivity|]. split; [reflexivity|].
  pose proof (remove_employee_cascades toy_digest sample_db sample_alice
                sample_db_reachable (or_intror (or_introl eq_refl)) eq_refl)
    as (_ & L & R & T & U & _).
  repeat split; assumption.
Defined.

(** ** C6 *)

Lemma complete_is_idempotent_and_final_witness :
  let db1 := out_db (transact (complete 2) sample_db) in
  transact (complete 2) db1 = mkOutcome db1 [UpdateTaskCompleted 2] (Ok tt) /\
  forall t', In t' (tasks (perform toy_digest (ACompleteTask 2 3)
                                   (out_db (init_db toy_digest sample_db)))) ->
             Task.id t' = 1 -> Task.status t' = completed.
Proof.
  pose proof (complete_is_idempotent_and_final toy_digest sample_db 2)
    as (_ & _ & _ & I & F).
  split; [exact I|].
  exact (proj1 (F sample_db_reachable
                  (Task.mk 1 2 "File the expenses" (mkDate 2024 3 1)
                           completed 1001)
                  (or_introl eq_refl) eq_refl)
               (ACompleteTask 2 3)).
Defined.

(** ** C7 *)

Lemma session_is_two_state_machine_witness :
  session_user (new_session sample_db) = None /\
  session_user (interact toy_digest (Login "alice" "wonderland")
                         (new_session sample_db)) = Some sample_alice /\
  session_user (interact toy_digest (Login "alice" "looking glass")
                         (new_session sample_db)) = None /\
  session_user (interact toy_digest Logout
                         (mkState sample_db (Some sample_alice))) = None.
Proof.
  pose proof session_is_two_state_machine toy_digest
    as (H0 & _ & H1 & H2 & _ & H3 & _).
  split; [apply H0|]. split; [|split].
  - apply H1; reflexivity.
  - apply H2; reflexivity.
  - apply (H3 _ sample_alice). reflexivity.
Defined.

(** ** C8 *)

Lemma employee_touches_own_reports_witness :
  let db' := out_db (employee_submit_report 2 (mkDate 2024 3 11)
                                            "Rewrote the summary" true 2002
                                            sample_db) in
  filter (fun r => negb (WorkReport.user_id r =? 2)) (work_reports db') =
  filter (fun r => negb (WorkReport.user_id r =? 2)) (work_reports sample_db)
  /\ users db' = users sample_db /\ tasks db' = tasks sample_db.
Proof.
  pose proof (proj1 (proj2 (employee_touches_own_reports toy_digest
                              sample_db 2))
                sample_db_reachable (mkDate 2024 3 11)
                "Rewrote the summary"%string true 2002)
    as (F & _ & _ & U & T).
  repeat split; assumption.
Defined.

(** ** C9 *)

Lemma empty_field_is_refused_witness :
  admin_create_employee toy_digest "" "wonderland" true sample_db =
    mkOutcome sample_db [] (Ok (Some (Warning "Please fill all fields!"))) /\
  select_employees sample_db <> [] /\
  admin_assign_task "alice" "" (mkDate 2024 4 1) true 2003 sample_db =
    mkOutcome sample_db [SelectEmployees; SelectTasksJoinUsers]
              (Ok (Some (Warning "Please fill all fields!"),
                   Some (admin_task_rows sample_db))).
Proof.
  pose proof (empty_field_is_refused toy_digest sample_db) as (_ & C & A).
  assert (select_employees sample_db <> []) as E by discriminate.
  split; [apply C; left; reflexivity|]. split; [exact E|].
  apply (A "alice"%string ""%string (mkDate 2024 4 1) 2003
           (or_intror eq_refl) E).
Defined.

(** ** C10 *)

Lemma seeded_admin_is_the_only_admin_witness :
  filter is_admin (users sample_db) = [seeded_admin toy_digest] /\
  In (seeded_admin toy_digest)
     (users (out_db (admin_manage_employees (Some "alice"%string) true
                                            sample_db))).
Proof.
  pose proof (proj1 (seeded_admin_is_the_only_admin toy_digest sample_db)
                sample_db_reachable) as (S & _ & _ & _ & R).
  split; [exact S | apply R].
Defined.

(** * The further properties on the sample data *)

Lemma default_admin_credentials_work_witness :
  authenticate toy_digest sample_db "admin" "admin123" =
    Ok (Some (seeded_admin toy_digest)).
Proof.
  exact (proj1 (default_admin_credentials_work toy_digest sample_db
                  sample_db_reachable)).
Defined.

Lemma duplicate_username_is_refused_witness :
  In sample_alice (users sample_db) /\
  let o := admin_create_employee toy_digest "alice" "rabbit hole" true
                                 sample_db in
  out_res o = Ok (Some (Error "Username alice already exists!")) /\
  users (out_db o) = users sample_db.
Proof.
  assert (In sample_alice (users sample_db)) as Hin
      by (right; left; reflexivity).
  split; [exact Hin|].
  pose proof (duplicate_username_is_refused toy_digest sample_db
                "alice"%string "rabbit hole"%string sample_alice
                sample_db_reachable Hin eq_refl eq_refl eq_refl)
    as (E & U & _).
  split; [exact E | exact U].
Defined.


Lemma removed_employee_cannot_log_in_witness :
  User.role sample_alice = employee /\
  authenticate toy_digest
    (out_db (admin_manage_employees (Some "alice"%string) true sample_db))
    "alice" "wonderland" = Ok None.
Proof.
  split; [reflexivity|].
  pose proof (removed_employee_cannot_log_in toy_digest sample_db sample_alice
                sample_db_reachable (or_intror (or_introl eq_refl)) eq_refl)
    as (A & _).
  exact (A "wonderland"%string).
Defined.

Lemma removed_employee_session_cannot_submit_witness :
  let db' := out_db (admin_manage_employees (Some "alice"%string) true
                                            sample_db) in
  let o := employee_submit_report 2 (mkDate 2024 3 12) "Still here" true 2004
                                  db' in
  out_res o = Raise ForeignKeyViolation /\
  out_log o = [SelectReportId 2 (mkDate 2024 3 12);
               InsertReport 2 (mkDate 2024 3 12) "Still here"] /\
  work_reports (out_db o) = work_reports db'.
Proof.
  pose proof (removed_employee_session_cannot_submit toy_digest sample_db
                sample_alice (mkDate 2024 3 12) "Still here"%string 2004
                sample_db_reachable (or_intror (or_introl eq_refl))
                eq_refl eq_refl)
    as (E & G & _ & W & _).
  split; [exact E|]. split; [exact G | exact W].
Defined.

Lemma dashboards_are_gated_by_role_witness :
  st_db (page_state (main toy_digest (CreateEmployee "mallory" "secret")
                          (mkState sample_db None))) = sample_db /\
  st_db (page_state (main toy_digest (CreateEmployee "mallory" "secret")
                          (mkState sample_db (Some sample_alice)))) = sample_db.
Proof.
  pose proof (dashboards_are_gated_by_role toy_digest sample_db
                (CreateEmployee "mallory" "secret") sample_db_reachable)
    as (A & E & _).
  split; [exact A | exact (E sample_alice eq_refl)].
Defined.

Lemma assigned_task_is_listed_witness :
  let o := admin_assign_task "alice" "Order the cake" (mkDate 2024 4 1) true
                             2005 sample_db in
  let new := Task.mk 4 2 "Order the cake" (mkDate 2024 4 1) pending 2005 in
  tasks (out_db o) = tasks sample_db ++ [new] /\
  In new (employee_task_rows 2 (out_db o)).
Proof.
  pose proof (assigned_task_is_listed toy_digest sample_db sample_alice
                "Order the cake"%string (mkDate 2024 4 1) 2005
                sample_db_reachable (or_intror (or_introl eq_refl))
                eq_refl eq_refl eq_refl)
    as (T & _ & _ & _ & _ & L).
  split; [exact T | exact L].
Defined.

Lemma admin_task_list_is_complete_witness :
  Permutation (map snd (admin_task_rows sample_db)) (tasks sample_db).
Proof.
  exact (proj1 (admin_task_list_is_complete toy_digest sample_db
                  sample_db_reachable)).
Defined.

Lemma admin_sees_the_employee_view_witness :
  admin_report_rows "alice" Weekly (mkDate 2024 3 11) sample_db =
  match employee_report_rows 2 Weekly (mkDate 2024 3 11) sample_db with
  | Ok rows => Ok (map (fun row => ("alice"%string, fst row, snd row)) rows)
  | Raise e => Raise e
  end.
Proof.
  exact (admin_sees_the_employee_view toy_digest sample_db sample_alice
           Weekly (mkDate 2024 3 11) sample_db_reachable
           (or_intror (or_introl eq_refl))
           (fun E : "alice"%string = "All Employees"%string =>
              eq_ind "alice"%string
                     (fun s => match s with
                               | String "a" _ => True
                               | _ => False
                               end) I _ E)).
Defined.

Lemma submitted_report_is_shown_witness :
  employee_report_rows 2 Daily (mkDate 2024 3 12)
    (out_db (employee_submit_report 2 (mkDate 2024 3 12) "Fixed the build"
                                    true 2006 sample_db)) =
  Ok [(mkDate 2024 3 12, "Fixed the build"%string)].
Proof.
  exact (proj1 (submitted_report_is_shown toy_digest sample_db 2
                  (mkDate 2024 3 12) "Fixed the build"%string 2006
                  sample_db_reachable eq_refl eq_refl eq_refl)).
Defined.

Lemma employee_completes_own_pending_tasks_only_witness :
  let o := employee_view_tasks 2 (Some 3) true sample_db in
  In (Task.mk 3 2 "Review the budget" (mkDate 2024 3 10) completed 1003)
     (tasks (out_db o)) /\
  map Task.id (tasks (out_db o)) = map Task.id (tasks sample_db).
Proof.
  pose proof (employee_completes_own_pending_tasks_only toy_digest sample_db
                2 (Some 3) true sample_db_reachable)
    as (_ & D & _ & _ & M & _).
  split; [|exact M].
  exact (D (Task.mk 3 2 "Review the budget" (mkDate 2024 3 10) pending 1003)
           (or_intror (or_intror (or_introl eq_refl)))
           eq_refl eq_refl eq_refl eq_refl).
Defined.

Lemma default_period_contains_today_witness :
  valid_date (mkDate 2024 3 15) = true /\
  exists anchor,
    default_selected_date Weekly (mkDate 2024 3 15) = Ok anchor /\
    weekday anchor = 0 /\
    toordinal anchor <= toordinal (mkDate 2024 3 15) <= toordinal anchor + 6.
Proof.
  split; [reflexivity|].
  destruct (default_period_contains_today (mkDate 2024 3 15) Weekly eq_refl)
    as (anchor & D & _ & W & _).
  exists anchor. split; [exact D|]. exact (W eq_refl).
Defined.

Lemma narrower_period_shows_fewer_witness :
  valid_date (mkDate 2024 3 11) = true /\
  exists daily weekly,
    employee_report_rows 2 Daily (mkDate 2024 3 11) sample_db = Ok daily /\
    employee_report_rows 2 Weekly (mkDate 2024 3 11) sample_db = Ok weekly /\
    incl daily weekly.
Proof.
  split; [reflexivity|].
  destruct (narrower_period_shows_fewer sample_db 2 (mkDate 2024 3 11))
    as (daily & monthly & yearly & D & _ & _ & _ & _ & W).
  exists daily. eexists. split; [exact D|]. split; [reflexivity|].
  apply (W eq_refl). reflexivity.
Defined.

Lemma pages_keep_the_tables_consistent_witness :
  exists u, In u (users sample_db) /\
            User.id u = WorkReport.user_id sample_report.
Proof.
  exact (proj1 (proj2 (pages_keep_the_tables_consistent toy_digest sample_db
                         sample_db_reachable))
               sample_report (or_introl eq_refl)).
Defined.

Lemma download_link_is_lossless_witness :
  get_csv_download_link "report_date,report_content" "my_reports_daily.csv" =
  get_csv_download_link "report_date,report_content" "my_reports_daily.csv" /\
  b64_unpack (b64encode "report_date,report_content") =
  "report_date,report_content"%string.
Proof.
  pose proof (download_link_is_lossless "report_date,report_content"
                "report_date,report_content" "my_reports_daily.csv")
    as (U & _).
  split; [reflexivity | exact U].
Defined.

Lemma admin_sees_every_report_witness :
  admin_report_rows "All Employees" Weekly (mkDate 2024 3 11) sample_db =
    Ok [("alice"%string, mkDate 2024 3 11,
         "Wrote the weekly summary"%string)] /\
  exists in_period,
    period_condition Weekly (mkDate 2024 3 11) = Ok in_period /\
    List.length [("alice"%string, mkDate 2024 3 11,
                  "Wrote the weekly summary"%string)] =
    List.length (filter (fun r => in_period (WorkReport.report_date r))
                        (work_reports sample_db)).
Proof.
  split; [reflexivity|].
  destruct (admin_sees_every_report toy_digest sample_db Weekly
              (mkDate 2024 3 11)
              [("alice"%string, mkDate 2024 3 11,
                "Wrote the weekly summary"%string)]
              sample_db_reachable eq_refl)
    as (f & E & _ & L).
  exists f. split; [exact E | exact L].
Defined.

Lemma over_long_user_name_is_cut_or_refused_witness :
  (50 < String.length name_of_51)%nat /\
  out_res (admin_create_employee toy_digest name_of_51 "secret" true
                                 sample_db) =
    Raise StringDataRightTruncation /\
  users (out_db (admin_create_employee toy_digest name_of_51 "secret" true
                                       sample_db)) = users sample_db /\
  (50 < String.length name_of_50_and_spaces)%nat /\
  users (out_db (admin_create_employee toy_digest name_of_50_and_spaces
                                       "secret" true sample_db)) =
    users sample_db ++
    [User.mk 3 "a-user-name-that-is-exactly-fifty-characters-long-"
             (toy_digest "secret") employee] /\
  authenticate toy_digest
    (out_db (admin_create_employee toy_digest name_of_50_and_spaces
                                   "secret" true sample_db))
    name_of_50_and_spaces "secret" = Ok None.
Proof.
  assert (50 < String.length name_of_51)%nat as L1 by (simpl; lia).
  assert (50 < String.length name_of_50_and_spaces)%nat as L2
      by (simpl; lia).
  pose proof (over_long_user_name_is_cut_or_refused toy_digest sample_db
                name_of_51 "secret"%string sample_db_reachable
                eq_refl eq_refl L1) as (Refused & _).
  pose proof (over_long_user_name_is_cut_or_refused toy_digest sample_db
                name_of_50_and_spaces "secret"%string sample_db_reachable
                eq_refl eq_refl L2) as (_ & Cut & _).
  destruct (Refused eq_refl) as (E & _ & U & _).
  destruct (Cut eq_refl eq_refl) as (_ & U2 & _ & A).
  split; [exact L1|]. split; [exact E|]. split; [exact U|].
  split; [exact L2|]. split; [exact U2 | exact A].
Defined.

Lemma text_with_nul_is_refused_witness :
  has_nul text_with_nul = true /\
  employee_submit_report 2 (mkDate 2024 3 11) text_with_nul true 2007
                         sample_db =
    mkOutcome sample_db [SelectReportId 2 (mkDate 2024 3 11)]
              (Raise ValueError) /\
  admin_assign_task "alice" text_with_nul (mkDate 2024 4 1) true 2008
                    sample_db =
    mkOutcome sample_db [SelectEmployees] (Raise ValueError) /\
  admin_create_employee toy_digest text_with_nul "secret" true sample_db =
    mkOutcome sample_db [] (Raise ValueError).
Proof.
  pose proof (text_with_nul_is_refused toy_digest sample_db) as (Hr & Ht & Hc).
  split; [reflexivity|]. split; [|split].
  - exact (Hr 2 (mkDate 2024 3 11) text_with_nul 2007 eq_refl).
  - exact (Ht "alice"%string sample_alice text_with_nul (mkDate 2024 4 1) 2008
              eq_refl eq_refl eq_refl).
  - exact (Hc text_with_nul "secret"%string eq_refl eq_refl).
Defined.
